(** * Smart Pill Box: a shallow embedding of the firmware's coordination layer

    The development follows the C++ sources module by module:
    [config.h] (constants and plain structs), [TimeManager], [DoseManager],
    [AlarmController], [ButtonHandler], [LidSensor], [Storage] and the
    cooperative [loop] of [main.cpp].  Unsigned and signed machine integers
    are integers of [Z] with the wrap-around written out; the fixed-size
    arrays of the firmware are lists read with [!!] and written with
    [<[_:=_]>]; every object of the firmware is a record that is passed in
    and returned. *)

From Stdlib Require Import ZArith List Bool Lia String.
From stdpp Require Import base list strings pretty gmap.

Local Open Scope Z_scope.

(** ** Machine integers *)

Definition to_uint8 (x : Z) : Z := x mod 256.
Definition to_uint16 (x : Z) : Z := x mod 65536.
Definition to_uint32 (x : Z) : Z := x mod 4294967296.
Definition to_int8 (x : Z) : Z := (x + 128) mod 256 - 128.
Definition to_int16 (x : Z) : Z := (x + 32768) mod 65536 - 32768.

(** Range predicates: membership of a C integer type. *)
Definition is_uint8 (x : Z) : Prop := 0 <= x < 256.
Definition is_uint16 (x : Z) : Prop := 0 <= x < 65536.
Definition is_uint32 (x : Z) : Prop := 0 <= x < 4294967296.

(** [a - b] on [uint32_t], the elapsed-time idiom of the firmware. *)
Definition sub32 (a b : Z) : Z := to_uint32 (a - b).

(** A counted loop [for (i = start; i < start + n; i++) s = body i s]. *)
Fixpoint for_up {St : Type} (start n : nat) (body : nat -> St -> St) (s : St) : St :=
  match n with
  | O => s
  | S n' => for_up (S start) n' body (body start s)
  end.

(** ** config.h *)

Definition DEBOUNCE_DELAY : Z := 50.
Definition LONG_PRESS_DURATION : Z := 3000.
Definition SNOOZE_DURATION : Z := 300.
Definition LID_DEBOUNCE_DURATION : Z := 500.
Definition TIME_CHECK_INTERVAL : Z := 1000.
Definition SCREEN_TIMEOUT : Z := 180000.
Definition MAX_DOSES : nat := 10.
Definition MIN_DOSE_SPACING : Z := 15.
Definition BUTTON_COUNT : nat := 3.

(** Digital levels: [HIGH] is [true], [LOW] is [false]. *)
Definition HIGH : bool := true.
Definition LOW : bool := false.

Record Time12H : Type := mkTime12H {
  hour : Z;      (* uint8_t, 1-12 *)
  minute : Z;    (* uint8_t, 0-59 *)
  isPM : bool
}.

Record Dose : Type := mkDose {
  time : Time12H;
  enabled : bool;
  taken : bool;
  id : Z         (* uint8_t *)
}.

(** [Time12H()] and [Dose()], the default constructors. *)
Definition Time12H_default : Time12H := mkTime12H 12 0 false.
Definition Dose_default : Dose := mkDose Time12H_default false false 0.

Inductive MenuState : Type :=
| MENU_HOME | MENU_MAIN | MENU_EDIT_DOSES | MENU_ADD_DOSE | MENU_EDIT_DOSE
| MENU_DELETE_DOSE | MENU_EDIT_TIME | MENU_EDIT_DATE | MENU_ALARM_TOGGLE
| MENU_WIFI_TOGGLE | MENU_ALERT.

Inductive ButtonEvent : Type := BTN_NONE | BTN_SHORT_PRESS | BTN_LONG_PRESS.

Definition set_taken (b : bool) (d : Dose) : Dose :=
  mkDose (time d) (enabled d) b (id d).
Definition set_enabled (b : bool) (d : Dose) : Dose :=
  mkDose (time d) b (taken d) (id d).
Definition set_id (i : Z) (d : Dose) : Dose :=
  mkDose (time d) (enabled d) (taken d) i.
Definition set_time (t : Time12H) (d : Dose) : Dose :=
  mkDose t (enabled d) (taken d) (id d).

(** ** TimeManager (static helpers) *)

Module TimeManager.

Definition isTimeMatch (t1 t2 : Time12H) : bool :=
  (hour t1 =? hour t2) && (minute t1 =? minute t2) && eqb (isPM t1) (isPM t2).

Definition convert24to12 (hour24 : Z) : Time12H :=
  if hour24 =? 0 then mkTime12H 12 0 false
  else if hour24 <? 12 then mkTime12H hour24 0 false
  else if hour24 =? 12 then mkTime12H 12 0 true
  else mkTime12H (to_uint8 (hour24 - 12)) 0 true.

Definition convert12to24 (t : Time12H) : Z :=
  if isPM t then
    if hour t =? 12 then 12 else to_uint8 (hour t + 12)
  else
    if hour t =? 12 then 0 else hour t.

Definition isValidTime (t : Time12H) : bool :=
  (1 <=? hour t) && (hour t <=? 12) && (minute t <=? 59).

(** What the RTC returns from [rtc.now()]. *)
Record DateTime : Type := mkDateTime {
  dt_year : Z;
  dt_month : Z;
  dt_day : Z;        (* uint8_t *)
  dt_hour : Z;       (* 0-23 *)
  dt_minute : Z;
  dt_second : Z;
  dt_unixtime : Z
}.

(** The object: the cached reading of the RTC. *)
Record t : Type := mk {
  cachedDateTime : DateTime;
  lastCacheUpdate : Z       (* uint32_t *)
}.

Definition updateCache (tm : t) (now : Z) (rtc : DateTime) : t :=
  if sub32 now (lastCacheUpdate tm) >=? TIME_CHECK_INTERVAL
  then mk rtc now
  else tm.

Definition getCurrentTime (tm : t) (now : Z) (rtc : DateTime) : Time12H * t :=
  let tm' := updateCache tm now rtc in
  let result := convert24to12 (dt_hour (cachedDateTime tm')) in
  (mkTime12H (hour result) (dt_minute (cachedDateTime tm')) (isPM result), tm').

(** [getDate(day, month, year)]: only [day] is read by the coordinator. *)
Definition getDate (tm : t) (now : Z) (rtc : DateTime) : Z * t :=
  let tm' := updateCache tm now rtc in
  (dt_day (cachedDateTime tm'), tm').

Definition getUnixTime (tm : t) (now : Z) (rtc : DateTime) : Z * t :=
  let tm' := updateCache tm now rtc in
  (dt_unixtime (cachedDateTime tm'), tm').

(** [minutesUntil(target)]: both times as minutes since midnight. *)
Definition minutesUntil (tm : t) (now : Z) (rtc : DateTime) (target : Time12H) : Z * t :=
  let tm' := updateCache tm now rtc in
  let currentMinutes :=
    to_uint16 (dt_hour (cachedDateTime tm') * 60 + dt_minute (cachedDateTime tm')) in
  let targetMinutes := to_uint16 (convert12to24 target * 60 + minute target) in
  if targetMinutes >? currentMinutes then (to_uint16 (targetMinutes - currentMinutes), tm')
  else if targetMinutes <? currentMinutes
       then (to_uint16 ((24 * 60 - currentMinutes) + targetMinutes), tm')
       else (0, tm').

End TimeManager.

(** ** DoseManager *)

Module DoseManager.

Record t : Type := mk {
  doses : list Dose;     (* Dose doses[MAX_DOSES] *)
  doseCount : nat        (* uint8_t *)
}.

(** The slots [0 .. MAX_DOSES-1] with [id = i], as [begin] leaves them. *)
Definition fresh_slots : list Dose :=
  map (fun i => set_id (Z.of_nat i) Dose_default) (seq 0 MAX_DOSES).

Definition begin : t := mk fresh_slots 0.

Definition timeToMinutes (tm : Time12H) : Z :=
  to_uint16 (TimeManager.convert12to24 tm * 60 + minute tm).

(** The wrap-aware distance computed in [isTimeSlotAvailable] and
    [timesTooClose]. *)
Definition slotDiff (newMinutes existingMinutes : Z) : Z :=
  let diff := to_uint16 (Z.abs (to_int16 newMinutes - to_int16 existingMinutes)) in
  if diff >? 12 * 60 then to_uint16 (24 * 60 - diff) else diff.

Definition timesTooClose (t1 t2 : Time12H) : bool :=
  slotDiff (timeToMinutes t1) (timeToMinutes t2) <? MIN_DOSE_SPACING.

(** The scan of [isTimeSlotAvailable] from index [i], [n] slots to go. *)
Fixpoint slotScan (ds : list Dose) (newMinutes excludeIndex : Z) (i n : nat) : bool :=
  match n with
  | O => true
  | S n' =>
      if Z.of_nat i =? excludeIndex then slotScan ds newMinutes excludeIndex (S i) n'
      else
        match ds !! i with
        | Some d =>
            if slotDiff newMinutes (timeToMinutes (time d)) <? MIN_DOSE_SPACING
            then false
            else slotScan ds newMinutes excludeIndex (S i) n'
        | None => slotScan ds newMinutes excludeIndex (S i) n'
        end
  end.

Definition isTimeSlotAvailable (dm : t) (tm : Time12H) (excludeIndex : Z) : bool :=
  slotScan (doses dm) (timeToMinutes tm) excludeIndex 0 (doseCount dm).

(** One comparison of the bubble sort: [doses[j]] against [doses[j+1]]. *)
Definition bubbleStep (j : nat) (a : list Dose) : list Dose :=
  match a !! j, a !! (S j) with
  | Some d1, Some d2 =>
      if timeToMinutes (time d1) >? timeToMinutes (time d2)
      then <[S j := d1]> (<[j := d2]> a)
      else a
  | _, _ => a
  end.

Definition bubblePass (n i : nat) (a : list Dose) : list Dose :=
  for_up 0 (n - i - 1) bubbleStep a.

Definition assignId (i : nat) (a : list Dose) : list Dose :=
  match a !! i with
  | Some d => <[i := set_id (to_uint8 (Z.of_nat i)) d]> a
  | None => a
  end.

Definition sortArray (n : nat) (a : list Dose) : list Dose :=
  for_up 0 n assignId (for_up 0 (n - 1) (bubblePass n) a).

Definition sortDoses (dm : t) : t :=
  mk (sortArray (doseCount dm) (doses dm)) (doseCount dm).

Definition addDose (dm : t) (tm : Time12H) : bool * t :=
  if (MAX_DOSES <=? doseCount dm)%nat then (false, dm)
  else if negb (TimeManager.isValidTime tm) then (false, dm)
  else if negb (isTimeSlotAvailable dm tm (-1)) then (false, dm)
  else
    let n := doseCount dm in
    let d := mkDose tm true false (to_uint8 (Z.of_nat n)) in
    (true, sortDoses (mk (<[n := d]> (doses dm)) (S n))).

(** The shifting loop of [removeDose]: [doses[i] = doses[i+1]; doses[i].id = i]. *)
Definition shiftStep (i : nat) (a : list Dose) : list Dose :=
  match a !! (S i) with
  | Some d => <[i := set_id (to_uint8 (Z.of_nat i)) d]> a
  | None => a
  end.

Definition removeDose (dm : t) (index : nat) : bool * t :=
  if (doseCount dm <=? index)%nat then (false, dm)
  else
    let n := doseCount dm in
    let a := for_up index (n - 1 - index) shiftStep (doses dm) in
    let n' := (n - 1)%nat in
    (true, mk (<[n' := set_id (to_uint8 (Z.of_nat n')) Dose_default]> a) n').

Definition updateDose (dm : t) (index : nat) (tm : Time12H) : bool * t :=
  if (doseCount dm <=? index)%nat then (false, dm)
  else if negb (TimeManager.isValidTime tm) then (false, dm)
  else if negb (isTimeSlotAvailable dm tm (to_int8 (Z.of_nat index))) then (false, dm)
  else
    match doses dm !! index with
    | Some d =>
        (true, sortDoses (mk (<[index := set_time tm d]> (doses dm)) (doseCount dm)))
    | None => (true, sortDoses dm)
    end.

Definition modifyAt (index : nat) (f : Dose -> Dose) (a : list Dose) : list Dose :=
  match a !! index with
  | Some d => <[index := f d]> a
  | None => a
  end.

Definition setDoseEnabled (dm : t) (index : nat) (en : bool) : t :=
  if (index <? doseCount dm)%nat
  then mk (modifyAt index (set_enabled en) (doses dm)) (doseCount dm)
  else dm.

(** The scan of [checkDoseTime] from index [i], [n] slots to go. *)
Fixpoint dueScan (ds : list Dose) (currentTime : Time12H) (i n : nat) : Z :=
  match n with
  | O => -1
  | S n' =>
      match ds !! i with
      | Some d =>
          if enabled d && negb (taken d) then
            if TimeManager.isTimeMatch currentTime (time d)
            then to_int8 (Z.of_nat i)
            else dueScan ds currentTime (S i) n'
          else dueScan ds currentTime (S i) n'
      | None => dueScan ds currentTime (S i) n'
      end
  end.

Definition checkDoseTime (dm : t) (currentTime : Time12H) : Z :=
  dueScan (doses dm) currentTime 0 (doseCount dm).

Definition markDoseTaken (dm : t) (index : nat) : t :=
  if (index <? doseCount dm)%nat
  then mk (modifyAt index (set_taken true) (doses dm)) (doseCount dm)
  else dm.

Definition isDoseTaken (dm : t) (index : nat) : bool :=
  if (index <? doseCount dm)%nat
  then match doses dm !! index with Some d => taken d | None => false end
  else false.

Definition resetDailyStatus (dm : t) : t :=
  mk (for_up 0 (doseCount dm) (fun i => modifyAt i (set_taken false)) (doses dm))
     (doseCount dm).

(** [getDose]: the pointer [&doses[index]] is the index itself; [None] is
    [nullptr]. *)
Definition getDose (dm : t) (index : nat) : option nat :=
  if (index <? doseCount dm)%nat then Some index else None.

Definition clearAllDoses (dm : t) : t := mk fresh_slots 0.

(** Class invariant: the array has [MAX_DOSES] slots and the count fits. *)
Definition wf (dm : t) : Prop :=
  length (doses dm) = MAX_DOSES /\ (doseCount dm <= MAX_DOSES)%nat.

(** The scan of [getNextDose] from index [i], [n] slots to go, with the best
    candidate so far and its distance. *)
Fixpoint nextScan (ds : list Dose) (currentMinutes : Z) (i n : nat)
    (nextDose minDiff : Z) : Z :=
  match n with
  | O => nextDose
  | S n' =>
      match ds !! i with
      | Some d =>
          if enabled d && negb (taken d) then
            let doseMinutes := timeToMinutes (time d) in
            if doseMinutes >? currentMinutes then
              let diff := to_uint16 (doseMinutes - currentMinutes) in
              if diff <? minDiff
              then nextScan ds currentMinutes (S i) n' (to_int8 (Z.of_nat i)) diff
              else nextScan ds currentMinutes (S i) n' nextDose minDiff
            else if doseMinutes <? currentMinutes then
              let diff := to_uint16 ((24 * 60 - currentMinutes) + doseMinutes) in
              if diff <? minDiff
              then nextScan ds currentMinutes (S i) n' (to_int8 (Z.of_nat i)) diff
              else nextScan ds currentMinutes (S i) n' nextDose minDiff
            else to_int8 (Z.of_nat i)
          else nextScan ds currentMinutes (S i) n' nextDose minDiff
      | None => nextScan ds currentMinutes (S i) n' nextDose minDiff
      end
  end.

Definition getNextDose (dm : t) (currentTime : Time12H) : Z :=
  nextScan (doses dm) (timeToMinutes currentTime) 0 (doseCount dm) (-1) (24 * 60 + 1).

(** [getMinutesUntilNextDose(timeManager)]; the [uint16_t] of [minutesUntil]
    is returned as [int16_t].  [doses[nextDoseIndex]] is a slot of the array
    whenever the manager is well formed (the index comes from [getNextDose]);
    the [None] branch stands for the read past the array otherwise. *)
Definition getMinutesUntilNextDose (dm : t) (tm : TimeManager.t) (now : Z)
    (rtc : TimeManager.DateTime) : Z * TimeManager.t :=
  let '(currentTime, tm1) := TimeManager.getCurrentTime tm now rtc in
  let nextDoseIndex := getNextDose dm currentTime in
  if nextDoseIndex <? 0 then (-1, tm1)
  else
    match doses dm !! Z.to_nat nextDoseIndex with
    | Some d =>
        let '(m, tm2) := TimeManager.minutesUntil tm1 now rtc (time d) in
        (to_int16 m, tm2)
    | None => (-1, tm1)
    end.

(** [getDosesTakenCount] and [getEnabledDosesCount]: a [uint8_t] counter. *)
Definition countDoses (flag : Dose -> bool) (dm : t) : Z :=
  for_up 0 (doseCount dm)
    (fun i count =>
       match doses dm !! i with
       | Some d => if flag d then to_uint8 (count + 1) else count
       | None => count
       end)
    0.

Definition getDosesTakenCount (dm : t) : Z := countDoses taken dm.
Definition getEnabledDosesCount (dm : t) : Z := countDoses enabled dm.

End DoseManager.

(** ** AlarmController *)

Module AlarmController.

Inductive AlarmPattern : Type :=
| PATTERN_GENTLE | PATTERN_STANDARD | PATTERN_URGENT | PATTERN_CONFIRM.

Definition GENTLE_PATTERN : list Z := [200; 1500; 200; 1500; 200; 3000].
Definition STANDARD_PATTERN : list Z := [500; 500; 500; 500; 500; 1000].
Definition URGENT_PATTERN : list Z := [200; 200; 200; 200; 200; 200].

Record t : Type := mk {
  active : bool;
  snoozed : bool;
  buzzerEnabled : bool;
  buzzerOn : bool;
  volume : Z;                    (* uint8_t *)
  currentPattern : AlarmPattern;
  snoozeEndTime : Z;             (* uint32_t *)
  lastToggle : Z;                (* uint32_t *)
  patternStep : nat;             (* uint8_t *)
  duty : Z                       (* last ledcWrite on BUZZER_CHANNEL: the pin output *)
}.

Definition begin : t :=
  mk false false true false 128 PATTERN_STANDARD 0 0 0 0.

(** [buzzerOutput(on)]: records the flag and drives the PWM channel. *)
Definition buzzerOutput (s : t) (on : bool) : t :=
  mk (active s) (snoozed s) (buzzerEnabled s) on (volume s) (currentPattern s)
     (snoozeEndTime s) (lastToggle s) (patternStep s)
     (if on && buzzerEnabled s then volume s else 0).

Definition startAlarm (s : t) (pattern : AlarmPattern) (now : Z) : t :=
  if negb (buzzerEnabled s) then s
  else
    buzzerOutput
      (mk true false (buzzerEnabled s) (buzzerOn s) (volume s) pattern
          (snoozeEndTime s) now 0 (duty s))
      true.

Definition stopAlarm (s : t) : t :=
  let s1 := buzzerOutput
              (mk false false (buzzerEnabled s) (buzzerOn s) (volume s)
                  (currentPattern s) (snoozeEndTime s) (lastToggle s)
                  (patternStep s) (duty s))
              false in
  mk (active s1) (snoozed s1) (buzzerEnabled s1) (buzzerOn s1) (volume s1)
     (currentPattern s1) (snoozeEndTime s1) (lastToggle s1) 0 (duty s1).

Definition snooze (s : t) (seconds now : Z) : t :=
  if negb (active s) then s
  else
    buzzerOutput
      (mk (active s) true (buzzerEnabled s) (buzzerOn s) (volume s)
          (currentPattern s) (to_uint32 (now + to_uint32 (seconds * 1000)))
          (lastToggle s) (patternStep s) (duty s))
      false.

Definition getCurrentPattern (s : t) : list Z :=
  match currentPattern s with
  | PATTERN_GENTLE => GENTLE_PATTERN
  | PATTERN_URGENT => URGENT_PATTERN
  | _ => STANDARD_PATTERN
  end.

Definition getPatternLength (s : t) : nat := length (getCurrentPattern s).

Definition update (s : t) (now : Z) : t :=
  if snoozed s && active s then
    if now >=? snoozeEndTime s then
      buzzerOutput
        (mk (active s) false (buzzerEnabled s) (buzzerOn s) (volume s)
            (currentPattern s) (snoozeEndTime s) now 0 (duty s))
        true
    else s
  else if active s && negb (snoozed s) then
    if sub32 now (lastToggle s) >=? default 0 (getCurrentPattern s !! patternStep s) then
      let step1 := S (patternStep s) in
      let step := if (getPatternLength s <=? step1)%nat then O else step1 in
      let s1 := buzzerOutput
                  (mk (active s) (snoozed s) (buzzerEnabled s) (buzzerOn s) (volume s)
                      (currentPattern s) (snoozeEndTime s) (lastToggle s) step (duty s))
                  (Nat.even step) in
      mk (active s1) (snoozed s1) (buzzerEnabled s1) (buzzerOn s1) (volume s1)
         (currentPattern s1) (snoozeEndTime s1) now (patternStep s1) (duty s1)
    else s
  else s.

Definition getSnoozeRemaining (s : t) (now : Z) : Z :=
  if negb (snoozed s) || (now >=? snoozeEndTime s) then 0
  else to_uint16 (sub32 (snoozeEndTime s) now / 1000).

Definition setEnabled (s : t) (en : bool) : t :=
  mk (active s) (snoozed s) en (buzzerOn s) (volume s) (currentPattern s)
     (snoozeEndTime s) (lastToggle s) (patternStep s) (duty s).

Definition setVolume (s : t) (vol : Z) : t :=
  mk (active s) (snoozed s) (buzzerEnabled s) (buzzerOn s) vol (currentPattern s)
     (snoozeEndTime s) (lastToggle s) (patternStep s)
     (if buzzerOn s then vol else duty s).

(** [playConfirm], [playError], [playStartup], [beep]: a blocking jingle that
    leaves the channel written to 0. *)
Definition playJingle (s : t) : t :=
  if negb (buzzerEnabled s) then s
  else mk (active s) (snoozed s) (buzzerEnabled s) (buzzerOn s) (volume s)
          (currentPattern s) (snoozeEndTime s) (lastToggle s) (patternStep s) 0.

Definition playConfirm := playJingle.

(** The calls of the engine named in its contract, with their arguments. *)
Inductive op : Type :=
| OpStart (pattern : AlarmPattern) (now : Z)
| OpStop
| OpSnooze (seconds now : Z)
| OpUpdate (now : Z).

Definition run_op (s : t) (o : op) : t :=
  match o with
  | OpStart p now => startAlarm s p now
  | OpStop => stopAlarm s
  | OpSnooze secs now => snooze s secs now
  | OpUpdate now => update s now
  end.

Definition run_ops (s : t) (l : list op) : t := fold_left run_op l s.

(** The alarm-session invariant of the data model. *)
Definition session_inv (s : t) : Prop :=
  (snoozed s = true -> active s = true) /\
  (active s = false -> snoozed s = false -> buzzerOn s = false /\ duty s = 0).

End AlarmController.

(** ** ButtonHandler *)

Module ButtonHandler.

Record ButtonState : Type := mkButton {
  pin : Z;
  lastReading : bool;
  currentState : bool;
  wasPressed : bool;
  lastDebounceTime : Z;       (* uint32_t *)
  pressStartTime : Z;         (* uint32_t *)
  longPressTriggered : bool;
  pendingEvent : ButtonEvent
}.

Record t : Type := mk {
  buttons : list ButtonState;  (* ButtonState buttons[BUTTON_COUNT] *)
  lastActivity : Z
}.

(** The three lines [processButton] prints on the debug console. *)
Inductive DebugLine : Type :=
| LinePressed (index : nat)
| LineShortPress (index : nat)
| LineLongPress (index : nat).

Definition BTN_OK : Z := 25.
Definition BTN_NEXT : Z := 26.
Definition BTN_BACK : Z := 27.
Definition BUTTON_OK : nat := 0.
Definition BUTTON_NEXT : nat := 1.
Definition BUTTON_BACK : nat := 2.

Definition begin (now : Z) : t :=
  mk (map (fun p => mkButton p HIGH HIGH false 0 0 false BTN_NONE)
          [BTN_OK; BTN_NEXT; BTN_BACK])
     now.

(** The body of [processButton] on the selected [ButtonState]; the second
    component tells whether [lastActivity] is stamped, the third is what is
    printed. *)
Definition processState (index : nat) (btn : ButtonState) (reading : bool) (now : Z)
  : ButtonState * bool * list DebugLine :=
  let debounce := if eqb reading (lastReading btn) then lastDebounceTime btn else now in
  if sub32 now debounce >? DEBOUNCE_DELAY then
    (* the confirmed-transition block *)
    let '(cur, start, lp, wp, pend, stamp, log1) :=
      if eqb reading (currentState btn) then
        (currentState btn, pressStartTime btn, longPressTriggered btn, wasPressed btn,
         pendingEvent btn, false, [])
      else if eqb reading LOW then
        (reading, now, false, true, pendingEvent btn, true, [LinePressed index])
      else if wasPressed btn && negb (longPressTriggered btn) then
        (reading, pressStartTime btn, longPressTriggered btn, false,
         BTN_SHORT_PRESS, false, [LineShortPress index])
      else
        (reading, pressStartTime btn, longPressTriggered btn, false,
         pendingEvent btn, false, [])
    in
    (* the long-press check *)
    if eqb cur LOW && wp && negb lp && (sub32 now start >=? LONG_PRESS_DURATION) then
      (mkButton (pin btn) reading cur wp debounce start true BTN_LONG_PRESS,
       stamp, log1 ++ [LineLongPress index])
    else
      (mkButton (pin btn) reading cur wp debounce start lp pend, stamp, log1)
  else
    (mkButton (pin btn) reading (currentState btn) (wasPressed btn) debounce
              (pressStartTime btn) (longPressTriggered btn) (pendingEvent btn),
     false, []).

(** [processButton(index)], the level of the pin being [reading]. *)
Definition processButton (h : t) (index : nat) (reading : bool) (now : Z)
  : t * list DebugLine :=
  if (BUTTON_COUNT <=? index)%nat then (h, [])
  else
    match buttons h !! index with
    | Some btn =>
        let '(btn', stamp, log) := processState index btn reading now in
        (mk (<[index := btn']> (buttons h)) (if stamp then now else lastActivity h), log)
    | None => (h, [])
    end.

(** [update()]: the three buttons in turn; [pins i] is the level read on the
    pin of button [i]. *)
Definition update (h : t) (pins : nat -> bool) (now : Z) : t * list DebugLine :=
  for_up 0 BUTTON_COUNT
    (fun i acc =>
       let '(h', log) := processButton (fst acc) i (pins i) now in
       (h', snd acc ++ log))
    (h, []).

Definition clearPending (btn : ButtonState) : ButtonState :=
  mkButton (pin btn) (lastReading btn) (currentState btn) (wasPressed btn)
           (lastDebounceTime btn) (pressStartTime btn) (longPressTriggered btn) BTN_NONE.

Definition consumeEvent (h : t) (index : nat) : ButtonEvent * t :=
  if (BUTTON_COUNT <=? index)%nat then (BTN_NONE, h)
  else
    match buttons h !! index with
    | Some btn => (pendingEvent btn, mk (<[index := clearPending btn]> (buttons h)) (lastActivity h))
    | None => (BTN_NONE, h)
    end.

Definition getOkEvent (h : t) := consumeEvent h BUTTON_OK.
Definition getNextEvent (h : t) := consumeEvent h BUTTON_NEXT.
Definition getBackEvent (h : t) := consumeEvent h BUTTON_BACK.

Definition anyButtonPressed (h : t) : bool :=
  existsb (fun btn => eqb (currentState btn) LOW) (firstn BUTTON_COUNT (buttons h)).

Definition clearEvents (h : t) : t :=
  mk (for_up 0 BUTTON_COUNT
        (fun i bs => match bs !! i with
                     | Some btn => <[i := clearPending btn]> bs
                     | None => bs
                     end)
        (buttons h))
     (lastActivity h).

(** A run of [update] calls, one per loop iteration, with what was printed. *)
Fixpoint updates (h : t) (samples : list ((nat -> bool) * Z)) : t * list DebugLine :=
  match samples with
  | [] => (h, [])
  | (pins, now) :: rest =>
      let '(h1, log1) := update h pins now in
      let '(h2, log2) := updates h1 rest in
      (h2, log1 ++ log2)
  end.


Definition is_long_line (index : nat) (l : DebugLine) : bool :=
  match l with LineLongPress i => Nat.eqb i index | _ => false end.

Definition is_short_line (index : nat) (l : DebugLine) : bool :=
  match l with LineShortPress i => Nat.eqb i index | _ => false end.

Definition wf (h : t) : Prop := length (buttons h) = BUTTON_COUNT.

End ButtonHandler.

(** ** LidSensor *)

Module LidSensor.

Record t : Type := mk {
  lidOpen : bool;
  lastState : bool;
  currentReading : bool;
  justOpenedFlag : bool;
  justClosedFlag : bool;
  sensorWorking : bool;
  lastDebounceTime : Z;   (* uint32_t *)
  stateChangeTime : Z;    (* uint32_t *)
  lastOpenTime : Z;       (* uint32_t *)
  openingsToday : Z       (* uint16_t *)
}.

Definition begin (reading : bool) : t :=
  mk (eqb reading HIGH) reading reading false false true 0 0 0 0.

Definition update (s : t) (reading : bool) (now : Z) : t :=
  let changed := negb (eqb reading (currentReading s)) in
  let debounce := if changed then now else lastDebounceTime s in
  let change := if changed then now else stateChangeTime s in
  let newState := eqb reading HIGH in
  if (sub32 now debounce >? DEBOUNCE_DELAY)
     && (sub32 now change >=? LID_DEBOUNCE_DURATION)
     && negb (eqb newState (lidOpen s))
  then
    if newState then
      mk true (lastState s) reading true false (sensorWorking s) debounce change
         now (to_uint16 (openingsToday s + 1))
    else
      mk false (lastState s) reading false true (sensorWorking s) debounce change
         (lastOpenTime s) (openingsToday s)
  else
    mk (lidOpen s) (lastState s) reading false false (sensorWorking s) debounce change
       (lastOpenTime s) (openingsToday s).

Definition justOpened (s : t) : bool * t :=
  if justOpenedFlag s then
    (true, mk (lidOpen s) (lastState s) (currentReading s) false (justClosedFlag s)
              (sensorWorking s) (lastDebounceTime s) (stateChangeTime s)
              (lastOpenTime s) (openingsToday s))
  else (false, s).

Definition resetDailyCount (s : t) : t :=
  mk (lidOpen s) (lastState s) (currentReading s) (justOpenedFlag s) (justClosedFlag s)
     (sensorWorking s) (lastDebounceTime s) (stateChangeTime s) (lastOpenTime s) 0.

End LidSensor.

(** ** Storage *)

Module Storage.

(** What the ESP32 [Preferences] store keeps under a key. *)
Inductive PrefValue : Type :=
| PUChar (v : Z)
| PUShort (v : Z)
| PBool (v : bool)
| PBytes (bytes : list Z)
| PLog (timestamp : Z) (doseIndex : Z) (wasOnTime : bool).

Record t : Type := mk {
  prefs : gmap string PrefValue;
  initialized : bool
}.

Definition KEY_DOSE_COUNT : string := "doseCount".
Definition KEY_DOSES : string := "doses".
Definition KEY_ALARM_EN : string := "alarmEn".
Definition KEY_MUTE_MODE : string := "muteMode".
Definition KEY_LAST_DAY : string := "lastDay".
Definition KEY_LOG_COUNT : string := "logCount".
Definition KEY_CRC : string := "crc".
Definition MAX_LOG_ENTRIES : Z := 100.

(** The calls of [Preferences] the firmware makes, after the library's
    documented behaviour: a put replaces the entry of the key, a get of a
    missing or differently typed entry gives the default, [putBytes] of zero
    bytes writes nothing, and [getBytes] copies the stored blob to the front
    of the buffer if it fits in [maxLen], giving its length (0 if it does not
    fit). *)
Definition putUChar (key : string) (v : Z) (p : gmap string PrefValue) :=
  <[key := PUChar (to_uint8 v)]> p.
Definition getUChar (key : string) (def : Z) (p : gmap string PrefValue) : Z :=
  match p !! key with Some (PUChar v) => v | _ => def end.
Definition putUShort (key : string) (v : Z) (p : gmap string PrefValue) :=
  <[key := PUShort (to_uint16 v)]> p.
Definition getUShort (key : string) (def : Z) (p : gmap string PrefValue) : Z :=
  match p !! key with Some (PUShort v) => v | _ => def end.
Definition putBool (key : string) (v : bool) (p : gmap string PrefValue) :=
  <[key := PBool v]> p.
Definition getBool (key : string) (def : bool) (p : gmap string PrefValue) : bool :=
  match p !! key with Some (PBool v) => v | _ => def end.
Definition putBytes (key : string) (bytes : list Z) (p : gmap string PrefValue) :=
  match bytes with
  | [] => p
  | _ => <[key := PBytes bytes]> p
  end.
Definition getBytes (key : string) (buf : list Z) (maxLen : nat)
                    (p : gmap string PrefValue) : nat * list Z :=
  match p !! key with
  | Some (PBytes bytes) =>
      let len := length bytes in
      if (len =? 0)%nat || (maxLen =? 0)%nat then (len, buf)
      else if (maxLen <? len)%nat then (O, buf)
      else (len, bytes ++ drop len buf)
  | _ => (O, buf)
  end.

Definition bool_byte (b : bool) : Z := if b then 1 else 0.

(** [calculateCRC]: the inner loop shifts one bit. *)
Definition crcShift (crc : Z) : Z :=
  if negb (Z.land crc 128 =? 0)
  then to_uint8 (Z.lxor (Z.shiftl crc 1) 7)
  else to_uint8 (Z.shiftl crc 1).

Definition crcByte (crc byte : Z) : Z :=
  for_up 0 8 (fun _ c => crcShift c) (to_uint8 (Z.lxor crc byte)).

Definition calculateCRC (data : list Z) : Z := fold_left crcByte data 0.

(** The serialising loop body of [saveDoses]. *)
Definition packDose (doses : list Dose) (i : nat) (buffer : list Z) : list Z :=
  match doses !! i with
  | Some d =>
      let offset := Z.to_nat (to_uint8 (Z.of_nat i * 4)) in
      <[(offset + 3)%nat := bool_byte (enabled d)]>
        (<[(offset + 2)%nat := bool_byte (isPM (time d))]>
           (<[(offset + 1)%nat := to_uint8 (minute (time d))]>
              (<[offset := to_uint8 (hour (time d))]> buffer)))
  | None => buffer
  end.

(** [saveDoses(doses, count)].  [uint8_t buffer[MAX_DOSES * 4]] is not
    initialised: it starts as whatever the stack holds, here [stack]. *)
Definition saveDoses (stack : list Z) (st : t) (doses : list Dose) (count : nat) : t :=
  if negb (initialized st) then st
  else
    let p1 := putUChar KEY_DOSE_COUNT (Z.of_nat count) (prefs st) in
    let buffer := for_up 0 count (packDose doses) stack in
    let p2 := putBytes KEY_DOSES (take (count * 4) buffer) p1 in
    let crc := calculateCRC (take (count * 4) buffer) in
    mk (putUChar KEY_CRC crc p2) true.

(** The deserialising loop body of [loadDoses]. *)
Definition unpackDose (buffer : list Z) (i : nat) (doses : list Dose) : list Dose :=
  let offset := Z.to_nat (to_uint8 (Z.of_nat i * 4)) in
  let byte k := default 0 (buffer !! (offset + k)%nat) in
  <[i := mkDose (mkTime12H (byte 0%nat) (byte 1%nat) (byte 2%nat =? 1))
                (byte 3%nat =? 1) false (to_uint8 (Z.of_nat i))]> doses.

(** [loadDoses(doses)]: the count returned and the caller's array; its
    [buffer] starts as [stack] too. *)
Definition loadDoses (stack : list Z) (st : t) (doses : list Dose) : nat * list Dose :=
  if negb (initialized st) then (O, doses)
  else
    let count := Z.to_nat (getUChar KEY_DOSE_COUNT 0 (prefs st)) in
    if (count =? 0)%nat || (MAX_DOSES <? count)%nat then (O, doses)
    else
      let '(bytesRead, buffer) := getBytes KEY_DOSES stack (count * 4) (prefs st) in
      if negb (bytesRead =? count * 4)%nat then (O, doses)
      else
        let storedCrc := getUChar KEY_CRC 0 (prefs st) in
        let calculatedCrc := calculateCRC (take (count * 4) buffer) in
        if negb (storedCrc =? calculatedCrc) then (O, doses)
        else (count, for_up 0 count (unpackDose buffer) doses).

Definition saveSettings (st : t) (alarmEnabled muteMode : bool) : t :=
  if negb (initialized st) then st
  else mk (putBool KEY_MUTE_MODE muteMode (putBool KEY_ALARM_EN alarmEnabled (prefs st))) true.

Definition saveLastDay (st : t) (day : Z) : t :=
  if negb (initialized st) then st
  else mk (putUChar KEY_LAST_DAY day (prefs st)) true.

Definition loadLastDay (st : t) : Z :=
  if negb (initialized st) then 0 else getUChar KEY_LAST_DAY 0 (prefs st).

(** [sprintf(logKey, "log%d", logIndex)]. *)
Definition logKey (logIndex : Z) : string := "log" +:+ pretty logIndex.

Definition logLidOpening (st : t) (timestamp doseIndex : Z) (wasOnTime : bool) : t :=
  if negb (initialized st) then st
  else
    let logCount := getUShort KEY_LOG_COUNT 0 (prefs st) in
    let logIndex := to_uint8 (logCount mod MAX_LOG_ENTRIES) in
    let entryIndex := if doseIndex >=? 0 then to_uint8 doseIndex else 255 in
    let p1 := <[logKey logIndex := PLog timestamp entryIndex wasOnTime]> (prefs st) in
    mk (putUShort KEY_LOG_COUNT (logCount + 1) p1) true.


Definition STORAGE_VERSION : Z := 1.   (* config.h *)
Definition KEY_VERSION : string := "version".

(** The six default entries written on first run and by [factoryReset]. *)
Definition putDefaults (p : gmap string PrefValue) : gmap string PrefValue :=
  putUShort KEY_LOG_COUNT 0
    (putUChar KEY_LAST_DAY 0
       (putBool KEY_MUTE_MODE false
          (putBool KEY_ALARM_EN true
             (putUChar KEY_DOSE_COUNT 0
                (putUChar KEY_VERSION STORAGE_VERSION p))))).

(** [migrateData(oldVersion)]. *)
Definition migrateData (p : gmap string PrefValue) : gmap string PrefValue :=
  putUChar KEY_VERSION STORAGE_VERSION p.

(** [begin()]: [opened] is what [prefs.begin] returns, [p] the content of the
    namespace on flash. *)
Definition begin (opened : bool) (p : gmap string PrefValue) : bool * t :=
  if negb opened then (false, mk p false)
  else
    let storedVersion := getUChar KEY_VERSION 0 p in
    if storedVersion =? 0 then (true, mk (putDefaults p) true)
    else if storedVersion <? STORAGE_VERSION then (true, mk (migrateData p) true)
    else (true, mk p true).

(** [loadSettings(alarmEnabled, muteMode)]: the two output parameters. *)
Definition loadSettings (st : t) : bool * bool :=
  if negb (initialized st) then (true, false)
  else (getBool KEY_ALARM_EN true (prefs st), getBool KEY_MUTE_MODE false (prefs st)).

Definition getLogCount (st : t) : Z :=
  if negb (initialized st) then 0 else getUShort KEY_LOG_COUNT 0 (prefs st).

Definition getVersion (st : t) : Z :=
  if negb (initialized st) then 0 else getUChar KEY_VERSION 0 (prefs st).

(** [factoryReset()]: [prefs.clear()] empties the namespace. *)
Definition factoryReset (st : t) : t :=
  if negb (initialized st) then st else mk (putDefaults ∅) true.

End Storage.

(** ** UIManager (the display power state; drawing is not modelled) *)

Module UIManager.

Record t : Type := mk {
  displayOn : bool;
  lastActivity : Z     (* uint32_t *)
}.

Definition isOn (u : t) : bool := displayOn u.
Definition turnOff (u : t) : t := mk false (lastActivity u).
Definition turnOn (u : t) (now : Z) : t := mk true now.

Definition updateActivity (u : t) (now : Z) : t :=
  let u1 := mk (displayOn u) now in
  if negb (displayOn u1) then turnOn u1 now else u1.

Definition checkTimeout (u : t) (now : Z) : bool * t :=
  if displayOn u && (sub32 now (lastActivity u) >=? SCREEN_TIMEOUT)
  then (true, turnOff u)
  else (false, u).

End UIManager.

(** ** main.cpp: the coordinator *)

Module Main.

Record SystemState : Type := mkSystemState {
  alarmEnabled : bool;
  wifiEnabled : bool;
  muteMode : bool;
  screenOn : bool;
  alarmActive : bool;
  snoozeActive : bool;
  snoozeUntil : Z;
  currentMenu : MenuState;
  menuSelection : Z;
  editIndex : Z;
  activeDoseIndex : Z;       (* int8_t, -1 if none *)
  lastActivity : Z;
  currentDay : Z             (* uint8_t *)
}.

(** The global objects of [main.cpp]. *)
Record World : Type := mkWorld {
  systemState : SystemState;
  timeManager : TimeManager.t;
  doseManager : DoseManager.t;
  uiManager : UIManager.t;
  buttonHandler : ButtonHandler.t;
  alarmController : AlarmController.t;
  lidSensor : LidSensor.t;
  storage : Storage.t;
  lastTimeCheck : Z          (* uint32_t *)
}.

(** What one iteration reads from the hardware. *)
Record Input : Type := mkInput {
  millis : Z;
  pins : nat -> bool;        (* button levels by button index *)
  reed : bool;               (* level of REED_SWITCH *)
  rtc : TimeManager.DateTime
}.

Definition with_alert (s : SystemState) (idx : Z) : SystemState :=
  mkSystemState (alarmEnabled s) (wifiEnabled s) (muteMode s) (screenOn s)
    true (snoozeActive s) (snoozeUntil s) MENU_ALERT (menuSelection s)
    (editIndex s) idx (lastActivity s) (currentDay s).

Definition with_currentDay (s : SystemState) (day : Z) : SystemState :=
  mkSystemState (alarmEnabled s) (wifiEnabled s) (muteMode s) (screenOn s)
    (alarmActive s) (snoozeActive s) (snoozeUntil s) (currentMenu s)
    (menuSelection s) (editIndex s) (activeDoseIndex s) (lastActivity s) day.

Definition with_lastActivity (s : SystemState) (now : Z) : SystemState :=
  mkSystemState (alarmEnabled s) (wifiEnabled s) (muteMode s) (screenOn s)
    (alarmActive s) (snoozeActive s) (snoozeUntil s) (currentMenu s)
    (menuSelection s) (editIndex s) (activeDoseIndex s) now (currentDay s).

Definition with_currentMenu (s : SystemState) (m : MenuState) : SystemState :=
  mkSystemState (alarmEnabled s) (wifiEnabled s) (muteMode s) (screenOn s)
    (alarmActive s) (snoozeActive s) (snoozeUntil s) m
    (menuSelection s) (editIndex s) (activeDoseIndex s) (lastActivity s) (currentDay s).

(** The four assignments that close an alert when the lid opens. *)
Definition with_alert_cleared (s : SystemState) : SystemState :=
  mkSystemState (alarmEnabled s) (wifiEnabled s) (muteMode s) (screenOn s)
    false false (snoozeUntil s) MENU_HOME
    (menuSelection s) (editIndex s) (-1) (lastActivity s) (currentDay s).

(** [checkDoseTime()] of [main.cpp]. *)
Definition checkDoseTime (w : World) (inp : Input) : World :=
  let s := systemState w in
  if negb (alarmEnabled s) || muteMode s then w
  else if alarmActive s || snoozeActive s then w
  else
    let '(currentTime, tm) :=
      TimeManager.getCurrentTime (timeManager w) (millis inp) (rtc inp) in
    let doseIndex := DoseManager.checkDoseTime (doseManager w) currentTime in
    if doseIndex >=? 0 then
      mkWorld (with_alert s doseIndex) tm (doseManager w)
        (UIManager.turnOn (uiManager w) (millis inp)) (buttonHandler w)
        (AlarmController.startAlarm (alarmController w)
           AlarmController.PATTERN_STANDARD (millis inp))
        (lidSensor w) (storage w) (lastTimeCheck w)
    else
      mkWorld s tm (doseManager w) (uiManager w) (buttonHandler w)
        (alarmController w) (lidSensor w) (storage w) (lastTimeCheck w).

(** [checkMidnightReset()]. *)
Definition checkMidnightReset (w : World) (inp : Input) : World :=
  let s := systemState w in
  let '(day, tm) := TimeManager.getDate (timeManager w) (millis inp) (rtc inp) in
  if negb (day =? currentDay s) && negb (currentDay s =? 0) then
    mkWorld (with_currentDay s day) tm
      (DoseManager.resetDailyStatus (doseManager w)) (uiManager w) (buttonHandler w)
      (alarmController w) (LidSensor.resetDailyCount (lidSensor w))
      (Storage.saveLastDay (storage w) day) (lastTimeCheck w)
  else
    mkWorld (with_currentDay s day) tm (doseManager w) (uiManager w) (buttonHandler w)
      (alarmController w) (lidSensor w) (storage w) (lastTimeCheck w).

Definition with_lastTimeCheck (w : World) (now : Z) : World :=
  mkWorld (systemState w) (timeManager w) (doseManager w) (uiManager w)
    (buttonHandler w) (alarmController w) (lidSensor w) (storage w) now.

(** The body of the polling [if] of [loop]: the two checks, in source order. *)
Definition pollingTick (w : World) (inp : Input) : World :=
  checkMidnightReset (checkDoseTime (with_lastTimeCheck w (millis inp)) inp) inp.

Definition pollingPhase (w : World) (inp : Input) : World :=
  if sub32 (millis inp) (lastTimeCheck w) >=? TIME_CHECK_INTERVAL
  then pollingTick w inp
  else w.

(** "Handle lid opening during alarm". *)
Definition lidPhase (w : World) (inp : Input) : World :=
  let s := systemState w in
  if alarmActive s then
    let '(opened, lid) := LidSensor.justOpened (lidSensor w) in
    if opened then
      let '(dm, tm, st) :=
        if activeDoseIndex s >=? 0 then
          let '(unix, tm) :=
            TimeManager.getUnixTime (timeManager w) (millis inp) (rtc inp) in
          (DoseManager.markDoseTaken (doseManager w)
             (Z.to_nat (to_uint8 (activeDoseIndex s))),
           tm,
           Storage.logLidOpening (storage w) unix (activeDoseIndex s) true)
        else (doseManager w, timeManager w, storage w) in
      mkWorld (with_alert_cleared s) tm dm (uiManager w) (buttonHandler w)
        (AlarmController.playConfirm (AlarmController.stopAlarm (alarmController w)))
        lid st (lastTimeCheck w)
    else
      mkWorld s (timeManager w) (doseManager w) (uiManager w) (buttonHandler w)
        (alarmController w) lid (storage w) (lastTimeCheck w)
  else w.

(** "Check screen timeout (not during alarm)". *)
Definition timeoutPhase (w : World) (inp : Input) : World :=
  if negb (alarmActive (systemState w)) then
    let '(off, ui) := UIManager.checkTimeout (uiManager w) (millis inp) in
    mkWorld (if off then with_currentMenu (systemState w) MENU_HOME else systemState w)
      (timeManager w) (doseManager w) ui (buttonHandler w)
      (alarmController w) (lidSensor w) (storage w) (lastTimeCheck w)
  else w.

(** The state after the four [update()] calls that open [loop];
    [uiManager.update()] only advances the animation frame. *)
Definition inputPhase (w : World) (inp : Input) : World :=
  mkWorld (systemState w) (timeManager w) (doseManager w) (uiManager w)
    (fst (ButtonHandler.update (buttonHandler w) (pins inp) (millis inp)))
    (AlarmController.update (alarmController w) (millis inp))
    (LidSensor.update (lidSensor w) (reed inp) (millis inp))
    (storage w) (lastTimeCheck w).

(** The test of the wake-up shortcut: a button is down and the display is off. *)
Definition wakeShortcut (w : World) : bool :=
  ButtonHandler.anyButtonPressed (buttonHandler w)
  && negb (UIManager.isOn (uiManager w)).

Definition wakeScreen (w : World) (inp : Input) : World :=
  mkWorld (with_lastActivity (systemState w) (millis inp)) (timeManager w)
    (doseManager w) (UIManager.turnOn (uiManager w) (millis inp))
    (ButtonHandler.clearEvents (buttonHandler w))
    (alarmController w) (lidSensor w) (storage w) (lastTimeCheck w).

Section Loop.

(** The [switch] of [loop] calls one handler per menu state; the handlers
    (menus, editors, alert screen) are a parameter of the loop. *)
Variable handler : MenuState -> Input -> World -> World.

Definition dispatch (w : World) (inp : Input) : World :=
  handler (currentMenu (systemState w)) inp w.

(** One iteration of [loop()]. *)
Definition loop (w : World) (inp : Input) : World :=
  let w1 := inputPhase w inp in
  if wakeShortcut w1 then wakeScreen w1 inp
  else
    let w2 := pollingPhase w1 inp in
    let w3 := lidPhase w2 inp in
    let w4 := dispatch w3 inp in
    timeoutPhase w4 inp.

End Loop.

(** Named after the spec's words: the tick as the specification orders it,
    day rollover first and the dose-time match second. *)
Definition pollingTick_rolloverFirst (w : World) (inp : Input) : World :=
  checkDoseTime (checkMidnightReset (with_lastTimeCheck w (millis inp)) inp) inp.

Definition with_snoozeActive (s : SystemState) (b : bool) : SystemState :=
  mkSystemState (alarmEnabled s) (wifiEnabled s) (muteMode s) (screenOn s)
    (alarmActive s) b (snoozeUntil s) (currentMenu s)
    (menuSelection s) (editIndex s) (activeDoseIndex s) (lastActivity s) (currentDay s).

Definition with_alarmEnabled (s : SystemState) (b : bool) : SystemState :=
  mkSystemState b (wifiEnabled s) (muteMode s) (screenOn s)
    (alarmActive s) (snoozeActive s) (snoozeUntil s) (currentMenu s)
    (menuSelection s) (editIndex s) (activeDoseIndex s) (lastActivity s) (currentDay s).

Definition with_menu (s : SystemState) (m : MenuState) (selection : Z) : SystemState :=
  mkSystemState (alarmEnabled s) (wifiEnabled s) (muteMode s) (screenOn s)
    (alarmActive s) (snoozeActive s) (snoozeUntil s) m
    selection (editIndex s) (activeDoseIndex s) (lastActivity s) (currentDay s).

(** The three assignments of the long-press dismissal in [handleAlertState]. *)
Definition with_alert_dismissed (s : SystemState) : SystemState :=
  mkSystemState (alarmEnabled s) (wifiEnabled s) (muteMode s) (screenOn s)
    false false (snoozeUntil s) MENU_HOME
    (menuSelection s) (editIndex s) (activeDoseIndex s) (lastActivity s) (currentDay s).

Definition is_short (e : ButtonEvent) : bool :=
  match e with BTN_SHORT_PRESS => true | _ => false end.
Definition is_long (e : ButtonEvent) : bool :=
  match e with BTN_LONG_PRESS => true | _ => false end.

(** [goToHome()]. *)
Definition goToHome (w : World) (inp : Input) : World :=
  mkWorld (with_menu (systemState w) MENU_HOME 0) (timeManager w) (doseManager w)
    (UIManager.updateActivity (uiManager w) (millis inp)) (buttonHandler w)
    (alarmController w) (lidSensor w) (storage w) (lastTimeCheck w).

(** [handleAlertState()].  The [display...] calls draw on the panel and leave
    the state of the UI manager alone. *)
Definition handleAlertState (w : World) (inp : Input) : World :=
  let s := systemState w in
  let s1 :=
    if snoozeActive s then
      if AlarmController.getSnoozeRemaining (alarmController w) (millis inp) =? 0
      then with_snoozeActive s false else s
    else s in
  let '(backEvent, bh1) := ButtonHandler.getBackEvent (buttonHandler w) in
  let '(s2, ac2) :=
    if is_short backEvent && negb (snoozeActive s1) then
      (with_snoozeActive s1 true,
       AlarmController.playConfirm
         (AlarmController.snooze (alarmController w) SNOOZE_DURATION (millis inp)))
    else (s1, alarmController w) in
  let '(okEvent, bh2) := ButtonHandler.getOkEvent bh1 in
  let '(s3, ac3) :=
    if is_long okEvent then (with_alert_dismissed s2, AlarmController.stopAlarm ac2)
    else (s2, ac2) in
  let '(_, bh3) := ButtonHandler.getNextEvent bh2 in
  mkWorld s3 (timeManager w) (doseManager w) (uiManager w) bh3 ac3
    (lidSensor w) (storage w) (lastTimeCheck w).

(** [handleAlarmToggle()]. *)
Definition handleAlarmToggle (w : World) (inp : Input) : World :=
  let s := systemState w in
  let '(okEvent, bh1) := ButtonHandler.getOkEvent (buttonHandler w) in
  let w1 :=
    if is_short okEvent then
      let s1 := with_alarmEnabled s (negb (alarmEnabled s)) in
      mkWorld s1 (timeManager w) (doseManager w)
        (UIManager.updateActivity (uiManager w) (millis inp)) bh1
        (AlarmController.playConfirm
           (AlarmController.setEnabled (alarmController w) (alarmEnabled s1)))
        (lidSensor w)
        (Storage.saveSettings (storage w) (alarmEnabled s1) (muteMode s1))
        (lastTimeCheck w)
    else
      mkWorld s (timeManager w) (doseManager w) (uiManager w) bh1
        (alarmController w) (lidSensor w) (storage w) (lastTimeCheck w) in
  let '(backEvent, bh2) := ButtonHandler.getBackEvent (buttonHandler w1) in
  let w2 :=
    mkWorld (systemState w1) (timeManager w1) (doseManager w1) (uiManager w1) bh2
      (alarmController w1) (lidSensor w1) (storage w1) (lastTimeCheck w1) in
  let w3 :=
    if is_short backEvent then
      mkWorld (with_menu (systemState w2) MENU_MAIN 3) (timeManager w2) (doseManager w2)
        (uiManager w2) (buttonHandler w2) (alarmController w2) (lidSensor w2)
        (storage w2) (lastTimeCheck w2)
    else if is_long backEvent then goToHome w2 inp
    else w2 in
  let '(_, bh3) := ButtonHandler.getNextEvent (buttonHandler w3) in
  mkWorld (systemState w3) (timeManager w3) (doseManager w3) (uiManager w3) bh3
    (alarmController w3) (lidSensor w3) (storage w3) (lastTimeCheck w3).

(** The restore loop of [initializeSystem()], after [doseManager.begin()]:
    [loaded] is [loadedDoses] and [loadedCount] what [loadDoses] returned. *)
Definition restoreStep (loaded : list Dose) (i : nat) (dm : DoseManager.t)
  : DoseManager.t :=
  match loaded !! i with
  | Some d =>
      let dm1 := snd (DoseManager.addDose dm (time d)) in
      if negb (enabled d) then DoseManager.setDoseEnabled dm1 i false else dm1
  | None => dm
  end.

Definition restoreDoses (loaded : list Dose) (loadedCount : nat) : DoseManager.t :=
  for_up 0 loadedCount (restoreStep loaded) DoseManager.begin.

End Main.

(** * Specification vocabulary *)

(** A time of day whose fields inhabit their C type. *)
Definition well_typed_time (tm : Time12H) : Prop :=
  is_uint8 (hour tm) /\ is_uint8 (minute tm).

(** Hour 1-12 and minute 0-59. *)
Definition valid_time (tm : Time12H) : Prop :=
  1 <= hour tm <= 12 /\ 0 <= minute tm <= 59.

(** The 24-hour minute of day of a 12-hour time. *)
Definition minuteOfDay (tm : Time12H) : Z := DoseManager.timeToMinutes tm.

(** The shorter way round the 24-hour wheel. *)
Definition circular_distance (a b : Z) : Z :=
  Z.min (Z.abs (a - b)) (1440 - Z.abs (a - b)).

(** A dose that [checkDoseTime] must report at [cur]. *)
Definition is_due (cur : Time12H) (d : Dose) : Prop :=
  enabled d = true /\ taken d = false /\
  hour (time d) = hour cur /\ minute (time d) = minute cur /\
  isPM (time d) = isPM cur.

(** The first [n] slots are in ascending minute-of-day order. *)
Definition sorted_upto (n : nat) (a : list Dose) : Prop :=
  forall i j di dj, (i < j)%nat -> (j < n)%nat ->
    a !! i = Some di -> a !! j = Some dj ->
    minuteOfDay (time di) <= minuteOfDay (time dj).

(** Every slot from [p] on (below [n]) is at least as late as every slot
    before it: the part of the array a bubble pass has settled. *)
Definition settled_from (p n : nat) (a : list Dose) : Prop :=
  forall k l dk dl, (k < l)%nat -> (p <= l)%nat -> (l < n)%nat ->
    a !! k = Some dk -> a !! l = Some dl ->
    minuteOfDay (time dk) <= minuteOfDay (time dl).

(** [a'] holds the first [n] slots of [a] in another order, ids apart. *)
Definition rearranged (n : nat) (a a' : list Dose) : Prop :=
  length a' = length a /\
  exists f g : nat -> nat,
    (forall i, (i < n)%nat -> (f i < n)%nat /\ (g i < n)%nat /\ g (f i) = i /\ f (g i) = i) /\
    (forall i, (i < n)%nat -> exists d d',
        a !! f i = Some d /\ a' !! i = Some d' /\
        time d' = time d /\ enabled d' = enabled d /\ taken d' = taken d).

(** The adjacent transposition of [j] and [j+1]. *)
Definition transp (j i : nat) : nat :=
  if Nat.eqb i j then S j else if Nat.eqb i (S j) then j else i.

(** A rearrangement of the first [n] slots that keeps the doses themselves. *)
Definition shuffled (n : nat) (a a' : list Dose) : Prop :=
  length a' = length a /\
  exists f g : nat -> nat,
    (forall i, (i < n)%nat -> (f i < n)%nat /\ (g i < n)%nat /\ g (f i) = i /\ f (g i) = i) /\
    (forall i, (i < n)%nat -> a' !! i = a !! f i).

(** The inner loop: after [j] comparisons slot [j] holds the latest of the
    slots [0..j]. *)
Definition bubble_front (j : nat) (a : list Dose) : Prop :=
  forall k dk dj, (k < j)%nat -> a !! k = Some dk -> a !! j = Some dj ->
    minuteOfDay (time dk) <= minuteOfDay (time dj).

(** Every two distinct doses are at least [MIN_DOSE_SPACING] apart. *)
Definition spaced (dm : DoseManager.t) : Prop :=
  forall i j di dj, i <> j ->
    (i < DoseManager.doseCount dm)%nat -> (j < DoseManager.doseCount dm)%nat ->
    DoseManager.doses dm !! i = Some di -> DoseManager.doses dm !! j = Some dj ->
    circular_distance (minuteOfDay (time di)) (minuteOfDay (time dj)) >= MIN_DOSE_SPACING.

Definition stored_valid (dm : DoseManager.t) : Prop :=
  forall i d, (i < DoseManager.doseCount dm)%nat ->
    DoseManager.doses dm !! i = Some d -> valid_time (time d).

(** The dose sequences the menus and the web API can build: [addDose] and
    [updateDose] from [begin], and with them the other mutators of the
    manager. *)
Inductive reachable : DoseManager.t -> Prop :=
| reach_begin : reachable DoseManager.begin
| reach_add dm tm :
    reachable dm -> well_typed_time tm ->
    reachable (snd (DoseManager.addDose dm tm))
| reach_update dm index tm :
    reachable dm -> well_typed_time tm ->
    reachable (snd (DoseManager.updateDose dm index tm))
| reach_remove dm index :
    reachable dm -> reachable (snd (DoseManager.removeDose dm index))
| reach_enable dm index en :
    reachable dm -> reachable (DoseManager.setDoseEnabled dm index en)
| reach_taken dm index :
    reachable dm -> reachable (DoseManager.markDoseTaken dm index)
| reach_reset dm :
    reachable dm -> reachable (DoseManager.resetDailyStatus dm)
| reach_clear dm :
    reachable dm -> reachable (DoseManager.clearAllDoses dm).

Definition t_8_00_AM : Time12H := mkTime12H 8 0 false.
Definition t_12_00_PM : Time12H := mkTime12H 12 0 true.
Definition t_6_00_PM : Time12H := mkTime12H 6 0 true.
Definition t_8_10_AM : Time12H := mkTime12H 8 10 false.

(** The schedule of the spec's example: 8:00 AM, 12:00 PM, 6:00 PM. *)
Definition three_doses : DoseManager.t :=
  snd (DoseManager.addDose
         (snd (DoseManager.addDose
                 (snd (DoseManager.addDose DoseManager.begin t_8_00_AM))
                 t_12_00_PM))
         t_6_00_PM).

(** An alarm started at clock 0 and snoozed there for five seconds. *)
Definition snoozed_5s : AlarmController.t :=
  AlarmController.snooze
    (AlarmController.startAlarm AlarmController.begin AlarmController.PATTERN_STANDARD 0)
    5 0.

(** The samples one button channel sees, and the run of [processButton] on
    that channel alone. *)
Fixpoint channelRun (index : nat) (btn : ButtonHandler.ButtonState)
    (samples : list (bool * Z)) : ButtonHandler.ButtonState * list ButtonHandler.DebugLine :=
  match samples with
  | [] => (btn, [])
  | (reading, now) :: rest =>
      let '(btn1, _, log1) := ButtonHandler.processState index btn reading now in
      let '(btn2, log2) := channelRun index btn1 rest in
      (btn2, log1 ++ log2)
  end.

Definition channelSamples (index : nat) (samples : list ((nat -> bool) * Z))
  : list (bool * Z) :=
  map (fun s => (fst s index, snd s)) samples.

Definition line_index (l : ButtonHandler.DebugLine) : nat :=
  match l with
  | ButtonHandler.LinePressed i
  | ButtonHandler.LineShortPress i
  | ButtonHandler.LineLongPress i => i
  end.

(** How many lines of a log satisfy [q]. *)
Definition count_lines (q : ButtonHandler.DebugLine -> bool)
    (log : list ButtonHandler.DebugLine) : nat :=
  length (List.filter q log).

(** A button that is confirmed pressed and still held: the debounce window
    started at [d], the press was confirmed at [p]. *)
Definition held (btn : ButtonHandler.ButtonState) (d p : Z) : Prop :=
  ButtonHandler.currentState btn = LOW /\
  ButtonHandler.lastReading btn = LOW /\
  ButtonHandler.wasPressed btn = true /\
  ButtonHandler.lastDebounceTime btn = d /\
  ButtonHandler.pressStartTime btn = p.

(** Pin levels with only the OK button down, and with no button down. *)
Definition ok_down (i : nat) : bool := negb (Nat.eqb i ButtonHandler.BUTTON_OK).
Definition all_up (i : nat) : bool := HIGH.

(** The handler after OK went down at 10 ms and was confirmed at 70 ms. *)
Definition ok_pressed : ButtonHandler.t :=
  fst (ButtonHandler.updates (ButtonHandler.begin 0) [(ok_down, 10); (ok_down, 70)]).

(** The four bytes of the persisted record of a dose. *)
Definition record_bytes (d : Dose) : list Z :=
  [hour (time d); minute (time d);
   Storage.bool_byte (isPM (time d)); Storage.bool_byte (enabled d)].

(** [bytes] holds the records of the first [n] doses, four bytes each. *)
Definition records_at (doses : list Dose) (n : nat) (bytes : list Z) : Prop :=
  forall i d k b, (i < n)%nat -> doses !! i = Some d ->
    record_bytes d !! k = Some b -> bytes !! (4 * i + k)%nat = Some b.

(** A schedule with one dose at 12:00 AM that is already marked taken. *)
Definition midnight_dose_taken : DoseManager.t :=
  DoseManager.markDoseTaken
    (snd (DoseManager.addDose DoseManager.begin (mkTime12H 12 0 false))) 0.

Definition idle_system (day : Z) : Main.SystemState :=
  Main.mkSystemState true false false true false false 0 MENU_HOME 0 0 (-1) 0 day.

(** The device at rest on day 1 with that schedule; the clock cache is stale. *)
Definition world_before_midnight : Main.World :=
  Main.mkWorld (idle_system 1)
    (TimeManager.mk (TimeManager.mkDateTime 2026 1 1 23 59 59 1000) 0)
    midnight_dose_taken
    (UIManager.mk true 0)
    (ButtonHandler.begin 0)
    AlarmController.begin
    (LidSensor.begin LOW)
    (Storage.mk ∅ true)
    0.

(** The first polling tick of day 2, at 12:00 AM. *)
Definition input_at_midnight : Main.Input :=
  Main.mkInput 5000 all_up LOW (TimeManager.mkDateTime 2026 1 2 0 0 0 1001).

(** An alert for dose 2 that has been snoozed, the lid shut but its reed
    switch reading HIGH since clock 0. *)
Definition world_in_alert : Main.World :=
  Main.mkWorld
    (Main.mkSystemState true false false true true true 0 MENU_ALERT 0 0 2 0 1)
    (TimeManager.mk (TimeManager.mkDateTime 2026 1 1 18 0 30 2000) 0)
    three_doses
    (UIManager.mk true 0)
    (ButtonHandler.begin 0)
    snoozed_5s
    (LidSensor.mk false HIGH HIGH false false true 0 0 0 0)
    (Storage.mk ∅ true)
    4500.

Definition input_lid_open : Main.Input :=
  Main.mkInput 5000 all_up HIGH (TimeManager.mkDateTime 2026 1 1 18 0 31 2001).

(** A handler table that does nothing, to run [loop] on examples. *)
Definition idle_handler (m : MenuState) (inp : Main.Input) (w : Main.World) : Main.World := w.

(** Whether the polling tick at [inp] detects a new calendar day. *)
Definition day_changed (w : Main.World) (inp : Main.Input) : bool :=
  let day := fst (TimeManager.getDate (Main.timeManager w) (Main.millis inp) (Main.rtc inp)) in
  negb (day =? Main.currentDay (Main.systemState w))
  && negb (Main.currentDay (Main.systemState w) =? 0).

(** The OK channel of [ok_pressed], a hold sampled three times up to nine
    seconds, three more samples while the millisecond clock wraps round, and
    the release. *)
Definition ok_button_held : ButtonHandler.ButtonState :=
  ButtonHandler.mkButton ButtonHandler.BTN_OK LOW LOW true 10 70 false BTN_NONE.

(** A zeroed stack buffer and an open, empty store. *)
Definition blank_buffer : list Z := replicate (MAX_DOSES * 4) 0.
Definition empty_store : Storage.t := Storage.mk ∅ true.

(** The tick one second later, still at 12:00 AM. *)
Definition input_next_second : Main.Input :=
  Main.mkInput 6000 all_up LOW (TimeManager.mkDateTime 2026 1 2 0 0 1 1002).

(** Minutes from minute-of-day [c] forward to minute-of-day [m], round the
    clock. *)
Definition forward_distance (c m : Z) : Z := (m - c) mod 1440.

(** A dose [checkDoseTime] and [getNextDose] still consider today. *)
Definition eligible (d : Dose) : Prop := enabled d = true /\ taken d = false.

(** An RTC reading with hour 0-23 and minute 0-59. *)
Definition valid_clock (dt : TimeManager.DateTime) : Prop :=
  0 <= TimeManager.dt_hour dt <= 23 /\ 0 <= TimeManager.dt_minute dt <= 59.

(** A clock cache read at 6:00:30 PM, and the RTC a minute later. *)
Definition clock_18_00 : TimeManager.t :=
  TimeManager.mk (TimeManager.mkDateTime 2026 1 1 18 0 30 2000) 0.
Definition rtc_18_01 : TimeManager.DateTime :=
  TimeManager.mkDateTime 2026 1 1 18 1 30 2060.
Definition t_7_00_AM : Time12H := mkTime12H 7 0 false.

(** How many of the configured doses carry [flag]. *)
Definition flagged (flag : Dose -> bool) (dm : DoseManager.t) : nat :=
  length (List.filter flag (take (DoseManager.doseCount dm) (DoseManager.doses dm))).

(** Minutes from [cur] forward to the time of dose [d]. *)
Definition minutes_ahead (cur : Z) (d : Dose) : Z :=
  forward_distance cur (minuteOfDay (time d)).

(** What [getNextDose] has to return in [r] for the first [n] slots of [ds]:
    -1 when no dose is eligible, and otherwise an eligible dose that no
    eligible dose precedes on the way forward from [cur]. *)
Definition is_next_dose (ds : list Dose) (n : nat) (cur r : Z) : Prop :=
  (r = -1 /\ forall j d, (j < n)%nat -> ds !! j = Some d -> ~ eligible d) \/
  (exists k d, r = Z.of_nat k /\ (k < n)%nat /\ ds !! k = Some d /\ eligible d /\
     forall j d', (j < n)%nat -> ds !! j = Some d' -> eligible d' ->
       minutes_ahead cur d <= minutes_ahead cur d').

(** The cadence of the alarm engine: the step index stays inside the pattern
    table, the buzzer is on exactly on the even steps while the alarm sounds,
    and off while it is snoozed. *)
Definition cadence_inv (s : AlarmController.t) : Prop :=
  (AlarmController.patternStep s < AlarmController.getPatternLength s)%nat /\
  (AlarmController.active s = true -> AlarmController.snoozed s = false ->
     AlarmController.buzzerOn s = Nat.even (AlarmController.patternStep s)) /\
  (AlarmController.snoozed s = true -> AlarmController.buzzerOn s = false).

(** The engine as [begin] leaves it, then muted. *)
Definition muted_alarm : AlarmController.t :=
  AlarmController.setEnabled AlarmController.begin false.

(** Sample times in ascending order from [prev] on, none after [limit]. *)
Fixpoint ascending_within (prev limit : Z) (times : list Z) : Prop :=
  match times with
  | [] => True
  | now :: rest => prev <= now <= limit /\ ascending_within now limit rest
  end.

(** Any line of the debug log that is about button [index]. *)
Definition is_line_of (index : nat) (l : ButtonHandler.DebugLine) : bool :=
  Nat.eqb (line_index l) index.

(** Samples with the OK button released (70 ms after the press was
    confirmed), bouncing, and released for good. *)
Definition bounce_samples : list ((nat -> bool) * Z) :=
  [(all_up, 200); (ok_down, 210); (all_up, 230); (ok_down, 250)].
Definition short_release_samples : list ((nat -> bool) * Z) :=
  [(all_up, 200); (all_up, 220); (all_up, 251)].

(** The device asleep (display off) while the OK button goes down. *)
Definition world_asleep : Main.World :=
  Main.mkWorld (idle_system 1)
    (TimeManager.mk (TimeManager.mkDateTime 2026 1 1 18 0 30 2000) 0)
    three_doses
    (UIManager.mk false 0)
    ok_pressed
    AlarmController.begin
    (LidSensor.begin LOW)
    (Storage.mk ∅ true)
    0.
Definition input_ok_down : Main.Input :=
  Main.mkInput 1000 ok_down LOW (TimeManager.mkDateTime 2026 1 1 18 0 31 2001).

(** The OK button let go 200 ms after it woke the display. *)
Definition wake_release_samples : list ((nat -> bool) * Z) :=
  [(all_up, 1200); (all_up, 1220); (all_up, 1260)].

(** A run of [LidSensor::update] calls, one per loop iteration, on the reed
    levels and clock values sampled. *)
Definition lidRun (s : LidSensor.t) (samples : list (bool * Z)) : LidSensor.t :=
  fold_left (fun s sample => LidSensor.update s (fst sample) (snd sample)) samples s.

(** The lid shut, as [begin] finds it with the magnet on the switch. *)
Definition lid_shut : LidSensor.t := LidSensor.begin LOW.

(** The eight shifts [calculateCRC] applies to the running value xor the data
    byte. *)
Definition crcRound (x : Z) : Z := for_up 0 8 (fun _ c => Storage.crcShift c) x.

(** [crcRound] maps no two bytes to the same value (all 256 x 256 pairs). *)
Definition crcRound_injective_on_bytes : bool :=
  forallb (fun x => forallb (fun y => Nat.eqb x y
                       || negb (crcRound (Z.of_nat x) =? crcRound (Z.of_nat y)))
                      (List.seq 0 256))
          (List.seq 0 256).

(** A store holding a consistent dose block: count, 4 bytes per dose, and the
    CRC of the block. *)
Definition holds_block (st : Storage.t) (n : nat) (bytes : list Z) : Prop :=
  Storage.initialized st = true /\
  Storage.prefs st !! Storage.KEY_DOSE_COUNT = Some (Storage.PUChar (Z.of_nat n)) /\
  Storage.prefs st !! Storage.KEY_DOSES = Some (Storage.PBytes bytes) /\
  Storage.prefs st !! Storage.KEY_CRC
    = Some (Storage.PUChar (Storage.calculateCRC bytes)) /\
  (0 < n <= MAX_DOSES)%nat /\ length bytes = (n * 4)%nat /\
  Forall is_uint8 bytes.

(** The block on flash with the byte at [pos] replaced by [b]. *)
Definition corrupt (st : Storage.t) (bytes : list Z) (pos : nat) (b : Z) : Storage.t :=
  Storage.mk (<[Storage.KEY_DOSES := Storage.PBytes (<[pos := b]> bytes)]>
                (Storage.prefs st))
             (Storage.initialized st).

(** The three example doses as saved, and the store they are saved in. *)
Definition saved_store : Storage.t :=
  Storage.saveDoses blank_buffer empty_store (DoseManager.doses three_doses) 3.
Definition saved_bytes : list Z := [8; 0; 0; 1; 12; 0; 1; 1; 6; 0; 1; 1].

(** The keys of the 100 log slots are pairwise different and none is the key
    of the log counter (all pairs, by computation). *)
Definition logKeys_distinct : bool :=
  forallb (fun i =>
             negb (String.eqb (Storage.logKey (Z.of_nat i)) Storage.KEY_LOG_COUNT)
             && forallb (fun j => Nat.eqb i j
                           || negb (String.eqb (Storage.logKey (Z.of_nat i))
                                               (Storage.logKey (Z.of_nat j))))
                        (List.seq 0 100))
          (List.seq 0 100).

(** The slot of the ring the next log entry goes to. *)
Definition next_log_slot (st : Storage.t) : Z :=
  Storage.getLogCount st mod Storage.MAX_LOG_ENTRIES.

(** The button handler with a long press of OK waiting to be consumed. *)
Definition ok_long_pending : ButtonHandler.t :=
  ButtonHandler.mk
    [ButtonHandler.mkButton ButtonHandler.BTN_OK LOW LOW true 10 70 true BTN_LONG_PRESS;
     ButtonHandler.mkButton ButtonHandler.BTN_NEXT HIGH HIGH false 0 0 false BTN_NONE;
     ButtonHandler.mkButton ButtonHandler.BTN_BACK HIGH HIGH false 0 0 false BTN_NONE]
    70.

(** ... and with a short press of BACK waiting. *)
Definition back_short_pending : ButtonHandler.t :=
  ButtonHandler.mk
    [ButtonHandler.mkButton ButtonHandler.BTN_OK HIGH HIGH false 0 0 false BTN_NONE;
     ButtonHandler.mkButton ButtonHandler.BTN_NEXT HIGH HIGH false 0 0 false BTN_NONE;
     ButtonHandler.mkButton ButtonHandler.BTN_BACK HIGH HIGH false 200 70 false
       BTN_SHORT_PRESS]
    70.

(** The alert for the 6:00 PM dose of the example schedule sounding at
    6:00:30 PM, with the dismissing long press waiting. *)
Definition world_alert_sounding (bh : ButtonHandler.t) : Main.World :=
  Main.mkWorld
    (Main.mkSystemState true false false true true false 0 MENU_ALERT 0 0 2 0 1)
    (TimeManager.mk (TimeManager.mkDateTime 2026 1 1 18 0 30 2000) 0)
    three_doses
    (UIManager.mk true 0)
    bh
    (AlarmController.startAlarm AlarmController.begin AlarmController.PATTERN_STANDARD 0)
    (LidSensor.begin LOW)
    (Storage.mk ∅ true)
    4500.

(** The tick three seconds later, still at 6:00 PM. *)
Definition input_same_minute : Main.Input :=
  Main.mkInput 8000 all_up LOW (TimeManager.mkDateTime 2026 1 1 18 0 34 2004).

(** ... and with a short press of OK waiting. *)
Definition ok_short_pending : ButtonHandler.t :=
  ButtonHandler.mk
    [ButtonHandler.mkButton ButtonHandler.BTN_OK HIGH HIGH false 200 70 false
       BTN_SHORT_PRESS;
     ButtonHandler.mkButton ButtonHandler.BTN_NEXT HIGH HIGH false 0 0 false BTN_NONE;
     ButtonHandler.mkButton ButtonHandler.BTN_BACK HIGH HIGH false 0 0 false BTN_NONE]
    70.

(** The example device on the alarm-settings screen, a short press of OK
    waiting. *)
Definition world_alarm_settings : Main.World :=
  Main.mkWorld
    (Main.mkSystemState true false false true false false 0 MENU_ALARM_TOGGLE 3 0 (-1) 0 1)
    (TimeManager.mk (TimeManager.mkDateTime 2026 1 1 18 0 30 2000) 0)
    three_doses
    (UIManager.mk true 0)
    ok_short_pending
    AlarmController.begin
    (LidSensor.begin LOW)
    (Storage.mk ∅ true)
    4500.

(** The device idle on a menu for three minutes. *)
Definition world_idle_on_menu : Main.World :=
  Main.mkWorld
    (Main.mkSystemState true false false true false false 0 MENU_MAIN 2 0 (-1) 0 1)
    (TimeManager.mk (TimeManager.mkDateTime 2026 1 1 18 0 30 2000) 0)
    three_doses
    (UIManager.mk true 1000)
    (ButtonHandler.begin 0)
    AlarmController.begin
    (LidSensor.begin LOW)
    (Storage.mk ∅ true)
    180500.
Definition input_after_3_min : Main.Input :=
  Main.mkInput 181000 all_up LOW (TimeManager.mkDateTime 2026 1 1 18 3 31 2181).

(** A dose array as a dose manager leaves it in storage: [count] doses with
    valid times in ascending order, at least [MIN_DOSE_SPACING] minutes apart
    round the clock. *)
Definition saved_schedule (loaded : list Dose) (count : nat) : Prop :=
  (count <= MAX_DOSES)%nat /\ (count <= length loaded)%nat /\
  (forall i d, (i < count)%nat -> loaded !! i = Some d -> valid_time (time d)) /\
  sorted_upto count loaded /\
  (forall i j di dj, i <> j -> (i < count)%nat -> (j < count)%nat ->
     loaded !! i = Some di -> loaded !! j = Some dj ->
     circular_distance (minuteOfDay (time di)) (minuteOfDay (time dj))
       >= MIN_DOSE_SPACING).

(** Two doses as loaded, the second one disabled. *)
Definition loaded_two : list Dose :=
  [mkDose t_8_00_AM true false 0; mkDose t_6_00_PM false false 1].


(** * Properties *)

(** ** Loops and machine integers *)

(** [lia] reasons about the [mod] and [/] of the wrap-around definitions. *)
Ltac Zify.zify_post_hook ::= Z.to_euclidean_division_equations.

(** Case analysis on the condition of the first [if] of the goal. *)
Ltac case_if :=
  match goal with
  | |- context [if ?c then _ else _] => destruct c eqn:?
  end.

Lemma for_up_ind {St : Type} (P : nat -> St -> Prop) (body : nat -> St -> St) :
  forall n start s,
    P start s ->
    (forall k s', (start <= k < start + n)%nat -> P k s' -> P (S k) (body k s')) ->
    P (start + n)%nat (for_up start n body s).
Proof.
  induction n as [|n IH]; intros start s H0 Hstep; simpl.
  - now rewrite Nat.add_0_r.
  - replace (start + S n)%nat with (S start + n)%nat by lia.
    apply IH.
    + apply Hstep; [lia | exact H0].
    + intros k s' Hk. apply Hstep. lia.
Qed.

Lemma to_int8_small (i : nat) : (i < 128)%nat -> to_int8 (Z.of_nat i) = Z.of_nat i.
Proof. intros H. unfold to_int8. lia. Qed.

Lemma to_uint8_small (i : nat) : (i < 256)%nat -> to_uint8 (Z.of_nat i) = Z.of_nat i.
Proof. intros H. unfold to_uint8. lia. Qed.

(** ** DoseManager: the dose-time scan *)

Lemma isTimeMatch_true (t1 t2 : Time12H) :
  TimeManager.isTimeMatch t1 t2 = true <->
  hour t1 = hour t2 /\ minute t1 = minute t2 /\ isPM t1 = isPM t2.
Proof.
  unfold TimeManager.isTimeMatch.
  rewrite !andb_true_iff, !Z.eqb_eq, eqb_true_iff. tauto.
Qed.

Lemma due_decide (cur : Time12H) (d : Dose) :
  (enabled d && negb (taken d) = true /\ TimeManager.isTimeMatch cur (time d) = true)
  <-> is_due cur d.
Proof.
  unfold is_due. rewrite isTimeMatch_true, andb_true_iff, negb_true_iff.
  intuition congruence.
Qed.

Lemma dueScan_step (ds : list Dose) (cur : Time12H) (i n : nat) :
  DoseManager.dueScan ds cur i (S n) =
  match ds !! i with
  | Some d =>
      if enabled d && negb (taken d) && TimeManager.isTimeMatch cur (time d)
      then to_int8 (Z.of_nat i)
      else DoseManager.dueScan ds cur (S i) n
  | None => DoseManager.dueScan ds cur (S i) n
  end.
Proof.
  simpl. destruct (ds !! i) as [d|]; [|reflexivity].
  destruct (enabled d && negb (taken d)); reflexivity.
Qed.

Lemma due_decide_false (cur : Time12H) (d : Dose) :
  enabled d && negb (taken d) && TimeManager.isTimeMatch cur (time d) = false ->
  ~ is_due cur d.
Proof.
  intros Hf Hdue. apply due_decide in Hdue. destruct Hdue as [H1 H2].
  rewrite H1, H2 in Hf. discriminate.
Qed.

Lemma dueScan_spec (ds : list Dose) (cur : Time12H) :
  forall n i, (i + n <= 128)%nat ->
    (DoseManager.dueScan ds cur i n = -1 /\
     forall k d, (i <= k < i + n)%nat -> ds !! k = Some d -> ~ is_due cur d)
    \/
    (exists k d, DoseManager.dueScan ds cur i n = Z.of_nat k /\
       (i <= k < i + n)%nat /\ ds !! k = Some d /\ is_due cur d /\
       forall j d', (i <= j < k)%nat -> ds !! j = Some d' -> ~ is_due cur d').
Proof.
  induction n as [|n IH]; intros i Hb.
  - left. split; [reflexivity | intros; lia].
  - rewrite dueScan_step.
    assert (Hskip : (forall d, ds !! i = Some d -> ~ is_due cur d) ->
      (DoseManager.dueScan ds cur (S i) n = -1 /\
       forall k d, (i <= k < i + S n)%nat -> ds !! k = Some d -> ~ is_due cur d)
      \/
      (exists k d, DoseManager.dueScan ds cur (S i) n = Z.of_nat k /\
         (i <= k < i + S n)%nat /\ ds !! k = Some d /\ is_due cur d /\
         forall j d', (i <= j < k)%nat -> ds !! j = Some d' -> ~ is_due cur d')).
    { intros Hi.
      destruct (IH (S i) ltac:(lia)) as [[Hr Hno] | (k & dk & Hr & Hk & Hlk & Hdue & Hfirst)].
      - left. split; [exact Hr|]. intros k d' Hk Hlk.
        destruct (Nat.eq_dec k i) as [->|Hne]; [now apply Hi|].
        apply (Hno k d'); [lia | exact Hlk].
      - right. exists k, dk. split; [exact Hr|]. split; [lia|].
        split; [exact Hlk|]. split; [exact Hdue|].
        intros j d' Hj Hlj.
        destruct (Nat.eq_dec j i) as [->|Hne]; [now apply Hi|].
        apply (Hfirst j d'); [lia | exact Hlj]. }
    destruct (ds !! i) as [d|] eqn:Hd.
    + destruct (enabled d && negb (taken d) && TimeManager.isTimeMatch cur (time d)) eqn:Hb3.
      * right. exists i, d. rewrite to_int8_small by lia.
        split; [reflexivity|]. split; [lia|]. split; [exact Hd|].
        split.
        -- apply due_decide. now apply andb_true_iff in Hb3.
        -- intros; lia.
      * apply Hskip. intros d' Hd'. injection Hd' as <-.
        now apply due_decide_false.
    + apply Hskip. intros d' Hd'. discriminate.
Qed.

(** C1. For every dose list and current time, [checkDoseTime] returns the
    index of the first slot, in scan order, whose dose is enabled, not yet
    taken and has the hour, minute and AM/PM flag of the current time, and
    returns -1 when there is none; so it never returns a taken or a disabled
    dose. *)
Theorem checkDoseTime_first_due (dm : DoseManager.t) (cur : Time12H) :
  DoseManager.wf dm ->
  (DoseManager.checkDoseTime dm cur = -1 /\
   forall k d, (k < DoseManager.doseCount dm)%nat ->
     DoseManager.doses dm !! k = Some d -> ~ is_due cur d)
  \/
  (exists k d,
     DoseManager.checkDoseTime dm cur = Z.of_nat k /\
     (k < DoseManager.doseCount dm)%nat /\
     DoseManager.doses dm !! k = Some d /\
     enabled d = true /\ taken d = false /\
     hour (time d) = hour cur /\ minute (time d) = minute cur /\
     isPM (time d) = isPM cur /\
     forall j d', (j < k)%nat -> DoseManager.doses dm !! j = Some d' -> ~ is_due cur d').
Proof.
  intros [Hlen Hcnt]. unfold DoseManager.checkDoseTime.
  unfold MAX_DOSES in Hcnt.
  destruct (dueScan_spec (DoseManager.doses dm) cur (DoseManager.doseCount dm) 0
              ltac:(lia))
    as [[Hr Hno] | (k & d & Hr & Hk & Hlk & Hdue & Hfirst)].
  - left. split; [exact Hr|]. intros k d Hk. apply Hno. lia.
  - right. exists k, d. destruct Hdue as (He & Ht & Hh & Hm & Hp).
    repeat (split; [first [assumption | lia]|]).
    intros j d' Hj. apply Hfirst. lia.
Qed.

(** ** DoseManager: out-of-range indices *)

(** C10. For an index at or beyond the dose count, [getDose] gives the null
    pointer, [markDoseTaken] and [setDoseEnabled] leave the manager as it is,
    and [removeDose] returns false without touching it. *)
Theorem index_out_of_range_noop (dm : DoseManager.t) (index : nat) :
  (DoseManager.doseCount dm <= index)%nat ->
  DoseManager.getDose dm index = None /\
  DoseManager.markDoseTaken dm index = dm /\
  (forall en, DoseManager.setDoseEnabled dm index en = dm) /\
  DoseManager.removeDose dm index = (false, dm).
Proof.
  intros Hge.
  unfold DoseManager.getDose, DoseManager.markDoseTaken,
    DoseManager.setDoseEnabled, DoseManager.removeDose.
  destruct (Nat.ltb_spec index (DoseManager.doseCount dm)) as [Hlt|_]; [lia|].
  destruct (Nat.leb_spec (DoseManager.doseCount dm) index) as [_|Hlt]; [|lia].
  repeat split.
Qed.

(** ** DoseManager: the bubble sort *)

Lemma transp_involutive (j i : nat) : transp j (transp j i) = i.
Proof.
  unfold transp.
  destruct (Nat.eqb_spec i j) as [->|H1].
  - destruct (Nat.eqb_spec (S j) j); [lia|]. now rewrite Nat.eqb_refl.
  - destruct (Nat.eqb_spec i (S j)) as [->|H2].
    + now rewrite Nat.eqb_refl.
    + destruct (Nat.eqb_spec i j); [lia|]. destruct (Nat.eqb_spec i (S j)); [lia|].
      reflexivity.
Qed.

Lemma transp_bound (j i n : nat) : (S j < n)%nat -> (i < n)%nat -> (transp j i < n)%nat.
Proof.
  unfold transp. intros Hj Hi.
  destruct (Nat.eqb_spec i j); [lia|]. destruct (Nat.eqb_spec i (S j)); lia.
Qed.

Lemma bubbleStep_lookup (j : nat) (a : list Dose) :
  (S j < length a)%nat ->
  exists sw : bool,
    (forall i, DoseManager.bubbleStep j a !! i = a !! (if sw then transp j i else i)) /\
    length (DoseManager.bubbleStep j a) = length a /\
    (forall d1 d2, DoseManager.bubbleStep j a !! j = Some d1 ->
       DoseManager.bubbleStep j a !! S j = Some d2 ->
       minuteOfDay (time d1) <= minuteOfDay (time d2)).
Proof.
  intros Hlen. unfold DoseManager.bubbleStep.
  destruct (lookup_lt_is_Some_2 a j ltac:(lia)) as [d1 H1].
  destruct (lookup_lt_is_Some_2 a (S j) Hlen) as [d2 H2].
  rewrite H1, H2.
  destruct (Z.gtb_spec (DoseManager.timeToMinutes (time d1))
                       (DoseManager.timeToMinutes (time d2))) as [Hgt|Hle].
  - exists true. split; [|split].
    + intros i. unfold transp.
      destruct (Nat.eqb_spec i j) as [->|Hij].
      * rewrite list_lookup_insert_ne by lia.
        rewrite list_lookup_insert_eq by lia. now rewrite H2.
      * destruct (Nat.eqb_spec i (S j)) as [->|Hisj].
        -- rewrite list_lookup_insert_eq by (rewrite length_insert; lia).
           now rewrite H1.
        -- rewrite !list_lookup_insert_ne by lia. reflexivity.
    + now rewrite !length_insert.
    + intros e1 e2.
      rewrite list_lookup_insert_ne by lia.
      rewrite list_lookup_insert_eq by lia.
      rewrite list_lookup_insert_eq by (rewrite length_insert; lia).
      intros [= <-] [= <-]. unfold minuteOfDay. lia.
  - exists false. split; [|split]; [reflexivity | reflexivity |].
    intros e1 e2. rewrite H1, H2. intros [= <-] [= <-]. unfold minuteOfDay. lia.
Qed.

Lemma shuffled_refl (n : nat) (a : list Dose) : shuffled n a a.
Proof.
  split; [reflexivity|]. exists (fun i => i), (fun i => i).
  split; intros; [repeat split; lia | reflexivity].
Qed.

Lemma shuffled_trans (n : nat) (a b c : list Dose) :
  shuffled n a b -> shuffled n b c -> shuffled n a c.
Proof.
  intros [Hl1 (f1 & g1 & Hb1 & He1)] [Hl2 (f2 & g2 & Hb2 & He2)].
  split; [congruence|].
  exists (fun i => f1 (f2 i)), (fun i => g2 (g1 i)). split.
  - intros i Hi. destruct (Hb2 i Hi) as (Hf2 & Hg2 & Hgf2 & Hfg2).
    destruct (Hb1 i Hi) as (Hf1 & Hg1 & Hgf1 & Hfg1).
    destruct (Hb1 (f2 i) Hf2) as (Hf12 & _ & Hgf12 & _).
    destruct (Hb2 (g1 i) Hg1) as (_ & Hg21 & _ & Hfg21).
    repeat split; try assumption.
    + now rewrite Hgf12.
    + now rewrite Hfg21.
  - intros i Hi. rewrite (He2 i Hi). apply He1. now apply Hb2.
Qed.

Lemma bubbleStep_shuffled (n j : nat) (a : list Dose) :
  (S j < n)%nat -> (n <= length a)%nat -> shuffled n a (DoseManager.bubbleStep j a).
Proof.
  intros Hj Hn.
  destruct (bubbleStep_lookup j a ltac:(lia)) as (sw & Hlk & Hlen & _).
  split; [exact Hlen|]. destruct sw.
  - exists (transp j), (transp j). split.
    + intros i Hi. repeat split; auto using transp_bound, transp_involutive.
    + intros i _. apply Hlk.
  - exists (fun i => i), (fun i => i). split.
    + intros i Hi. repeat split; lia.
    + intros i _. apply Hlk.
Qed.

Lemma bubbleStep_settled (p n j : nat) (a : list Dose) :
  (S j < p)%nat -> (S j < length a)%nat ->
  settled_from p n a -> settled_from p n (DoseManager.bubbleStep j a).
Proof.
  intros Hj Hlen Hs.
  destruct (bubbleStep_lookup j a Hlen) as (sw & Hlk & _ & _).
  intros k l dk dl Hkl Hpl Hln. rewrite !Hlk. destruct sw.
  - unfold transp.
    destruct (Nat.eqb_spec l j); [lia|]. destruct (Nat.eqb_spec l (S j)); [lia|].
    destruct (Nat.eqb_spec k j); [|destruct (Nat.eqb_spec k (S j))]; intros Hk Hl.
    + apply (Hs (S j) l dk dl); auto; lia.
    + apply (Hs j l dk dl); auto; lia.
    + apply (Hs k l dk dl); auto; lia.
  - intros Hk Hl. eapply (Hs k l); eauto.
Qed.

Lemma bubbleStep_front (j : nat) (a : list Dose) :
  (S j < length a)%nat ->
  bubble_front j a -> bubble_front (S j) (DoseManager.bubbleStep j a).
Proof.
  intros Hlen Hf.
  destruct (bubbleStep_lookup j a Hlen) as (sw & Hlk & _ & Hord).
  intros k dk dj Hk Hlk1 Hlk2.
  destruct (Nat.eq_dec k j) as [->|Hne].
  - eapply Hord; eauto.
  - (* the slot k < j is not moved, and the larger of the pair is at j+1 *)
    destruct (lookup_lt_is_Some_2 a j ltac:(lia)) as [e1 He1].
    destruct (lookup_lt_is_Some_2 a (S j) Hlen) as [e2 He2].
    assert (Hk' : a !! k = Some dk).
    { rewrite Hlk in Hlk1. destruct sw; [|exact Hlk1].
      unfold transp in Hlk1.
      destruct (Nat.eqb_spec k j); [lia|]. destruct (Nat.eqb_spec k (S j)); [lia|].
      exact Hlk1. }
    pose proof (Hf k dk e1 ltac:(lia) Hk' He1) as Hke1.
    assert (Htr : transp j (S j) = j).
    { unfold transp. destruct (Nat.eqb_spec (S j) j); [lia|]. now rewrite Nat.eqb_refl. }
    assert (Htj : transp j j = S j).
    { unfold transp. now rewrite Nat.eqb_refl. }
    rewrite Hlk in Hlk2. rewrite !Hlk in Hord.
    destruct sw.
    + rewrite Htr in Hlk2. assert (dj = e1) by congruence. subst dj. exact Hke1.
    + assert (dj = e2) by congruence. subst dj.
      specialize (Hord e1 e2 He1 He2). lia.
Qed.

Lemma bubblePass_spec (n i : nat) (a : list Dose) :
  (i < n - 1)%nat -> (n <= length a)%nat ->
  settled_from (n - i) n a ->
  length (DoseManager.bubblePass n i a) = length a /\
  shuffled n a (DoseManager.bubblePass n i a) /\
  settled_from (n - S i) n (DoseManager.bubblePass n i a).
Proof.
  intros Hi Hn Hs. unfold DoseManager.bubblePass.
  set (m := (n - i - 1)%nat).
  pose (P := fun (j : nat) (b : list Dose) =>
    length b = length a /\ shuffled n a b /\
    settled_from (S m) n b /\ bubble_front j b).
  assert (HP : P (0 + m)%nat (for_up 0 m DoseManager.bubbleStep a)).
  { apply for_up_ind.
    - split; [reflexivity|]. split; [apply shuffled_refl|]. split.
      + replace (S m) with (n - i)%nat by lia. exact Hs.
      + intros k dk dj Hk. lia.
    - intros k b Hk (Hlen & Hsh & Hst & Hfr).
      destruct (bubbleStep_lookup k b ltac:(lia)) as (_ & _ & Hl' & _).
      split; [|split; [|split]].
      + congruence.
      + eapply shuffled_trans; [exact Hsh|]. apply bubbleStep_shuffled; lia.
      + apply bubbleStep_settled; [lia | lia | exact Hst].
      + apply bubbleStep_front; [lia | exact Hfr]. }
  destruct HP as (Hlen & Hsh & Hst & Hfr). simpl in Hfr.
  split; [exact Hlen|]. split; [exact Hsh|].
  replace (n - S i)%nat with m by lia.
  intros k l dk dl Hkl Hml Hln Hk Hl.
  destruct (Nat.eq_dec l m) as [->|Hne].
  - apply (Hfr k dk dl); assumption.
  - apply (Hst k l dk dl); auto; lia.
Qed.

Lemma bubbleSort_spec (n : nat) (a : list Dose) :
  (n <= length a)%nat ->
  length (for_up 0 (n - 1) (DoseManager.bubblePass n) a) = length a /\
  shuffled n a (for_up 0 (n - 1) (DoseManager.bubblePass n) a) /\
  sorted_upto n (for_up 0 (n - 1) (DoseManager.bubblePass n) a).
Proof.
  intros Hn.
  pose (P := fun (i : nat) (b : list Dose) =>
    length b = length a /\ shuffled n a b /\ settled_from (n - i) n b).
  assert (HP : P (0 + (n - 1))%nat (for_up 0 (n - 1) (DoseManager.bubblePass n) a)).
  { apply for_up_ind.
    - split; [reflexivity|]. split; [apply shuffled_refl|].
      intros k l dk dl Hkl Hpl Hln. lia.
    - intros i b Hi (Hlen & Hsh & Hst).
      destruct (bubblePass_spec n i b ltac:(lia) ltac:(lia) Hst) as (Hl' & Hsh' & Hst').
      split; [|split].
      + congruence.
      + eapply shuffled_trans; eassumption.
      + exact Hst'. }
  destruct HP as (Hlen & Hsh & Hst). simpl in Hst.
  split; [exact Hlen|]. split; [exact Hsh|].
  intros i j di dj Hij Hjn Hi Hj.
  apply (Hst i j di dj); auto; lia.
Qed.

Lemma assignIds_spec (n : nat) (b : list Dose) :
  (n <= length b)%nat ->
  length (for_up 0 n DoseManager.assignId b) = length b /\
  (forall k, (k < n)%nat ->
     for_up 0 n DoseManager.assignId b !! k = set_id (to_uint8 (Z.of_nat k)) <$> b !! k) /\
  (forall k, (n <= k)%nat -> for_up 0 n DoseManager.assignId b !! k = b !! k).
Proof.
  intros Hn.
  pose (P := fun (i : nat) (c : list Dose) =>
    length c = length b /\
    (forall k, (k < i)%nat -> c !! k = set_id (to_uint8 (Z.of_nat k)) <$> b !! k) /\
    (forall k, (i <= k)%nat -> c !! k = b !! k)).
  assert (HP : P (0 + n)%nat (for_up 0 n DoseManager.assignId b)).
  { apply for_up_ind.
    - split; [reflexivity|]. split; intros; [lia | reflexivity].
    - intros i c Hi (Hlen & Hlo & Hhi). unfold DoseManager.assignId.
      destruct (lookup_lt_is_Some_2 c i ltac:(lia)) as [d Hd]. rewrite Hd.
      split; [|split].
      + now rewrite length_insert.
      + intros k Hk. destruct (Nat.eq_dec k i) as [->|Hne].
        * rewrite list_lookup_insert_eq by lia.
          rewrite <- (Hhi i ltac:(lia)), Hd. reflexivity.
        * rewrite list_lookup_insert_ne by lia. apply Hlo. lia.
      + intros k Hk. rewrite list_lookup_insert_ne by lia. apply Hhi. lia. }
  exact HP.
Qed.

Lemma sortArray_spec (n : nat) (a : list Dose) :
  (n <= length a)%nat -> (n <= 256)%nat ->
  length (DoseManager.sortArray n a) = length a /\
  sorted_upto n (DoseManager.sortArray n a) /\
  (forall i d, (i < n)%nat -> DoseManager.sortArray n a !! i = Some d ->
     id d = Z.of_nat i) /\
  rearranged n a (DoseManager.sortArray n a).
Proof.
  intros Hn H256. unfold DoseManager.sortArray.
  destruct (bubbleSort_spec n a Hn) as (Hlen & (_ & f & g & Hbij & Hfg) & Hsorted).
  set (b := for_up 0 (n - 1) (DoseManager.bubblePass n) a) in *.
  destruct (assignIds_spec n b ltac:(lia)) as (Hlen' & Hlo & _).
  set (c := for_up 0 n DoseManager.assignId b) in *.
  assert (Hc : forall i d, (i < n)%nat -> c !! i = Some d ->
            exists e, b !! i = Some e /\ d = set_id (to_uint8 (Z.of_nat i)) e).
  { intros i d Hi Hd. rewrite (Hlo i Hi) in Hd.
    destruct (b !! i) as [e|]; [|discriminate].
    exists e. split; [reflexivity|]. simpl in Hd. congruence. }
  split; [congruence|]. split; [|split].
  - intros i j di dj Hij Hjn Hi Hj.
    destruct (Hc i di ltac:(lia) Hi) as (ei & Hei & ->).
    destruct (Hc j dj Hjn Hj) as (ej & Hej & ->).
    simpl. apply (Hsorted i j ei ej); assumption.
  - intros i d Hi Hd. destruct (Hc i d Hi Hd) as (e & _ & ->). simpl.
    apply to_uint8_small. lia.
  - split; [congruence|]. exists f, g. split; [exact Hbij|].
    intros i Hi.
    destruct (lookup_lt_is_Some_2 c i ltac:(lia)) as [d Hd].
    destruct (Hc i d Hi Hd) as (e & He & ->).
    exists e, (set_id (to_uint8 (Z.of_nat i)) e).
    rewrite <- (Hfg i Hi), He. repeat split. exact Hd.
Qed.

(** ** DoseManager: spacing *)

Lemma isValidTime_true (tm : Time12H) :
  well_typed_time tm ->
  (TimeManager.isValidTime tm = true <-> valid_time tm).
Proof.
  intros [Hh Hm]. unfold TimeManager.isValidTime, valid_time, is_uint8 in *.
  rewrite !andb_true_iff, !Z.leb_le. lia.
Qed.

Lemma minuteOfDay_valid (tm : Time12H) :
  valid_time tm -> 0 <= minuteOfDay tm < 1440.
Proof.
  intros [Hh Hm]. unfold minuteOfDay, DoseManager.timeToMinutes,
    TimeManager.convert12to24, to_uint16, to_uint8.
  destruct (isPM tm); destruct (Z.eqb_spec (hour tm) 12); lia.
Qed.

Lemma slotDiff_valid (a b : Z) :
  0 <= a < 1440 -> 0 <= b < 1440 ->
  DoseManager.slotDiff a b = circular_distance a b.
Proof.
  intros Ha Hb. unfold DoseManager.slotDiff, circular_distance.
  assert (Hia : to_int16 a = a) by (unfold to_int16; lia).
  assert (Hib : to_int16 b = b) by (unfold to_int16; lia).
  rewrite Hia, Hib.
  assert (Hu : to_uint16 (Z.abs (a - b)) = Z.abs (a - b)) by (unfold to_uint16; lia).
  rewrite Hu.
  destruct (Z.gtb_spec (Z.abs (a - b)) (12 * 60)) as [Hgt|Hle].
  - unfold to_uint16. lia.
  - lia.
Qed.

Lemma circular_distance_sym (a b : Z) : circular_distance a b = circular_distance b a.
Proof. unfold circular_distance. lia. Qed.

Lemma slotScan_true (ds : list Dose) (m ex : Z) :
  forall n i, DoseManager.slotScan ds m ex i n = true ->
    forall k d, (i <= k < i + n)%nat -> Z.of_nat k <> ex -> ds !! k = Some d ->
      DoseManager.slotDiff m (DoseManager.timeToMinutes (time d)) >= MIN_DOSE_SPACING.
Proof.
  induction n as [|n IH]; intros i Hscan k d Hk Hex Hd; [lia|].
  simpl in Hscan.
  destruct (Nat.eq_dec k i) as [->|Hne].
  - destruct (Z.eqb_spec (Z.of_nat i) ex) as [|_]; [contradiction|].
    rewrite Hd in Hscan.
    destruct (Z.ltb_spec (DoseManager.slotDiff m (DoseManager.timeToMinutes (time d)))
                MIN_DOSE_SPACING); [discriminate | lia].
  - assert (Hrest : DoseManager.slotScan ds m ex (S i) n = true).
    { destruct (Z.of_nat i =? ex); [exact Hscan|].
      destruct (ds !! i) as [e|]; [|exact Hscan].
      destruct (DoseManager.slotDiff m (DoseManager.timeToMinutes (time e)) <? MIN_DOSE_SPACING);
        [discriminate | exact Hscan]. }
    apply (IH (S i) Hrest k d); auto; lia.
Qed.

(** Sorting keeps validity and spacing of the stored doses. *)
Lemma sortDoses_keeps (dm : DoseManager.t) :
  DoseManager.wf dm -> stored_valid dm -> spaced dm ->
  DoseManager.wf (DoseManager.sortDoses dm) /\
  stored_valid (DoseManager.sortDoses dm) /\
  spaced (DoseManager.sortDoses dm).
Proof.
  intros [Hlen Hcnt] Hv Hsp. unfold MAX_DOSES in *.
  destruct (sortArray_spec (DoseManager.doseCount dm) (DoseManager.doses dm)
              ltac:(lia) ltac:(lia)) as (Hl & _ & _ & (_ & f & g & Hbij & Hfg)).
  split; [|split].
  - split; cbn [DoseManager.sortDoses DoseManager.doses DoseManager.doseCount];
      unfold MAX_DOSES; [congruence | exact Hcnt].
  - intros i d Hi Hd.
    unfold DoseManager.sortDoses in *; cbn [DoseManager.doses DoseManager.doseCount] in *.
    destruct (Hfg i Hi) as (e & d' & He & Hd' & Ht & _).
    assert (d = d') by congruence. subst d'. rewrite Ht.
    apply (Hv (f i) e); [apply Hbij; exact Hi | exact He].
  - intros i j di dj Hij Hi Hj Hdi Hdj.
    unfold DoseManager.sortDoses in *; cbn [DoseManager.doses DoseManager.doseCount] in *.
    destruct (Hfg i Hi) as (ei & di' & Hei & Hdi' & Hti & _).
    destruct (Hfg j Hj) as (ej & dj' & Hej & Hdj' & Htj & _).
    assert (di = di') by congruence. assert (dj = dj') by congruence. subst di' dj'.
    rewrite Hti, Htj.
    apply (Hsp (f i) (f j) ei ej); try assumption; try (apply Hbij; assumption).
    intros Heq. apply Hij.
    destruct (Hbij i Hi) as (_ & _ & Hgi & _). destruct (Hbij j Hj) as (_ & _ & Hgj & _).
    congruence.
Qed.

(** C2. [addDose] returns false and leaves the manager unchanged when the
    count is at [MAX_DOSES], when the time is outside hour 1-12 / minute 0-59,
    or when the time is closer than the minimum spacing (shorter way round the
    24-hour wheel) to a stored dose; when it returns true the new sequence
    holds the new entry, is in ascending minute-of-day order, and the id of
    the dose at position [i] is [i]. *)
Theorem addDose_rejects_or_inserts_sorted (dm : DoseManager.t) (tm : Time12H) :
  DoseManager.wf dm -> well_typed_time tm ->
  ((DoseManager.doseCount dm = MAX_DOSES \/
    ~ valid_time tm \/
    (exists i d, (i < DoseManager.doseCount dm)%nat /\
       DoseManager.doses dm !! i = Some d /\ valid_time (time d) /\
       circular_distance (minuteOfDay tm) (minuteOfDay (time d)) < MIN_DOSE_SPACING)) ->
   DoseManager.addDose dm tm = (false, dm))
  /\
  (forall dm', DoseManager.addDose dm tm = (true, dm') ->
     DoseManager.doseCount dm' = S (DoseManager.doseCount dm) /\
     (exists i d, (i < DoseManager.doseCount dm')%nat /\
        DoseManager.doses dm' !! i = Some d /\
        time d = tm /\ enabled d = true /\ taken d = false) /\
     sorted_upto (DoseManager.doseCount dm') (DoseManager.doses dm') /\
     (forall i d, (i < DoseManager.doseCount dm')%nat ->
        DoseManager.doses dm' !! i = Some d -> id d = Z.of_nat i)).
Proof.
  intros [Hlen Hcnt] Htyped. unfold DoseManager.addDose. split.
  - intros Hrej.
    destruct (Nat.leb_spec MAX_DOSES (DoseManager.doseCount dm)) as [|Hlt]; [reflexivity|].
    destruct (TimeManager.isValidTime tm) eqn:Hvalid; [|reflexivity]. simpl.
    apply isValidTime_true in Hvalid; [|exact Htyped].
    destruct (DoseManager.isTimeSlotAvailable dm tm (-1)) eqn:Hslot; [|reflexivity].
    exfalso. destruct Hrej as [Hfull | [Hinv | (i & d & Hi & Hd & Hdv & Hclose)]];
      [lia | contradiction |].
    unfold DoseManager.isTimeSlotAvailable in Hslot.
    pose proof (slotScan_true _ _ _ _ _ Hslot i d ltac:(lia) ltac:(lia) Hd) as Hfar.
    rewrite slotDiff_valid in Hfar; try (apply minuteOfDay_valid; assumption).
    unfold minuteOfDay in Hclose. lia.
  - intros dm'.
    destruct (Nat.leb_spec MAX_DOSES (DoseManager.doseCount dm)) as [|Hlt]; [discriminate|].
    destruct (TimeManager.isValidTime tm); [|discriminate]. simpl.
    destruct (DoseManager.isTimeSlotAvailable dm tm (-1)); [|discriminate]. simpl.
    intros [= <-]. unfold DoseManager.sortDoses.
    cbn [DoseManager.doses DoseManager.doseCount].
    set (n := DoseManager.doseCount dm) in *.
    set (d := mkDose tm true false (to_uint8 (Z.of_nat n))).
    set (a1 := <[n := d]> (DoseManager.doses dm)).
    assert (Hl1 : length a1 = MAX_DOSES) by (unfold a1; now rewrite length_insert).
    unfold MAX_DOSES in *.
    destruct (sortArray_spec (S n) a1 ltac:(lia) ltac:(lia))
      as (_ & Hsorted & Hids & (_ & f & g & Hbij & Hfg)).
    split; [reflexivity|]. split; [|split; assumption].
    destruct (Hbij n ltac:(lia)) as (_ & Hgn & _ & Hfgn).
    destruct (Hfg (g n) Hgn) as (e & d' & He & Hd' & Ht & Hen & Htk).
    rewrite Hfgn in He. unfold a1 in He.
    rewrite list_lookup_insert_eq in He by lia. injection He as <-.
    exists (g n), d'. repeat split; assumption.
Qed.

Lemma begin_wf : DoseManager.wf DoseManager.begin.
Proof. split; [reflexivity | unfold MAX_DOSES; simpl; lia]. Qed.

Lemma addDose_keeps (dm : DoseManager.t) (tm : Time12H) :
  well_typed_time tm ->
  DoseManager.wf dm /\ stored_valid dm /\ spaced dm ->
  DoseManager.wf (snd (DoseManager.addDose dm tm)) /\
  stored_valid (snd (DoseManager.addDose dm tm)) /\
  spaced (snd (DoseManager.addDose dm tm)).
Proof.
  intros Htyped (Hwf & Hv & Hsp). unfold DoseManager.addDose.
  destruct (Nat.leb_spec MAX_DOSES (DoseManager.doseCount dm)) as [|Hlt]; [auto|].
  destruct (TimeManager.isValidTime tm) eqn:Hvalid; [|auto]. simpl negb. cbv iota.
  apply isValidTime_true in Hvalid; [|exact Htyped].
  destruct (DoseManager.isTimeSlotAvailable dm tm (-1)) eqn:Hslot; [|auto].
  simpl negb. cbv iota. cbn [snd].
  unfold DoseManager.isTimeSlotAvailable in Hslot.
  destruct Hwf as [Hlen Hcnt].
  set (n := DoseManager.doseCount dm) in *.
  set (d := mkDose tm true false (to_uint8 (Z.of_nat n))).
  assert (Hnew : forall j dj, (j < n)%nat -> DoseManager.doses dm !! j = Some dj ->
            circular_distance (minuteOfDay tm) (minuteOfDay (time dj)) >= MIN_DOSE_SPACING).
  { intros j dj Hj Hdj.
    pose proof (slotScan_true _ _ _ _ _ Hslot j dj ltac:(lia) ltac:(lia) Hdj) as Hfar.
    rewrite slotDiff_valid in Hfar; try (apply minuteOfDay_valid); eauto. }
  apply sortDoses_keeps.
  - split; cbn [DoseManager.doses DoseManager.doseCount];
      [now rewrite length_insert | lia].
  - intros i e Hi He. cbn [DoseManager.doses DoseManager.doseCount] in *.
    destruct (Nat.eq_dec i n) as [->|Hne].
    + rewrite list_lookup_insert_eq in He by (unfold MAX_DOSES in *; lia).
      injection He as <-. exact Hvalid.
    + rewrite list_lookup_insert_ne in He by lia. apply (Hv i e); [lia | exact He].
  - intros i j di dj Hij Hi Hj Hdi Hdj.
    cbn [DoseManager.doses DoseManager.doseCount] in *.
    destruct (Nat.eq_dec i n) as [->|Hni]; destruct (Nat.eq_dec j n) as [->|Hnj];
      try contradiction.
    + rewrite list_lookup_insert_eq in Hdi by (unfold MAX_DOSES in *; lia).
      rewrite list_lookup_insert_ne in Hdj by lia.
      injection Hdi as <-. apply (Hnew j dj); [lia | exact Hdj].
    + rewrite list_lookup_insert_eq in Hdj by (unfold MAX_DOSES in *; lia).
      rewrite list_lookup_insert_ne in Hdi by lia.
      injection Hdj as <-. rewrite circular_distance_sym.
      apply (Hnew i di); [lia | exact Hdi].
    + rewrite list_lookup_insert_ne in Hdi by lia.
      rewrite list_lookup_insert_ne in Hdj by lia.
      apply (Hsp i j di dj); auto; lia.
Qed.

Lemma updateDose_keeps (dm : DoseManager.t) (index : nat) (tm : Time12H) :
  well_typed_time tm ->
  DoseManager.wf dm /\ stored_valid dm /\ spaced dm ->
  DoseManager.wf (snd (DoseManager.updateDose dm index tm)) /\
  stored_valid (snd (DoseManager.updateDose dm index tm)) /\
  spaced (snd (DoseManager.updateDose dm index tm)).
Proof.
  intros Htyped (Hwf & Hv & Hsp). unfold DoseManager.updateDose.
  destruct (Nat.leb_spec (DoseManager.doseCount dm) index) as [|Hlt]; [auto|].
  destruct (TimeManager.isValidTime tm) eqn:Hvalid; [|auto]. simpl negb. cbv iota.
  apply isValidTime_true in Hvalid; [|exact Htyped].
  destruct (DoseManager.isTimeSlotAvailable dm tm (to_int8 (Z.of_nat index))) eqn:Hslot;
    [|auto].
  simpl negb. cbv iota.
  unfold DoseManager.isTimeSlotAvailable in Hslot.
  pose proof Hwf as [Hlen Hcnt]. unfold MAX_DOSES in *.
  rewrite to_int8_small in Hslot by lia.
  destruct (lookup_lt_is_Some_2 (DoseManager.doses dm) index ltac:(lia)) as [d Hd].
  rewrite Hd. cbn [snd].
  set (n := DoseManager.doseCount dm) in *.
  assert (Hnew : forall j dj, (j < n)%nat -> j <> index ->
            DoseManager.doses dm !! j = Some dj ->
            circular_distance (minuteOfDay tm) (minuteOfDay (time dj)) >= MIN_DOSE_SPACING).
  { intros j dj Hj Hne Hdj.
    pose proof (slotScan_true _ _ _ _ _ Hslot j dj ltac:(lia) ltac:(lia) Hdj) as Hfar.
    rewrite slotDiff_valid in Hfar; try (apply minuteOfDay_valid); eauto. }
  apply sortDoses_keeps.
  - split; cbn [DoseManager.doses DoseManager.doseCount]; unfold MAX_DOSES;
      [now rewrite length_insert | lia].
  - intros i e Hi He. cbn [DoseManager.doses DoseManager.doseCount] in *.
    destruct (Nat.eq_dec i index) as [->|Hne].
    + rewrite list_lookup_insert_eq in He by lia.
      injection He as <-. exact Hvalid.
    + rewrite list_lookup_insert_ne in He by lia. apply (Hv i e); [lia | exact He].
  - intros i j di dj Hij Hi Hj Hdi Hdj.
    cbn [DoseManager.doses DoseManager.doseCount] in *.
    destruct (Nat.eq_dec i index) as [->|Hni]; destruct (Nat.eq_dec j index) as [->|Hnj];
      try contradiction.
    + rewrite list_lookup_insert_eq in Hdi by lia.
      rewrite list_lookup_insert_ne in Hdj by lia.
      injection Hdi as <-. apply (Hnew j dj); auto.
    + rewrite list_lookup_insert_eq in Hdj by lia.
      rewrite list_lookup_insert_ne in Hdi by lia.
      injection Hdj as <-. rewrite circular_distance_sym.
      apply (Hnew i di); auto.
    + rewrite list_lookup_insert_ne in Hdi by lia.
      rewrite list_lookup_insert_ne in Hdj by lia.
      apply (Hsp i j di dj); auto; lia.
Qed.

(** Operations that only rewrite flags: every slot keeps its time. *)
Lemma same_times_keeps (dm dm' : DoseManager.t) :
  DoseManager.doseCount dm' = DoseManager.doseCount dm ->
  length (DoseManager.doses dm') = length (DoseManager.doses dm) ->
  (forall i d', DoseManager.doses dm' !! i = Some d' ->
     exists d, DoseManager.doses dm !! i = Some d /\ time d' = time d) ->
  DoseManager.wf dm /\ stored_valid dm /\ spaced dm ->
  DoseManager.wf dm' /\ stored_valid dm' /\ spaced dm'.
Proof.
  intros Hc Hl Hsame ([Hlen Hcnt] & Hv & Hsp). split; [|split].
  - split; congruence.
  - intros i d' Hi Hd'. destruct (Hsame i d' Hd') as (d & Hd & ->).
    apply (Hv i d); [lia | exact Hd].
  - intros i j di dj Hij Hi Hj Hdi Hdj.
    destruct (Hsame i di Hdi) as (ei & Hei & ->).
    destruct (Hsame j dj Hdj) as (ej & Hej & ->).
    apply (Hsp i j ei ej); auto; lia.
Qed.

Lemma modifyAt_time (index : nat) (f : Dose -> Dose) (a : list Dose) :
  (forall d, time (f d) = time d) ->
  length (DoseManager.modifyAt index f a) = length a /\
  forall i d', DoseManager.modifyAt index f a !! i = Some d' ->
    exists d, a !! i = Some d /\ time d' = time d.
Proof.
  intros Hf. unfold DoseManager.modifyAt.
  destruct (a !! index) as [x|] eqn:Hx; [|split; [reflexivity | eauto]].
  split; [now rewrite length_insert|].
  intros i d' Hd'. destruct (Nat.eq_dec i index) as [->|Hne].
  - rewrite list_lookup_insert_eq in Hd' by (apply lookup_lt_Some in Hx; exact Hx).
    injection Hd' as <-. exists x. split; [exact Hx | apply Hf].
  - rewrite list_lookup_insert_ne in Hd' by lia. eauto.
Qed.

Lemma resetDailyStatus_time (dm : DoseManager.t) :
  length (DoseManager.doses (DoseManager.resetDailyStatus dm)) = length (DoseManager.doses dm) /\
  forall i d', DoseManager.doses (DoseManager.resetDailyStatus dm) !! i = Some d' ->
    exists d, DoseManager.doses dm !! i = Some d /\ time d' = time d.
Proof.
  unfold DoseManager.resetDailyStatus. cbn [DoseManager.doses].
  pose (P := fun (_ : nat) (a : list Dose) =>
    length a = length (DoseManager.doses dm) /\
    forall i d', a !! i = Some d' ->
      exists d, DoseManager.doses dm !! i = Some d /\ time d' = time d).
  apply (for_up_ind P).
  - split; [reflexivity | eauto].
  - intros k a _ [Hlen Hsame].
    destruct (modifyAt_time k (set_taken false) a (fun _ => eq_refl)) as [Hl Hs].
    split; [congruence|].
    intros i d' Hd'. destruct (Hs i d' Hd') as (x & Hx & ->).
    destruct (Hsame i x Hx) as (d & Hd & ->). eauto.
Qed.

(** The array after [removeDose]: the slots from [index] on hold the next
    dose, renumbered. *)
Lemma removeDose_lookup (dm : DoseManager.t) (index : nat) :
  (index < DoseManager.doseCount dm)%nat ->
  (DoseManager.doseCount dm <= length (DoseManager.doses dm))%nat ->
  let dm' := snd (DoseManager.removeDose dm index) in
  DoseManager.doseCount dm' = (DoseManager.doseCount dm - 1)%nat /\
  length (DoseManager.doses dm') = length (DoseManager.doses dm) /\
  forall i d', (i < DoseManager.doseCount dm - 1)%nat ->
    DoseManager.doses dm' !! i = Some d' ->
    exists d,
      DoseManager.doses dm !! (if (index <=? i)%nat then S i else i) = Some d /\
      time d' = time d.
Proof.
  intros Hidx Hlen. unfold DoseManager.removeDose.
  destruct (Nat.leb_spec (DoseManager.doseCount dm) index) as [|_]; [lia|].
  cbn [snd DoseManager.doses DoseManager.doseCount].
  set (n := DoseManager.doseCount dm) in *. set (a := DoseManager.doses dm) in *.
  pose (P := fun (k : nat) (b : list Dose) =>
    length b = length a /\
    forall i, b !! i =
      if (index <=? i)%nat && (i <? k)%nat
      then set_id (to_uint8 (Z.of_nat i)) <$> a !! S i
      else a !! i).
  assert (HP : P (index + (n - 1 - index))%nat
                 (for_up index (n - 1 - index) DoseManager.shiftStep a)).
  { apply for_up_ind.
    - split; [reflexivity|]. intros i.
      destruct (Nat.leb_spec index i); destruct (Nat.ltb_spec i index);
        try lia; reflexivity.
    - intros k b Hk [Hl Hb]. unfold DoseManager.shiftStep.
      rewrite (Hb (S k)).
      destruct (Nat.leb_spec index (S k)); destruct (Nat.ltb_spec (S k) k); try lia.
      simpl andb. cbv iota.
      destruct (lookup_lt_is_Some_2 a (S k) ltac:(lia)) as [x Hx]. rewrite Hx.
      split; [now rewrite length_insert|].
      intros i. destruct (Nat.eq_dec i k) as [->|Hne].
      + rewrite list_lookup_insert_eq by lia.
        destruct (Nat.leb_spec index k); destruct (Nat.ltb_spec k (S k)); try lia.
        simpl. now rewrite Hx.
      + rewrite list_lookup_insert_ne by lia. rewrite (Hb i).
        destruct (Nat.leb_spec index i); destruct (Nat.ltb_spec i k);
          destruct (Nat.ltb_spec i (S k)); try lia; reflexivity. }
  destruct HP as [Hl Hb].
  split; [reflexivity|]. split; [now rewrite length_insert|].
  intros i d' Hi Hd'. rewrite list_lookup_insert_ne in Hd' by lia.
  rewrite (Hb i) in Hd'.
  destruct (Nat.leb_spec index i); destruct (Nat.ltb_spec i (index + (n - 1 - index)));
    try lia; simpl in Hd'.
  - destruct (a !! S i) as [x|]; [|discriminate]. simpl in Hd'. injection Hd' as <-.
    exists x. split; reflexivity.
  - exists d'. split; [exact Hd' | reflexivity].
Qed.

Lemma removeDose_keeps (dm : DoseManager.t) (index : nat) :
  DoseManager.wf dm /\ stored_valid dm /\ spaced dm ->
  DoseManager.wf (snd (DoseManager.removeDose dm index)) /\
  stored_valid (snd (DoseManager.removeDose dm index)) /\
  spaced (snd (DoseManager.removeDose dm index)).
Proof.
  intros ([Hlen Hcnt] & Hv & Hsp).
  destruct (Nat.le_gt_cases (DoseManager.doseCount dm) index) as [Hge|Hlt].
  { unfold DoseManager.removeDose.
    destruct (Nat.leb_spec (DoseManager.doseCount dm) index) as [_|]; [|lia].
    cbn [snd]. split; [split; assumption | split; assumption]. }
  destruct (removeDose_lookup dm index Hlt ltac:(lia)) as (Hc & Hl & Hsame).
  set (dm' := snd (DoseManager.removeDose dm index)) in *.
  split; [|split].
  - split; [congruence | lia].
  - intros i d' Hi Hd'. rewrite Hc in Hi.
    destruct (Hsame i d' Hi Hd') as (d & Hd & ->).
    apply (Hv (if (index <=? i)%nat then S i else i) d); [|exact Hd].
    destruct (index <=? i)%nat; lia.
  - intros i j di dj Hij Hi Hj Hdi Hdj. rewrite Hc in Hi, Hj.
    destruct (Hsame i di Hi Hdi) as (ei & Hei & ->).
    destruct (Hsame j dj Hj Hdj) as (ej & Hej & ->).
    apply (Hsp (if (index <=? i)%nat then S i else i)
               (if (index <=? j)%nat then S j else j) ei ej); auto;
      destruct (Nat.leb_spec index i); destruct (Nat.leb_spec index j); lia.
Qed.

Lemma reachable_inv (dm : DoseManager.t) :
  reachable dm -> DoseManager.wf dm /\ stored_valid dm /\ spaced dm.
Proof.
  induction 1 as [|dm tm _ IH Ht|dm index tm _ IH Ht|dm index _ IH
                  |dm index en _ IH|dm index _ IH|dm _ IH|dm _ IH].
  - split; [apply begin_wf|]. split.
    + intros i d Hi. simpl in Hi. lia.
    + intros i j di dj _ Hi. simpl in Hi. lia.
  - now apply addDose_keeps.
  - now apply updateDose_keeps.
  - now apply removeDose_keeps.
  - unfold DoseManager.setDoseEnabled. case_if; [|exact IH].
    destruct (modifyAt_time index (set_enabled en) (DoseManager.doses dm)
                (fun _ => eq_refl)) as [Hl Hs].
    now apply (same_times_keeps dm).
  - unfold DoseManager.markDoseTaken. case_if; [|exact IH].
    destruct (modifyAt_time index (set_taken true) (DoseManager.doses dm)
                (fun _ => eq_refl)) as [Hl Hs].
    now apply (same_times_keeps dm).
  - destruct (resetDailyStatus_time dm) as [Hl Hs].
    now apply (same_times_keeps dm).
  - split; [apply begin_wf|]. split.
    + intros i d Hi. simpl in Hi. lia.
    + intros i j di dj _ Hi. simpl in Hi. lia.
Qed.

(** C3. In every dose sequence built from [begin] with [addDose] and
    [updateDose] (and the other mutators), any two distinct doses are at least 15 minutes apart the
    shorter way round the 24-hour wheel; and from the empty sequence the adds
    of 8:00 AM, 12:00 PM and 6:00 PM succeed while a following add of 8:10 AM
    returns false. *)
Theorem reachable_doses_spaced :
  (forall dm, reachable dm ->
     forall i j di dj, i <> j ->
       (i < DoseManager.doseCount dm)%nat -> (j < DoseManager.doseCount dm)%nat ->
       DoseManager.doses dm !! i = Some di -> DoseManager.doses dm !! j = Some dj ->
       Z.min (Z.abs (minuteOfDay (time di) - minuteOfDay (time dj)))
             (1440 - Z.abs (minuteOfDay (time di) - minuteOfDay (time dj))) >= 15)
  /\
  (let r1 := DoseManager.addDose DoseManager.begin t_8_00_AM in
   let r2 := DoseManager.addDose (snd r1) t_12_00_PM in
   let r3 := DoseManager.addDose (snd r2) t_6_00_PM in
   let r4 := DoseManager.addDose (snd r3) t_8_10_AM in
   fst r1 = true /\ fst r2 = true /\ fst r3 = true /\ fst r4 = false).
Proof.
  split.
  - intros dm Hr i j di dj Hij Hi Hj Hdi Hdj.
    destruct (reachable_inv dm Hr) as (_ & _ & Hsp).
    exact (Hsp i j di dj Hij Hi Hj Hdi Hdj).
  - vm_compute. repeat split.
Qed.

(** ** AlarmController *)

Lemma session_inv_begin : AlarmController.session_inv AlarmController.begin.
Proof. split; simpl; [discriminate | auto]. Qed.

Lemma session_inv_step (s : AlarmController.t) (o : AlarmController.op) :
  AlarmController.session_inv s -> AlarmController.session_inv (AlarmController.run_op s o).
Proof.
  destruct s as [a sn be bo v p se lt ps du].
  unfold AlarmController.session_inv. simpl. intros [H1 H2].
  destruct o as [pat now| |secs now|now];
    unfold AlarmController.run_op, AlarmController.startAlarm, AlarmController.stopAlarm,
      AlarmController.snooze, AlarmController.update, AlarmController.buzzerOutput;
    destruct a, sn, be; simpl;
    repeat match goal with
           | |- context [if ?c then _ else _] => destruct c eqn:?; simpl
           end;
    simpl in *; intuition congruence.
Qed.

(** C6. The alarm-session invariant (snoozed implies active; neither active
    nor snoozed implies the buzzer output is off) holds after [begin], is kept
    by [startAlarm], [stopAlarm], [snooze] and [update] from any state that
    has it, and so holds after every sequence of calls at any clock values. *)
Theorem alarm_session_invariant :
  AlarmController.session_inv AlarmController.begin /\
  (forall s o, AlarmController.session_inv s ->
     AlarmController.session_inv (AlarmController.run_op s o)) /\
  (forall l : list AlarmController.op,
     let s := AlarmController.run_ops AlarmController.begin l in
     (AlarmController.snoozed s = true -> AlarmController.active s = true) /\
     (AlarmController.active s = false -> AlarmController.snoozed s = false ->
      AlarmController.buzzerOn s = false /\ AlarmController.duty s = 0)).
Proof.
  split; [apply session_inv_begin|]. split; [apply session_inv_step|].
  intros l. unfold AlarmController.run_ops.
  assert (H : forall s0, AlarmController.session_inv s0 ->
            AlarmController.session_inv (fold_left AlarmController.run_op l s0)).
  { induction l as [|o l IH]; intros s0 H0; simpl; [exact H0|].
    apply IH. now apply session_inv_step. }
  exact (H _ session_inv_begin).
Qed.

Lemma snooze_remaining_monotone (s : AlarmController.t) (t1 t2 : Z) :
  is_uint32 (AlarmController.snoozeEndTime s) ->
  0 <= t1 -> t1 <= t2 -> t2 < 4294967296 ->
  AlarmController.snoozeEndTime s - t1 < 65536 * 1000 ->
  AlarmController.getSnoozeRemaining s t2 <= AlarmController.getSnoozeRemaining s t1 /\
  (t1 + 1000 <= t2 -> 0 < AlarmController.getSnoozeRemaining s t1 ->
   AlarmController.getSnoozeRemaining s t2 < AlarmController.getSnoozeRemaining s t1).
Proof.
  unfold AlarmController.getSnoozeRemaining, is_uint32, sub32, to_uint32, to_uint16.
  intros He H1 H12 H2 Hnear.
  destruct (AlarmController.snoozed s); simpl; [|lia].
  destruct (Z.geb_spec t1 (AlarmController.snoozeEndTime s));
    destruct (Z.geb_spec t2 (AlarmController.snoozeEndTime s)); try lia.
Qed.

(** The deadline [snooze] sets is a [uint32_t] at most [seconds] ahead of
    any later clock value (behind it, if the sum wrapped round). *)
Lemma snooze_deadline_near (s : AlarmController.t) (seconds now t1 : Z) :
  AlarmController.active s = true ->
  is_uint16 seconds -> is_uint32 now -> now <= t1 ->
  let s' := AlarmController.snooze s seconds now in
  AlarmController.snoozed s' = true /\
  is_uint32 (AlarmController.snoozeEndTime s') /\
  AlarmController.snoozeEndTime s' - t1 < 65536 * 1000.
Proof.
  intros Ha Hs Hn Ht. unfold AlarmController.snooze. rewrite Ha. simpl.
  unfold is_uint16, is_uint32, to_uint32 in *. repeat split; lia.
Qed.

(** While snoozed, the value is the time left to the deadline in whole
    seconds, rounded down (0 from the deadline on). *)
Lemma snooze_remaining_whole_seconds (s : AlarmController.t) (now : Z) :
  AlarmController.snoozed s = true ->
  is_uint32 (AlarmController.snoozeEndTime s) ->
  0 <= now < 4294967296 ->
  AlarmController.snoozeEndTime s - now < 65536 * 1000 ->
  AlarmController.getSnoozeRemaining s now
    = Z.max 0 (AlarmController.snoozeEndTime s - now) / 1000.
Proof.
  unfold AlarmController.getSnoozeRemaining, is_uint32, sub32, to_uint32, to_uint16.
  intros -> He Hnow Hnear. cbn [negb orb].
  destruct (Z.geb_spec now (AlarmController.snoozeEndTime s)).
  - rewrite Z.max_l by lia. reflexivity.
  - rewrite Z.max_r by lia. lia.
Qed.

(** C5, as the code has it. [getSnoozeRemaining] is 0 whenever the alarm is
    not snoozed; while snoozed (deadline at most 65535 s ahead, as [snooze]
    sets it) it is the whole seconds left, [max 0 (snoozeEndTime - now) / 1000]
    rounded down, so it never increases as the
    millisecond clock advances and strictly decreases over any advance of at
    least 1000 ms while it is positive; an [update] before the deadline leaves
    a snoozed alarm as it is, and the first [update] at or after the deadline
    with the alarm still active clears [snoozed], resets the pattern step to 0
    and asserts the output. *)
Theorem snooze_remaining_and_resume (s : AlarmController.t) :
  (forall now, AlarmController.snoozed s = false ->
     AlarmController.getSnoozeRemaining s now = 0) /\
  (forall t1 t2,
     AlarmController.snoozed s = true ->
     is_uint32 (AlarmController.snoozeEndTime s) ->
     0 <= t1 -> t1 <= t2 -> t2 < 4294967296 ->
     AlarmController.snoozeEndTime s - t1 < 65536 * 1000 ->
     AlarmController.getSnoozeRemaining s t1
       = Z.max 0 (AlarmController.snoozeEndTime s - t1) / 1000 /\
     AlarmController.getSnoozeRemaining s t2 <= AlarmController.getSnoozeRemaining s t1 /\
     (t1 + 1000 <= t2 -> 0 < AlarmController.getSnoozeRemaining s t1 ->
      AlarmController.getSnoozeRemaining s t2 < AlarmController.getSnoozeRemaining s t1)) /\
  (forall now,
     AlarmController.snoozed s = true -> AlarmController.active s = true ->
     (now < AlarmController.snoozeEndTime s -> AlarmController.update s now = s) /\
     (AlarmController.snoozeEndTime s <= now ->
      let s' := AlarmController.update s now in
      AlarmController.snoozed s' = false /\
      AlarmController.active s' = true /\
      AlarmController.patternStep s' = O /\
      AlarmController.lastToggle s' = now /\
      AlarmController.buzzerOn s' = true /\
      (AlarmController.buzzerEnabled s = true ->
       AlarmController.duty s' = AlarmController.volume s))).
Proof.
  split; [|split].
  - intros now Hs. unfold AlarmController.getSnoozeRemaining. now rewrite Hs.
  - intros t1 t2 Hs He H1 H12 H2 Hnear. split.
    + apply snooze_remaining_whole_seconds; [exact Hs | exact He | lia | exact Hnear].
    + apply snooze_remaining_monotone; assumption.
  - intros now Hs Ha. unfold AlarmController.update. rewrite Hs, Ha. simpl.
    split.
    + intros Hlt. destruct (Z.geb_spec now (AlarmController.snoozeEndTime s)); [lia|reflexivity].
    + intros Hge. destruct (Z.geb_spec now (AlarmController.snoozeEndTime s)); [|lia].
      simpl. repeat split. intros ->. reflexivity.
Qed.

(** C5 as stated fails: the remaining time is counted in whole seconds, so it
    does not strictly decrease with every advance of the millisecond clock. *)
Lemma snooze_remaining_not_strictly_decreasing :
  ~ (forall (s : AlarmController.t) (t1 t2 : Z),
       AlarmController.snoozed s = true ->
       0 <= t1 -> t1 < t2 -> t2 < AlarmController.snoozeEndTime s ->
       AlarmController.getSnoozeRemaining s t2 < AlarmController.getSnoozeRemaining s t1).
Proof.
  intros H. specialize (H snoozed_5s 1 2).
  vm_compute in H.
  specialize (H eq_refl). 
  assert (Hc : (4 ?= 4) = Lt) by (apply H; [discriminate | reflexivity | reflexivity]).
  discriminate Hc.
Qed.

(** ** ButtonHandler: one channel *)

Lemma sub32_small (a b : Z) : 0 <= b -> b <= a -> a < 4294967296 -> sub32 a b = a - b.
Proof. intros. unfold sub32, to_uint32. lia. Qed.

Lemma processState_lines (index : nat) (btn : ButtonHandler.ButtonState)
    (reading : bool) (now : Z) :
  forall l, In l (snd (ButtonHandler.processState index btn reading now)) ->
    line_index l = index.
Proof.
  unfold ButtonHandler.processState.
  repeat case_if; simpl; intros l Hin;
    repeat (destruct Hin as [<-|Hin]; [reflexivity|]); contradiction.
Qed.







Lemma channelRun_app (index : nat) (l1 l2 : list (bool * Z)) :
  forall btn,
    channelRun index btn (l1 ++ l2) =
    (fst (channelRun index (fst (channelRun index btn l1)) l2),
     snd (channelRun index btn l1) ++ snd (channelRun index (fst (channelRun index btn l1)) l2)).
Proof.
  induction l1 as [|[reading now] rest IH]; intros btn.
  - simpl. now destruct (channelRun index btn l2).
  - simpl. destruct (ButtonHandler.processState index btn reading now) as [[btn1 stamp] log1].
    rewrite IH.
    destruct (channelRun index btn1 rest) as [btn2 log2]. simpl.
    now rewrite app_assoc.
Qed.


(** ** ButtonHandler: the three channels together *)

Lemma filter_other_channel (q : ButtonHandler.DebugLine -> bool)
    (index : nat) (log : list ButtonHandler.DebugLine) :
  (forall l, line_index l <> index -> q l = false) ->
  (forall l, In l log -> line_index l <> index) ->
  List.filter q log = [].
Proof.
  intros Hq. induction log as [|l rest IH]; intros Hall; [reflexivity|].
  simpl. rewrite (Hq l) by (apply Hall; now left).
  apply IH. intros l' Hl'. apply Hall. now right.
Qed.

Lemma update_channel (h : ButtonHandler.t) (pins : nat -> bool) (now : Z)
    (index : nat) (btn : ButtonHandler.ButtonState)
    (q : ButtonHandler.DebugLine -> bool) :
  ButtonHandler.wf h -> (index < BUTTON_COUNT)%nat ->
  ButtonHandler.buttons h !! index = Some btn ->
  (forall l, line_index l <> index -> q l = false) ->
  let r := ButtonHandler.update h pins now in
  let c := ButtonHandler.processState index btn (pins index) now in
  ButtonHandler.wf (fst r) /\
  ButtonHandler.buttons (fst r) !! index = Some (fst (fst c)) /\
  List.filter q (snd r) = List.filter q (snd c).
Proof.
  intros Hwf Hi Hb Hq. destruct h as [bs la]. unfold ButtonHandler.wf in *. simpl in *.
  destruct bs as [|b0 [|b1 [|b2 [|]]]]; try discriminate Hwf.
  unfold BUTTON_COUNT in *.
  pose proof (processState_lines 0 b0 (pins 0%nat) now) as L0.
  pose proof (processState_lines 1 b1 (pins 1%nat) now) as L1.
  pose proof (processState_lines 2 b2 (pins 2%nat) now) as L2.
  destruct index as [|[|[|]]]; try lia; cbn in Hb; injection Hb as <-;
    unfold ButtonHandler.update, BUTTON_COUNT, for_up, ButtonHandler.processButton;
    cbn -[ButtonHandler.processState];
    destruct (ButtonHandler.processState 0 b0 (pins 0%nat) now) as [[c0 s0] log0];
    cbn -[ButtonHandler.processState];
    destruct (ButtonHandler.processState 1 b1 (pins 1%nat) now) as [[c1 s1] log1];
    cbn -[ButtonHandler.processState];
    destruct (ButtonHandler.processState 2 b2 (pins 2%nat) now) as [[c2 s2] log2];
    cbn -[ButtonHandler.processState]; cbn in L0, L1, L2;
    (split; [reflexivity|]); (split; [reflexivity|]);
    rewrite !List.filter_app.
  - rewrite (filter_other_channel q 0 log1), (filter_other_channel q 0 log2);
      try assumption.
    + now rewrite !app_nil_r.
    + intros l Hl. rewrite (L2 l Hl). lia.
    + intros l Hl. rewrite (L1 l Hl). lia.
  - rewrite (filter_other_channel q 1 log0), (filter_other_channel q 1 log2);
      try assumption.
    + now rewrite !app_nil_r.
    + intros l Hl. rewrite (L2 l Hl). lia.
    + intros l Hl. rewrite (L0 l Hl). lia.
  - rewrite (filter_other_channel q 2 log0), (filter_other_channel q 2 log1);
      try assumption.
    + reflexivity.
    + intros l Hl. rewrite (L1 l Hl). lia.
    + intros l Hl. rewrite (L0 l Hl). lia.
Qed.


Lemma updates_channel (q : ButtonHandler.DebugLine -> bool) (index : nat) :
  (forall l, line_index l <> index -> q l = false) ->
  (index < BUTTON_COUNT)%nat ->
  forall samples h btn,
    ButtonHandler.wf h -> ButtonHandler.buttons h !! index = Some btn ->
    let r := ButtonHandler.updates h samples in
    let c := channelRun index btn (channelSamples index samples) in
    ButtonHandler.wf (fst r) /\
    ButtonHandler.buttons (fst r) !! index = Some (fst c) /\
    List.filter q (snd r) = List.filter q (snd c).
Proof.
  intros Hq Hi. induction samples as [|[pins now] rest IH]; intros h btn Hwf Hb.
  - simpl. auto.
  - simpl ButtonHandler.updates. simpl channelSamples. simpl channelRun.
    destruct (update_channel h pins now index btn q Hwf Hi Hb Hq) as (Hwf1 & Hb1 & Hlog1).
    destruct (ButtonHandler.update h pins now) as [h1 log1].
    destruct (ButtonHandler.processState index btn (pins index) now) as [[btn1 stamp] clog1].
    simpl in Hwf1, Hb1, Hlog1.
    destruct (IH h1 btn1 Hwf1 Hb1) as (Hwf2 & Hb2 & Hlog2).
    destruct (ButtonHandler.updates h1 rest) as [h2 log2].
    fold (channelSamples index rest).
    destruct (channelRun index btn1 (channelSamples index rest)) as [btn2 clog2].
    simpl in *. split; [exact Hwf2|]. split; [exact Hb2|].
    now rewrite !List.filter_app, Hlog1, Hlog2.
Qed.

Lemma consumeEvent_channel (h : ButtonHandler.t) (index : nat)
    (btn : ButtonHandler.ButtonState) :
  ButtonHandler.wf h -> (index < BUTTON_COUNT)%nat ->
  ButtonHandler.buttons h !! index = Some btn ->
  fst (ButtonHandler.consumeEvent h index) = ButtonHandler.pendingEvent btn /\
  ButtonHandler.wf (snd (ButtonHandler.consumeEvent h index)) /\
  ButtonHandler.buttons (snd (ButtonHandler.consumeEvent h index)) !! index
  = Some (ButtonHandler.clearPending btn).
Proof.
  intros Hwf Hi Hb. unfold ButtonHandler.consumeEvent, ButtonHandler.wf in *.
  destruct (Nat.leb_spec BUTTON_COUNT index); [lia|].
  rewrite Hb. simpl. split; [reflexivity|]. split.
  - now rewrite length_insert.
  - apply list_lookup_insert_eq. lia.
Qed.


Lemma long_line_channel (index : nat) (l : ButtonHandler.DebugLine) :
  line_index l <> index -> ButtonHandler.is_long_line index l = false.
Proof. destruct l as [i|i|i]; simpl; intros H; try reflexivity; now apply Nat.eqb_neq. Qed.

Lemma short_line_channel (index : nat) (l : ButtonHandler.DebugLine) :
  line_index l <> index -> ButtonHandler.is_short_line index l = false.
Proof. destruct l as [i|i|i]; simpl; intros H; try reflexivity; now apply Nat.eqb_neq. Qed.








(** ** Storage: the persisted dose records *)

Lemma crcShift_range (c : Z) : is_uint8 (Storage.crcShift c).
Proof. unfold Storage.crcShift, is_uint8, to_uint8. case_if; lia. Qed.

Lemma calculateCRC_range (data : list Z) : is_uint8 (Storage.calculateCRC data).
Proof.
  unfold Storage.calculateCRC.
  assert (H : forall c, is_uint8 c -> is_uint8 (fold_left Storage.crcByte data c)).
  { induction data as [|b rest IH]; intros c Hc; simpl; [exact Hc|].
    apply IH. unfold Storage.crcByte. simpl. apply crcShift_range. }
  apply H. unfold is_uint8. lia.
Qed.

(** The checksum is the CRC-8 of polynomial 0x07 with initial value 0: the
    standard check string "123456789" gives 0xF4. *)
Example calculateCRC_check_value :
  Storage.calculateCRC [49; 50; 51; 52; 53; 54; 55; 56; 57] = 244.
Proof. reflexivity. Qed.

Lemma packDose_spec (doses : list Dose) (stack : list Z) (n : nat) :
  (n <= MAX_DOSES)%nat -> (n <= length doses)%nat ->
  length stack = (MAX_DOSES * 4)%nat ->
  (forall i d, (i < n)%nat -> doses !! i = Some d -> well_typed_time (time d)) ->
  length (for_up 0 n (Storage.packDose doses) stack) = length stack /\
  records_at doses n (for_up 0 n (Storage.packDose doses) stack).
Proof.
  intros Hn Hdoses Hstack Htyped. unfold MAX_DOSES in *.
  pose (P := fun (i : nat) (buf : list Z) =>
    length buf = length stack /\ records_at doses i buf).
  assert (HP : P (0 + n)%nat (for_up 0 n (Storage.packDose doses) stack)).
  { apply for_up_ind.
    - split; [reflexivity|]. intros i d k b Hi. lia.
    - intros i buf Hi [Hlen Hrec]. unfold Storage.packDose.
      destruct (lookup_lt_is_Some_2 doses i ltac:(lia)) as [d Hd]. rewrite Hd.
      assert (Hoff : Z.to_nat (to_uint8 (Z.of_nat i * 4)) = (4 * i)%nat)
        by (unfold to_uint8; lia).
      rewrite Hoff.
      destruct (Htyped i d ltac:(lia) Hd) as [Hh Hm]. unfold is_uint8 in Hh, Hm.
      assert (Hhour : to_uint8 (hour (time d)) = hour (time d)) by (unfold to_uint8; lia).
      assert (Hmin : to_uint8 (minute (time d)) = minute (time d)) by (unfold to_uint8; lia).
      rewrite Hhour, Hmin.
      split; [now rewrite !length_insert|].
      intros j e k b Hj He Hk.
      destruct (Nat.eq_dec j i) as [->|Hne].
      + assert (e = d) by congruence. subst e.
        destruct k as [|[|[|[|k]]]]; simpl in Hk; try discriminate; injection Hk as <-.
        * rewrite Nat.add_0_r. rewrite !list_lookup_insert_ne by lia.
          apply list_lookup_insert_eq. lia.
        * rewrite !list_lookup_insert_ne by lia.
          apply list_lookup_insert_eq. rewrite !length_insert. lia.
        * rewrite !list_lookup_insert_ne by lia.
          apply list_lookup_insert_eq. rewrite !length_insert. lia.
        * apply list_lookup_insert_eq. rewrite !length_insert. lia.
      + assert (Hk4 : (k < 4)%nat).
        { apply lookup_lt_Some in Hk. simpl in Hk. lia. }
        rewrite !list_lookup_insert_ne by lia.
        apply (Hrec j e k b); [lia | exact He | exact Hk]. }
  exact HP.
Qed.

Lemma bool_byte_eqb (b : bool) : (Storage.bool_byte b =? 1) = b.
Proof. now destruct b. Qed.

Lemma unpackDose_spec (doses out : list Dose) (buffer : list Z) (n : nat) :
  (n <= MAX_DOSES)%nat -> (n <= length out)%nat ->
  records_at doses n buffer ->
  forall i d, (i < n)%nat -> doses !! i = Some d ->
    for_up 0 n (Storage.unpackDose buffer) out !! i
    = Some (mkDose (time d) (enabled d) false (Z.of_nat i)).
Proof.
  intros Hn Hout Hrec. unfold MAX_DOSES in *.
  pose (P := fun (m : nat) (o : list Dose) =>
    length o = length out /\
    forall i d, (i < m)%nat -> (i < n)%nat -> doses !! i = Some d ->
      o !! i = Some (mkDose (time d) (enabled d) false (Z.of_nat i))).
  assert (HP : P (0 + n)%nat (for_up 0 n (Storage.unpackDose buffer) out)).
  { apply for_up_ind.
    - split; [reflexivity|]. intros; lia.
    - intros m o Hm [Hlen Hdone]. unfold Storage.unpackDose.
      assert (Hoff : Z.to_nat (to_uint8 (Z.of_nat m * 4)) = (4 * m)%nat)
        by (unfold to_uint8; lia).
      rewrite Hoff. split; [now rewrite length_insert|].
      intros i d Hi Hin Hd.
      destruct (Nat.eq_dec i m) as [->|Hne].
      + rewrite list_lookup_insert_eq by lia.
        rewrite (Hrec m d 0%nat _ Hin Hd eq_refl), (Hrec m d 1%nat _ Hin Hd eq_refl),
          (Hrec m d 2%nat _ Hin Hd eq_refl), (Hrec m d 3%nat _ Hin Hd eq_refl).
        simpl. rewrite !bool_byte_eqb, to_uint8_small by lia.
        destruct d as [[h mi pm] en tk i0]. reflexivity.
      + rewrite list_lookup_insert_ne by lia. apply Hdone; auto; lia. }
  intros i d Hi. apply HP; auto.
Qed.

(** C9. With the store open, saving [n <= MAX_DOSES] doses of valid field
    values writes the count, one 4-byte record (hour, minute, AM/PM as 0/1,
    enabled as 0/1) per dose and the CRC-8 of the record block; loading then
    returns [n] and, at each position, the saved time and enabled flag with
    [taken] false and the id equal to the position. *)
Theorem saveDoses_loadDoses_roundtrip
    (st : Storage.t) (doses out : list Dose) (n : nat) (stack1 stack2 : list Z) :
  Storage.initialized st = true ->
  (n <= MAX_DOSES)%nat -> (n <= length doses)%nat -> length out = MAX_DOSES ->
  length stack1 = (MAX_DOSES * 4)%nat -> length stack2 = (MAX_DOSES * 4)%nat ->
  (forall i d, (i < n)%nat -> doses !! i = Some d -> valid_time (time d)) ->
  let st' := Storage.saveDoses stack1 st doses n in
  let loaded := Storage.loadDoses stack2 st' out in
  ((0 < n)%nat ->
   exists bytes,
     Storage.prefs st' !! Storage.KEY_DOSE_COUNT = Some (Storage.PUChar (Z.of_nat n)) /\
     Storage.prefs st' !! Storage.KEY_DOSES = Some (Storage.PBytes bytes) /\
     length bytes = (4 * n)%nat /\ records_at doses n bytes /\
     Storage.prefs st' !! Storage.KEY_CRC
     = Some (Storage.PUChar (Storage.calculateCRC bytes))) /\
  fst loaded = n /\
  (forall i d, (i < n)%nat -> doses !! i = Some d ->
     snd loaded !! i = Some (mkDose (time d) (enabled d) false (Z.of_nat i))).
Proof.
  intros Hinit Hn Hdoses Hout Hs1 Hs2 Hvalid st' loaded.
  destruct (Nat.eq_dec n 0%nat) as [Hz|Hpos0].
  { subst n. split; [intros; lia|]. split; [|intros; lia].
    unfold loaded, st', Storage.loadDoses, Storage.saveDoses. rewrite Hinit.
    cbn [negb Storage.initialized Storage.prefs for_up].
    change (take (0 * 4) stack1) with (@nil Z).
    unfold Storage.getUChar, Storage.putUChar, Storage.putBytes.
    rewrite lookup_insert_ne by discriminate. rewrite lookup_insert_eq.
    reflexivity. }
  assert (Hpos : (0 < n)%nat) by lia.
  assert (Htyped : forall i d, (i < n)%nat -> doses !! i = Some d -> well_typed_time (time d)).
  { intros i d Hi Hd. destruct (Hvalid i d Hi Hd) as [Hh Hm].
    unfold well_typed_time, is_uint8. lia. }
  destruct (packDose_spec doses stack1 n Hn Hdoses Hs1 Htyped) as [Hlen Hrec].
  unfold MAX_DOSES in *.
  set (buffer := for_up 0 n (Storage.packDose doses) stack1) in *.
  set (bytes := take (n * 4) buffer).
  assert (Hbl : length bytes = (4 * n)%nat) by (unfold bytes; rewrite length_take; lia).
  assert (Hbrec : records_at doses n bytes).
  { intros i d k b Hi Hd Hk.
    assert (Hk4 : (k < 4)%nat) by (apply lookup_lt_Some in Hk; simpl in Hk; lia).
    unfold bytes. rewrite lookup_take_lt by lia. now apply (Hrec i d k b). }
  assert (Hne : bytes <> []) by (intros E; rewrite E in Hbl; simpl in Hbl; lia).
  pose proof (calculateCRC_range bytes) as Hcrc. unfold is_uint8 in Hcrc.
  assert (Hst : Storage.prefs st' =
    <[Storage.KEY_CRC := Storage.PUChar (Storage.calculateCRC bytes)]>
      (<[Storage.KEY_DOSES := Storage.PBytes bytes]>
         (<[Storage.KEY_DOSE_COUNT := Storage.PUChar (Z.of_nat n)]> (Storage.prefs st))) /\
    Storage.initialized st' = true).
  { unfold st', Storage.saveDoses. rewrite Hinit. simpl. fold buffer. fold bytes.
    unfold Storage.putUChar, Storage.putBytes.
    destruct bytes as [|b0 bytes'] eqn:Eb; [contradiction|].
    replace (to_uint8 (Z.of_nat n)) with (Z.of_nat n) by (unfold to_uint8; lia).
    replace (to_uint8 (Storage.calculateCRC (b0 :: bytes')))
      with (Storage.calculateCRC (b0 :: bytes')) by (unfold to_uint8; lia).
    split; reflexivity. }
  destruct Hst as [Hprefs Hinit'].
  assert (Hget_bytes : Storage.prefs st' !! Storage.KEY_DOSES = Some (Storage.PBytes bytes)).
  { rewrite Hprefs. rewrite lookup_insert_ne by discriminate. apply lookup_insert_eq. }
  assert (Hget_crc : Storage.prefs st' !! Storage.KEY_CRC
                     = Some (Storage.PUChar (Storage.calculateCRC bytes))).
  { rewrite Hprefs. apply lookup_insert_eq. }
  assert (Hget_count : Storage.prefs st' !! Storage.KEY_DOSE_COUNT
                       = Some (Storage.PUChar (Z.of_nat n))).
  { rewrite Hprefs. rewrite !lookup_insert_ne by discriminate. apply lookup_insert_eq. }
  split.
  { intros _. exists bytes. auto 6. }
  assert (Htake : take (n * 4) (bytes ++ drop (length bytes) stack2) = bytes).
  { rewrite take_app_le by lia. apply take_ge. lia. }
  unfold loaded, Storage.loadDoses, Storage.getUChar, Storage.getBytes, MAX_DOSES.
  rewrite Hinit', Hget_count, Hget_bytes, Hget_crc, Nat2Z.id.
  cbn [negb].
  destruct (Nat.eqb_spec n 0); [lia|].
  destruct (Nat.ltb_spec 10 n); [lia|]. cbn [orb].
  destruct (Nat.eqb_spec (length bytes) 0); [lia|].
  destruct (Nat.eqb_spec (n * 4) 0); [lia|]. cbn [orb].
  destruct (Nat.ltb_spec (n * 4) (length bytes)); [lia|].
  destruct (Nat.eqb_spec (length bytes) (n * 4)); [|lia]. cbn [negb].
  rewrite Htake, Z.eqb_refl. cbn [negb fst snd].
  split; [reflexivity|].
  apply unpackDose_spec; [unfold MAX_DOSES; lia | lia |].
  intros i d k b Hi Hd Hk.
  assert (Hk4 : (k < 4)%nat) by (apply lookup_lt_Some in Hk; simpl in Hk; lia).
  rewrite lookup_app_l by lia. now apply (Hbrec i d k b).
Qed.

(** ** main.cpp: the polling tick *)

Lemma updateCache_idem (tm : TimeManager.t) (now : Z) (rtc : TimeManager.DateTime) :
  TimeManager.updateCache (TimeManager.updateCache tm now rtc) now rtc
  = TimeManager.updateCache tm now rtc.
Proof.
  unfold TimeManager.updateCache.
  destruct (sub32 now (TimeManager.lastCacheUpdate tm) >=? TIME_CHECK_INTERVAL) eqn:E.
  - simpl. unfold sub32, to_uint32. rewrite Z.sub_diag. reflexivity.
  - now rewrite E.
Qed.

Lemma checkDoseTime_doses (w : Main.World) (inp : Main.Input) :
  Main.doseManager (Main.checkDoseTime w inp) = Main.doseManager w /\
  Main.currentDay (Main.systemState (Main.checkDoseTime w inp))
  = Main.currentDay (Main.systemState w) /\
  Main.lidSensor (Main.checkDoseTime w inp) = Main.lidSensor w.
Proof.
  unfold Main.checkDoseTime.
  destruct (TimeManager.getCurrentTime (Main.timeManager w) (Main.millis inp) (Main.rtc inp))
    as [cur tm].
  repeat case_if; simpl; auto.
Qed.

Lemma checkMidnightReset_alert (w : Main.World) (inp : Main.Input) :
  let w' := Main.checkMidnightReset w inp in
  Main.alarmActive (Main.systemState w') = Main.alarmActive (Main.systemState w) /\
  Main.snoozeActive (Main.systemState w') = Main.snoozeActive (Main.systemState w) /\
  Main.activeDoseIndex (Main.systemState w') = Main.activeDoseIndex (Main.systemState w) /\
  Main.currentMenu (Main.systemState w') = Main.currentMenu (Main.systemState w) /\
  Main.alarmController w' = Main.alarmController w /\
  Main.uiManager w' = Main.uiManager w /\
  Main.buttonHandler w' = Main.buttonHandler w /\
  LidSensor.justOpenedFlag (Main.lidSensor w') = LidSensor.justOpenedFlag (Main.lidSensor w) /\
  (Main.doseManager w' = Main.doseManager w \/
   Main.doseManager w' = DoseManager.resetDailyStatus (Main.doseManager w)).
Proof.
  unfold Main.checkMidnightReset.
  destruct (TimeManager.getDate (Main.timeManager w) (Main.millis inp) (Main.rtc inp))
    as [day tm].
  case_if; simpl; repeat split; auto.
Qed.

Lemma getDate_after_getCurrentTime (tm : TimeManager.t) (now : Z) (rtc : TimeManager.DateTime) :
  fst (TimeManager.getDate (snd (TimeManager.getCurrentTime tm now rtc)) now rtc)
  = fst (TimeManager.getDate tm now rtc).
Proof.
  unfold TimeManager.getDate, TimeManager.getCurrentTime. simpl.
  now rewrite updateCache_idem.
Qed.

Lemma checkDoseTime_clock (w : Main.World) (inp : Main.Input) :
  Main.timeManager (Main.checkDoseTime w inp) = Main.timeManager w \/
  Main.timeManager (Main.checkDoseTime w inp)
  = snd (TimeManager.getCurrentTime (Main.timeManager w) (Main.millis inp) (Main.rtc inp)).
Proof.
  unfold Main.checkDoseTime.
  destruct (TimeManager.getCurrentTime (Main.timeManager w) (Main.millis inp) (Main.rtc inp))
    as [cur tm].
  repeat case_if; simpl; auto.
Qed.

Lemma checkDoseTime_raises (w : Main.World) (inp : Main.Input) :
  DoseManager.wf (Main.doseManager w) ->
  Main.alarmActive (Main.systemState w) = false ->
  Main.alarmActive (Main.systemState (Main.checkDoseTime w inp)) = true ->
  exists k d,
    Main.activeDoseIndex (Main.systemState (Main.checkDoseTime w inp)) = Z.of_nat k /\
    (k < DoseManager.doseCount (Main.doseManager w))%nat /\
    DoseManager.doses (Main.doseManager w) !! k = Some d /\
    enabled d = true /\ taken d = false.
Proof.
  intros Hwf Hoff. unfold Main.checkDoseTime.
  destruct (TimeManager.getCurrentTime (Main.timeManager w) (Main.millis inp) (Main.rtc inp))
    as [cur tm].
  unfold DoseManager.checkDoseTime.
  destruct (dueScan_spec (DoseManager.doses (Main.doseManager w)) cur
              (DoseManager.doseCount (Main.doseManager w)) 0
              ltac:(destruct Hwf as [_ Hc]; unfold MAX_DOSES in Hc; lia))
    as [[Hr _] | (k & d & Hr & Hk & Hd & (He & Ht & _) & _)]; rewrite Hr.
  - repeat case_if; simpl; intros Hon; try congruence; discriminate.
  - repeat case_if; simpl; intros Hon; try congruence.
    exists k, d. repeat (split; [first [assumption | lia]|]). assumption.
Qed.

(** C7, as the code has it. On every polling tick the dose-time match check
    runs before the day-rollover check: the doses leave the tick reset exactly
    when the day changed, and an alert raised by the tick is for a dose whose
    taken flag was already false before the tick, so a flag cleared by the
    tick's rollover is seen as not-taken from the next tick on. *)
Theorem polling_tick_match_before_rollover (w : Main.World) (inp : Main.Input) :
  DoseManager.wf (Main.doseManager w) ->
  let w' := Main.pollingTick w inp in
  Main.doseManager w' =
    (if day_changed w inp
     then DoseManager.resetDailyStatus (Main.doseManager w)
     else Main.doseManager w) /\
  (Main.alarmActive (Main.systemState w) = false ->
   Main.alarmActive (Main.systemState w') = true ->
   exists k d,
     Main.activeDoseIndex (Main.systemState w') = Z.of_nat k /\
     (k < DoseManager.doseCount (Main.doseManager w))%nat /\
     DoseManager.doses (Main.doseManager w) !! k = Some d /\
     enabled d = true /\ taken d = false).
Proof.
  intros Hwf w'. unfold w', Main.pollingTick.
  set (w0 := Main.with_lastTimeCheck w (Main.millis inp)).
  set (w1 := Main.checkDoseTime w0 inp).
  destruct (checkDoseTime_doses w0 inp) as (Hdm & Hday & _). fold w1 in Hdm, Hday.
  destruct (checkMidnightReset_alert w1 inp) as (Ha & _ & Hidx & _).
  split.
  - unfold Main.checkMidnightReset, day_changed.
    assert (Hd : fst (TimeManager.getDate (Main.timeManager w1) (Main.millis inp) (Main.rtc inp))
                 = fst (TimeManager.getDate (Main.timeManager w) (Main.millis inp) (Main.rtc inp))).
    { destruct (checkDoseTime_clock w0 inp) as [E|E]; fold w1 in E; rewrite E.
      - reflexivity.
      - apply getDate_after_getCurrentTime. }
    destruct (TimeManager.getDate (Main.timeManager w1) (Main.millis inp) (Main.rtc inp))
      as [day tm].
    rewrite <- Hd, Hday. cbn [fst].
    replace (Main.currentDay (Main.systemState w0))
      with (Main.currentDay (Main.systemState w)) by reflexivity.
    case_if; simpl; now rewrite Hdm.
  - rewrite Ha, Hidx. intros Hoff Hon.
    apply (checkDoseTime_raises w0 inp Hwf Hoff Hon).
Qed.

(** C7 as stated fails. At the first tick of a new day, at 12:00 AM, a dose due
    at 12:00 AM and taken the day before has its flag cleared by the tick's
    rollover and would match, yet the tick raises no alert, because the match
    check ran first; with the rollover first the alert would be raised. The
    code raises it at the next tick. *)
Lemma rollover_tick_checks_stale_flag :
  let w' := Main.pollingTick world_before_midnight input_at_midnight in
  DoseManager.isDoseTaken (Main.doseManager world_before_midnight) 0 = true /\
  DoseManager.isDoseTaken (Main.doseManager w') 0 = false /\
  DoseManager.checkDoseTime (Main.doseManager w') (mkTime12H 12 0 false) = 0 /\
  Main.alarmActive (Main.systemState w') = false /\
  Main.alarmActive
    (Main.systemState (Main.pollingTick_rolloverFirst world_before_midnight input_at_midnight))
  = true /\
  Main.alarmActive (Main.systemState (Main.pollingTick w' input_next_second)) = true.
Proof. vm_compute. repeat split. Qed.

(** ** main.cpp: the lid opening during an alert *)

Lemma resetDailyStatus_lookup (dm : DoseManager.t) (k : nat) (d : Dose) :
  (k < DoseManager.doseCount dm)%nat ->
  DoseManager.doses dm !! k = Some d ->
  DoseManager.doseCount (DoseManager.resetDailyStatus dm) = DoseManager.doseCount dm /\
  DoseManager.doses (DoseManager.resetDailyStatus dm) !! k = Some (set_taken false d).
Proof.
  intros Hk Hd. unfold DoseManager.resetDailyStatus. simpl. split; [reflexivity|].
  pose (P := fun (i : nat) (a : list Dose) =>
    forall j e, DoseManager.doses dm !! j = Some e ->
      a !! j = Some (if (j <? i)%nat then set_taken false e else e)).
  assert (HP : P (0 + DoseManager.doseCount dm)%nat
                 (for_up 0 (DoseManager.doseCount dm)
                    (fun i => DoseManager.modifyAt i (set_taken false))
                    (DoseManager.doses dm))).
  { apply for_up_ind.
    - intros j e He. exact He.
    - intros i a Hi Hinv j e He. unfold DoseManager.modifyAt.
      destruct (a !! i) as [x|] eqn:Hx.
      + destruct (Nat.eq_dec j i) as [->|Hne].
        * rewrite list_lookup_insert_eq by (apply lookup_lt_Some in Hx; exact Hx).
          rewrite (Hinv i e He) in Hx. rewrite Nat.ltb_irrefl in Hx.
          injection Hx as <-.
          destruct (Nat.ltb_spec i (S i)); [reflexivity | lia].
        * rewrite list_lookup_insert_ne by lia. rewrite (Hinv j e He).
          destruct (Nat.ltb_spec j i); destruct (Nat.ltb_spec j (S i)); try lia; reflexivity.
      + rewrite (Hinv j e He).
        destruct (Nat.eq_dec j i) as [->|Hne].
        * rewrite (Hinv i e He) in Hx. discriminate.
        * destruct (Nat.ltb_spec j i); destruct (Nat.ltb_spec j (S i)); try lia; reflexivity. }
  rewrite (HP k d Hd). simpl.
  destruct (Nat.ltb_spec k (DoseManager.doseCount dm)); [reflexivity | lia].
Qed.

Lemma markDoseTaken_lookup (dm : DoseManager.t) (k : nat) (d : Dose) :
  (k < DoseManager.doseCount dm)%nat ->
  DoseManager.doses dm !! k = Some d ->
  DoseManager.doses (DoseManager.markDoseTaken dm k) !! k = Some (set_taken true d) /\
  DoseManager.isDoseTaken (DoseManager.markDoseTaken dm k) k = true.
Proof.
  intros Hk Hd. unfold DoseManager.isDoseTaken, DoseManager.markDoseTaken, DoseManager.modifyAt.
  destruct (Nat.ltb_spec k (DoseManager.doseCount dm)) as [_|]; [|lia].
  rewrite Hd. simpl.
  destruct (Nat.ltb_spec k (DoseManager.doseCount dm)) as [_|]; [|lia].
  rewrite list_lookup_insert_eq by (apply lookup_lt_Some in Hd; exact Hd).
  split; reflexivity.
Qed.

Lemma checkDoseTime_active (w : Main.World) (inp : Main.Input) :
  Main.alarmActive (Main.systemState w) = true -> Main.checkDoseTime w inp = w.
Proof.
  intros Ha. unfold Main.checkDoseTime. rewrite Ha. simpl.
  now destruct (negb (Main.alarmEnabled (Main.systemState w))
                || Main.muteMode (Main.systemState w)).
Qed.

(** What the polling phase can change while an alert is live. *)
Lemma pollingPhase_during_alert (w : Main.World) (inp : Main.Input) :
  Main.alarmActive (Main.systemState w) = true ->
  let w' := Main.pollingPhase w inp in
  Main.alarmActive (Main.systemState w') = true /\
  Main.activeDoseIndex (Main.systemState w') = Main.activeDoseIndex (Main.systemState w) /\
  Main.alarmController w' = Main.alarmController w /\
  LidSensor.justOpenedFlag (Main.lidSensor w') = LidSensor.justOpenedFlag (Main.lidSensor w) /\
  (Main.doseManager w' = Main.doseManager w \/
   Main.doseManager w' = DoseManager.resetDailyStatus (Main.doseManager w)).
Proof.
  intros Ha. unfold Main.pollingPhase, Main.pollingTick.
  case_if; [|simpl; auto 10].
  rewrite checkDoseTime_active by exact Ha.
  destruct (checkMidnightReset_alert (Main.with_lastTimeCheck w (Main.millis inp)) inp)
    as (H1 & _ & H3 & _ & H5 & _ & _ & H8 & H9).
  simpl in *. rewrite H1, H3, H5, H8. auto 10.
Qed.

(** The wake-up shortcut needs the display off; the display is switched on
    whenever an alert is raised, and only [timeoutPhase], which is skipped
    during an alert, switches it off. *)
Lemma wakeShortcut_display_on (w : Main.World) (inp : Main.Input) :
  UIManager.displayOn (Main.uiManager w) = true ->
  Main.wakeShortcut (Main.inputPhase w inp) = false.
Proof.
  intros Hon. unfold Main.wakeShortcut, UIManager.isOn. simpl. rewrite Hon.
  apply andb_false_r.
Qed.

Lemma checkDoseTime_display_on (w : Main.World) (inp : Main.Input) :
  Main.alarmActive (Main.systemState w) = false ->
  Main.alarmActive (Main.systemState (Main.checkDoseTime w inp)) = true ->
  UIManager.displayOn (Main.uiManager (Main.checkDoseTime w inp)) = true.
Proof.
  intros Hoff. unfold Main.checkDoseTime.
  destruct (TimeManager.getCurrentTime (Main.timeManager w) (Main.millis inp) (Main.rtc inp))
    as [cur tm].
  repeat case_if; simpl; intros Hon; congruence.
Qed.

Lemma timeoutPhase_during_alert (w : Main.World) (inp : Main.Input) :
  Main.alarmActive (Main.systemState w) = true -> Main.timeoutPhase w inp = w.
Proof. intros Ha. unfold Main.timeoutPhase. now rewrite Ha. Qed.

(** C4. In a loop iteration that starts with an alert live
    ([alarmActive], [activeDoseIndex >= 0]) and in which the lid sensor
    reports the opened edge, the dose at [activeDoseIndex] is marked taken,
    the alarm is stopped, [snoozeActive] is cleared, [activeDoseIndex] becomes
    -1 and the menu HOME, whatever [snoozeActive] was; the handler of the
    iteration runs after that, on that state, as the HOME handler. *)
Theorem lid_open_preempts_alert
    (handler : MenuState -> Main.Input -> Main.World -> Main.World)
    (w : Main.World) (inp : Main.Input) :
  Main.alarmActive (Main.systemState w) = true ->
  0 <= Main.activeDoseIndex (Main.systemState w) < 128 ->
  Main.wakeShortcut (Main.inputPhase w inp) = false ->
  LidSensor.justOpenedFlag
    (LidSensor.update (Main.lidSensor w) (Main.reed inp) (Main.millis inp)) = true ->
  exists w3,
    Main.loop handler w inp = Main.timeoutPhase (handler MENU_HOME inp w3) inp /\
    Main.alarmActive (Main.systemState w3) = false /\
    Main.snoozeActive (Main.systemState w3) = false /\
    Main.activeDoseIndex (Main.systemState w3) = -1 /\
    Main.currentMenu (Main.systemState w3) = MENU_HOME /\
    AlarmController.active (Main.alarmController w3) = false /\
    AlarmController.snoozed (Main.alarmController w3) = false /\
    AlarmController.buzzerOn (Main.alarmController w3) = false /\
    AlarmController.duty (Main.alarmController w3) = 0 /\
    LidSensor.justOpenedFlag (Main.lidSensor w3) = false /\
    (forall k d,
       Main.activeDoseIndex (Main.systemState w) = Z.of_nat k ->
       (k < DoseManager.doseCount (Main.doseManager w))%nat ->
       DoseManager.doses (Main.doseManager w) !! k = Some d ->
       DoseManager.doses (Main.doseManager w3) !! k = Some (set_taken true d) /\
       DoseManager.isDoseTaken (Main.doseManager w3) k = true).
Proof.
  intros Ha Hidx Hwake Hlid. unfold Main.loop. rewrite Hwake.
  set (w1 := Main.inputPhase w inp).
  assert (Ha1 : Main.alarmActive (Main.systemState w1) = true) by exact Ha.
  destruct (pollingPhase_during_alert w1 inp Ha1) as (Ha2 & Hi2 & Hal2 & Hl2 & Hdm2).
  set (w2 := Main.pollingPhase w1 inp) in *.
  change (Main.activeDoseIndex (Main.systemState w1))
    with (Main.activeDoseIndex (Main.systemState w)) in Hi2.
  change (LidSensor.justOpenedFlag (Main.lidSensor w1))
    with (LidSensor.justOpenedFlag
            (LidSensor.update (Main.lidSensor w) (Main.reed inp) (Main.millis inp))) in Hl2.
  change (Main.doseManager w1) with (Main.doseManager w) in Hdm2.
  rewrite Hlid in Hl2.
  exists (Main.lidPhase w2 inp). unfold Main.dispatch.
  unfold Main.lidPhase. rewrite Ha2.
  unfold LidSensor.justOpened. rewrite Hl2, Hi2.
  destruct (Z.geb_spec (Main.activeDoseIndex (Main.systemState w)) 0) as [_|]; [|lia].
  destruct (TimeManager.getUnixTime (Main.timeManager w2) (Main.millis inp) (Main.rtc inp))
    as [unix tm].
  cbn [Main.systemState Main.alarmController Main.lidSensor Main.doseManager
       Main.with_alert_cleared Main.alarmActive Main.snoozeActive Main.activeDoseIndex
       Main.currentMenu LidSensor.justOpenedFlag].
  split; [reflexivity|].
  repeat (split; [first [reflexivity
                        | unfold AlarmController.playConfirm, AlarmController.playJingle,
                            AlarmController.stopAlarm, AlarmController.buzzerOutput;
                          case_if; reflexivity]|]).
  intros k d Hk Hlt Hd.
  assert (Hto : Z.to_nat (to_uint8 (Main.activeDoseIndex (Main.systemState w))) = k)
    by (unfold to_uint8; lia).
  rewrite Hto.
  destruct Hdm2 as [-> | ->].
  - now apply markDoseTaken_lookup.
  - destruct (resetDailyStatus_lookup (Main.doseManager w) k d Hlt Hd) as [Hc Hr].
    destruct (markDoseTaken_lookup _ k _ ltac:(rewrite Hc; exact Hlt) Hr) as [Hm Ht].
    split; [exact Hm | exact Ht].
Qed.

(** * The model on small inputs *)

(** The example schedule is kept in chronological order with ids 0, 1, 2. *)
Example three_doses_times :
  map (fun d => (time d, id d)) (take 3 (DoseManager.doses three_doses))
  = [(t_8_00_AM, 0); (t_12_00_PM, 1); (t_6_00_PM, 2)].
Proof. reflexivity. Qed.

(** An earlier dose moves to the front and the ids follow. *)
Example addDose_7_00_AM :
  map (fun d => (hour (time d), id d))
      (take 4 (DoseManager.doses (snd (DoseManager.addDose three_doses (mkTime12H 7 0 false)))))
  = [(7, 0); (8, 1); (12, 2); (6, 3)].
Proof. reflexivity. Qed.

(** 11:50 PM and 12:00 AM are ten minutes apart round midnight. *)
Example spacing_wraps_midnight :
  DoseManager.timesTooClose (mkTime12H 11 50 true) (mkTime12H 12 0 false) = true /\
  DoseManager.timesTooClose (mkTime12H 11 45 true) (mkTime12H 12 0 false) = false.
Proof. split; reflexivity. Qed.

(** A short press of OK is printed once, delivered once and then gone. *)
Example short_press_once :
  let r := ButtonHandler.updates ok_pressed [(all_up, 200); (all_up, 260); (all_up, 300)] in
  snd r = [ButtonHandler.LineShortPress 0] /\
  fst (ButtonHandler.getOkEvent (fst r)) = BTN_SHORT_PRESS /\
  fst (ButtonHandler.getOkEvent (snd (ButtonHandler.getOkEvent (fst r)))) = BTN_NONE.
Proof. repeat split. Qed.

(** The standard pattern goes silent after 500 ms; a five-second snooze shows
    5 s left at once and 0 s in its last second. *)
Example alarm_cadence :
  AlarmController.buzzerOn
    (AlarmController.update
       (AlarmController.startAlarm AlarmController.begin AlarmController.PATTERN_STANDARD 0)
       500) = false /\
  AlarmController.getSnoozeRemaining snoozed_5s 0 = 5 /\
  AlarmController.getSnoozeRemaining snoozed_5s 4001 = 0.
Proof. repeat split. Qed.

(** The persisted image of the example schedule. *)
Example saved_three_doses :
  Storage.prefs (Storage.saveDoses blank_buffer empty_store (DoseManager.doses three_doses) 3)
    !! Storage.KEY_DOSES
  = Some (Storage.PBytes [8; 0; 0; 1; 12; 0; 1; 1; 6; 0; 1; 1]).
Proof. reflexivity. Qed.

(** * The theorems at concrete inputs *)

(** The example schedule is a well-formed manager. *)
Lemma three_doses_wf : DoseManager.wf three_doses.
Proof. split; vm_compute; [reflexivity | lia]. Defined.

(** At 12:00 PM the example schedule reports one of its three doses. *)
Lemma checkDoseTime_first_due_witness :
  DoseManager.wf three_doses /\
  exists k, DoseManager.checkDoseTime three_doses t_12_00_PM = Z.of_nat k /\ (k < 3)%nat.
Proof.
  split; [exact three_doses_wf|].
  destruct (checkDoseTime_first_due three_doses t_12_00_PM three_doses_wf)
    as [[Hr _] | (k & d & Hr & Hk & _)].
  - vm_compute in Hr. discriminate Hr.
  - exists k. split; [exact Hr | exact Hk].
Defined.

(** 8:10 AM is refused on the example schedule, which stays as it is. *)
Lemma addDose_rejects_or_inserts_sorted_witness :
  DoseManager.wf three_doses /\ well_typed_time t_8_10_AM /\
  DoseManager.addDose three_doses t_8_10_AM = (false, three_doses).
Proof.
  assert (Ht : well_typed_time t_8_10_AM) by (unfold well_typed_time, is_uint8; simpl; lia).
  split; [exact three_doses_wf|]. split; [exact Ht|].
  apply (proj1 (addDose_rejects_or_inserts_sorted three_doses t_8_10_AM three_doses_wf Ht)).
  right. right. exists 0%nat, (mkDose t_8_00_AM true false 0).
  split; [vm_compute; lia|]. split; [reflexivity|].
  split; [unfold valid_time; simpl; lia|]. vm_compute. reflexivity.
Defined.

(** The example schedule is built by three adds. *)
Lemma three_doses_reachable : reachable three_doses.
Proof.
  unfold three_doses.
  repeat (apply reach_add; [|unfold well_typed_time, is_uint8; simpl; lia]).
  apply reach_begin.
Defined.

(** Its doses at 8:00 AM and 12:00 PM are at least 15 minutes apart. *)
Lemma reachable_doses_spaced_witness :
  reachable three_doses /\
  Z.min (Z.abs (minuteOfDay t_8_00_AM - minuteOfDay t_12_00_PM))
        (1440 - Z.abs (minuteOfDay t_8_00_AM - minuteOfDay t_12_00_PM)) >= 15.
Proof.
  split; [exact three_doses_reachable|].
  apply (proj1 reachable_doses_spaced three_doses three_doses_reachable 0%nat 1%nat
           (mkDose t_8_00_AM true false 0) (mkDose t_12_00_PM true false 1)).
  - discriminate.
  - vm_compute; lia.
  - vm_compute; lia.
  - reflexivity.
  - reflexivity.
Defined.

(** Removing index 3 of the three-dose schedule is refused. *)
Lemma index_out_of_range_noop_witness :
  (DoseManager.doseCount three_doses <= 3)%nat /\
  DoseManager.removeDose three_doses 3 = (false, three_doses).
Proof.
  assert (H : (DoseManager.doseCount three_doses <= 3)%nat) by (vm_compute; lia).
  split; [exact H|]. apply (index_out_of_range_noop three_doses 3 H).
Defined.

(** The invariant holds after [begin] followed by [startAlarm]. *)
Lemma alarm_session_invariant_witness :
  AlarmController.session_inv
    (AlarmController.run_op AlarmController.begin
       (AlarmController.OpStart AlarmController.PATTERN_STANDARD 0)).
Proof.
  apply (proj1 (proj2 alarm_session_invariant)).
  exact (proj1 alarm_session_invariant).
Defined.

(** A five-second snooze: less time is left after one second, and the
    update at the deadline resumes from step 0. *)
Lemma snooze_remaining_and_resume_witness :
  AlarmController.getSnoozeRemaining snoozed_5s 1000
  < AlarmController.getSnoozeRemaining snoozed_5s 0 /\
  AlarmController.snoozed (AlarmController.update snoozed_5s 5000) = false /\
  AlarmController.patternStep (AlarmController.update snoozed_5s 5000) = O.
Proof.
  destruct (snooze_remaining_and_resume snoozed_5s) as (_ & Hmono & Hresume).
  split.
  - apply (proj2 (Hmono 0 1000 eq_refl ltac:(vm_compute; intuition discriminate)
                    ltac:(lia) ltac:(lia) ltac:(lia) ltac:(vm_compute; reflexivity)));
      [lia | vm_compute; reflexivity].
  - destruct (Hresume 5000 eq_refl eq_refl) as [_ Hat].
    destruct (Hat ltac:(vm_compute; discriminate)) as (Hs & _ & Hp & _).
    split; [exact Hs | exact Hp].
Defined.

(** The first tick of day 2 leaves the schedule reset. *)
Lemma polling_tick_match_before_rollover_witness :
  DoseManager.wf (Main.doseManager world_before_midnight) /\
  Main.doseManager (Main.pollingTick world_before_midnight input_at_midnight)
  = DoseManager.resetDailyStatus (Main.doseManager world_before_midnight).
Proof.
  assert (Hwf : DoseManager.wf (Main.doseManager world_before_midnight))
    by (split; vm_compute; [reflexivity | lia]).
  split; [exact Hwf|].
  exact (proj1 (polling_tick_match_before_rollover world_before_midnight
                  input_at_midnight Hwf)).
Defined.

(** The spec's scenario: alert on dose 2, snoozed, the lid opens. *)
Lemma lid_open_preempts_alert_witness :
  exists w3,
    Main.loop idle_handler world_in_alert input_lid_open
    = Main.timeoutPhase (idle_handler MENU_HOME input_lid_open w3) input_lid_open /\
    Main.currentMenu (Main.systemState w3) = MENU_HOME /\
    Main.alarmActive (Main.systemState w3) = false /\
    DoseManager.isDoseTaken (Main.doseManager w3) 2 = true.
Proof.
  destruct (lid_open_preempts_alert idle_handler world_in_alert input_lid_open)
    as (w3 & Hloop & Ha & _ & _ & Hm & _ & _ & _ & _ & _ & Hdose).
  - reflexivity.
  - simpl. lia.
  - vm_compute. reflexivity.
  - vm_compute. reflexivity.
  - exists w3. split; [exact Hloop|]. split; [exact Hm|]. split; [exact Ha|].
    apply (Hdose 2%nat (mkDose t_6_00_PM true false 2)).
    + reflexivity.
    + vm_compute; lia.
    + reflexivity.
Defined.


(** The example schedule saved to an empty store loads back with 3 doses. *)
Lemma saveDoses_loadDoses_roundtrip_witness :
  fst (Storage.loadDoses blank_buffer
         (Storage.saveDoses blank_buffer empty_store (DoseManager.doses three_doses) 3)
         DoseManager.fresh_slots) = 3%nat.
Proof.
  apply (saveDoses_loadDoses_roundtrip empty_store (DoseManager.doses three_doses)
           DoseManager.fresh_slots 3 blank_buffer blank_buffer).
  - reflexivity.
  - unfold MAX_DOSES; lia.
  - vm_compute; lia.
  - reflexivity.
  - reflexivity.
  - reflexivity.
  - intros i d Hi Hd. destruct i as [|[|[|i]]]; try lia;
      vm_compute in Hd; injection Hd as <-; unfold valid_time; simpl; lia.
Defined.

(** * Further properties of the modelled code *)

(** ** TimeManager *)

Lemma convert24to12_inverse (h : Z) :
  0 <= h <= 23 ->
  1 <= hour (TimeManager.convert24to12 h) <= 12 /\
  TimeManager.convert12to24 (TimeManager.convert24to12 h) = h.
Proof.
  intros Hh. unfold TimeManager.convert24to12, TimeManager.convert12to24, to_uint8.
  destruct (Z.eqb_spec h 0); [simpl; lia|].
  destruct (Z.ltb_spec h 12); [simpl; destruct (Z.eqb_spec h 12); lia|].
  destruct (Z.eqb_spec h 12); [simpl; lia|]. simpl.
  destruct (Z.eqb_spec ((h - 12) mod 256) 12); lia.
Qed.

(** X1. The 24-hour and 12-hour forms convert back and forth: an hour 0-23
    becomes an hour 1-12 with AM/PM and converts back to itself, and a
    12-hour time with hour 1-12 becomes an hour 0-23 that converts back to
    the same hour and AM/PM flag. *)
Theorem convert_12_24_roundtrip :
  (forall h, 0 <= h <= 23 ->
     1 <= hour (TimeManager.convert24to12 h) <= 12 /\
     TimeManager.convert12to24 (TimeManager.convert24to12 h) = h) /\
  (forall t, 1 <= hour t <= 12 ->
     0 <= TimeManager.convert12to24 t <= 23 /\
     hour (TimeManager.convert24to12 (TimeManager.convert12to24 t)) = hour t /\
     isPM (TimeManager.convert24to12 (TimeManager.convert12to24 t)) = isPM t).
Proof.
  split.
  - exact convert24to12_inverse.
  - intros [h m pm] Hh. simpl in Hh.
    unfold TimeManager.convert24to12, TimeManager.convert12to24, to_uint8. simpl.
    destruct pm; destruct (Z.eqb_spec h 12); simpl.
    + repeat split; lia.
    + destruct (Z.eqb_spec ((h + 12) mod 256) 0); [lia|].
      destruct (Z.ltb_spec ((h + 12) mod 256) 12); [lia|].
      destruct (Z.eqb_spec ((h + 12) mod 256) 12); [lia|]. simpl. repeat split; lia.
    + repeat split; lia.
    + destruct (Z.eqb_spec h 0); [lia|].
      destruct (Z.ltb_spec h 12); [|lia]. simpl. repeat split; lia.
Qed.

(** 1 PM is hour 13, and 12 AM is hour 0. *)
Lemma convert_12_24_roundtrip_witness :
  TimeManager.convert12to24 (TimeManager.convert24to12 13) = 13 /\
  hour (TimeManager.convert24to12 (TimeManager.convert12to24 (mkTime12H 12 0 false))) = 12.
Proof.
  split.
  - apply (proj1 convert_12_24_roundtrip 13). lia.
  - apply (proj2 convert_12_24_roundtrip (mkTime12H 12 0 false)). simpl. lia.
Defined.

Lemma minuteOfDay_of_valid (t : Time12H) :
  valid_time t ->
  minuteOfDay t = TimeManager.convert12to24 t * 60 + minute t /\
  0 <= TimeManager.convert12to24 t <= 23.
Proof.
  intros [Hh Hm]. unfold minuteOfDay, DoseManager.timeToMinutes,
    TimeManager.convert12to24, to_uint16, to_uint8.
  destruct (isPM t); destruct (Z.eqb_spec (hour t) 12); lia.
Qed.

Lemma getCurrentTime_minute (tm : TimeManager.t) (now : Z) (rtc : TimeManager.DateTime) :
  let dt := TimeManager.cachedDateTime (TimeManager.updateCache tm now rtc) in
  valid_clock dt ->
  snd (TimeManager.getCurrentTime tm now rtc) = TimeManager.updateCache tm now rtc /\
  valid_time (fst (TimeManager.getCurrentTime tm now rtc)) /\
  minuteOfDay (fst (TimeManager.getCurrentTime tm now rtc)) =
    TimeManager.dt_hour dt * 60 + TimeManager.dt_minute dt.
Proof.
  intros dt [Hh Hm]. unfold TimeManager.getCurrentTime. cbn [fst snd].
  split; [reflexivity|]. fold dt.
  destruct (convert24to12_inverse (TimeManager.dt_hour dt) Hh) as [Hr Hback].
  assert (Hv : valid_time
    (mkTime12H (hour (TimeManager.convert24to12 (TimeManager.dt_hour dt)))
               (TimeManager.dt_minute dt)
               (isPM (TimeManager.convert24to12 (TimeManager.dt_hour dt))))).
  { split; simpl; lia. }
  split; [exact Hv|].
  destruct (minuteOfDay_of_valid _ Hv) as [-> _].
  cbn [minute]. f_equal. f_equal.
  transitivity (TimeManager.convert12to24
                  (TimeManager.convert24to12 (TimeManager.dt_hour dt))); [|exact Hback].
  reflexivity.
Qed.

(** X2. Whenever the cached RTC reading has hour 0-23 and minute 0-59,
    [getCurrentTime] returns a valid 12-hour time that denotes the same
    minute of the day; the cache it reads is the RTC value when at least
    [TIME_CHECK_INTERVAL] ms passed since the last refresh and the old value
    otherwise. *)
Theorem getCurrentTime_valid (tm : TimeManager.t) (now : Z) (rtc : TimeManager.DateTime) :
  let r := TimeManager.getCurrentTime tm now rtc in
  TimeManager.cachedDateTime (snd r) =
    (if sub32 now (TimeManager.lastCacheUpdate tm) >=? TIME_CHECK_INTERVAL
     then rtc else TimeManager.cachedDateTime tm) /\
  (valid_clock (TimeManager.cachedDateTime (snd r)) ->
   valid_time (fst r) /\
   minuteOfDay (fst r) =
     TimeManager.dt_hour (TimeManager.cachedDateTime (snd r)) * 60
     + TimeManager.dt_minute (TimeManager.cachedDateTime (snd r))).
Proof.
  split.
  - unfold TimeManager.getCurrentTime, TimeManager.updateCache. cbn [snd].
    case_if; reflexivity.
  - intros Hc.
    destruct (getCurrentTime_minute tm now rtc) as (Hs & Hv & Hmin).
    { unfold TimeManager.getCurrentTime in Hc. exact Hc. }
    split; [exact Hv|]. rewrite Hmin. unfold TimeManager.getCurrentTime. reflexivity.
Qed.

(** 6:01 PM is on the RTC after the cache interval: the time handed out is
    6:01 PM, minute 1081 of the day. *)
Lemma getCurrentTime_valid_witness :
  minuteOfDay (fst (TimeManager.getCurrentTime clock_18_00 1000 rtc_18_01)) = 1081.
Proof.
  apply (proj2 (getCurrentTime_valid clock_18_00 1000 rtc_18_01)).
  split; simpl; lia.
Defined.

Lemma minutesUntil_value (tm : TimeManager.t) (now : Z) (rtc : TimeManager.DateTime)
    (target : Time12H) :
  let dt := TimeManager.cachedDateTime (TimeManager.updateCache tm now rtc) in
  valid_clock dt -> valid_time target ->
  TimeManager.minutesUntil tm now rtc target =
    (forward_distance (TimeManager.dt_hour dt * 60 + TimeManager.dt_minute dt)
                      (minuteOfDay target),
     TimeManager.updateCache tm now rtc).
Proof.
  intros dt [Hh Hm] Hv.
  destruct (minuteOfDay_of_valid target Hv) as [Hmod _].
  pose proof (minuteOfDay_valid target Hv) as Hrange.
  unfold TimeManager.minutesUntil. fold dt. rewrite <- Hmod.
  set (c := TimeManager.dt_hour dt * 60 + TimeManager.dt_minute dt).
  assert (Hc : 0 <= c < 1440) by (subst c; lia).
  assert (Hcu : to_uint16 c = c) by (unfold to_uint16; lia).
  assert (Hmu : to_uint16 (minuteOfDay target) = minuteOfDay target)
    by (unfold to_uint16; lia).
  rewrite Hcu, Hmu. unfold forward_distance, to_uint16.
  destruct (Z.gtb_spec (minuteOfDay target) c); [f_equal; lia|].
  destruct (Z.ltb_spec (minuteOfDay target) c); f_equal; lia.
Qed.

(** X3. For a cached clock reading with hour 0-23 and minute 0-59 and a valid
    target time, [minutesUntil] is the number of minutes from now forward to
    the next occurrence of the target: between 0 and 1439, 0 exactly when the
    target is the current minute, and never the backward distance. *)
Theorem minutesUntil_forward (tm : TimeManager.t) (now : Z) (rtc : TimeManager.DateTime)
    (target : Time12H) :
  let r := TimeManager.minutesUntil tm now rtc target in
  let dt := TimeManager.cachedDateTime (snd r) in
  let cur := TimeManager.dt_hour dt * 60 + TimeManager.dt_minute dt in
  valid_clock dt -> valid_time target ->
  fst r = forward_distance cur (minuteOfDay target) /\
  0 <= fst r < 1440 /\
  (fst r = 0 <-> minuteOfDay target = cur).
Proof.
  intros r dt cur Hc Hv.
  pose proof (minuteOfDay_valid target Hv) as Hrange.
  assert (Hsnd : snd r = TimeManager.updateCache tm now rtc).
  { subst r. unfold TimeManager.minutesUntil.
    repeat match goal with |- context [if ?c then _ else _] => destruct c end;
      reflexivity. }
  assert (Hc' : valid_clock
            (TimeManager.cachedDateTime (TimeManager.updateCache tm now rtc))).
  { rewrite <- Hsnd. exact Hc. }
  assert (Hr : fst r = forward_distance cur (minuteOfDay target)).
  { subst r cur dt. rewrite Hsnd.
    rewrite (minutesUntil_value tm now rtc target Hc' Hv). reflexivity. }
  rewrite Hr. unfold forward_distance.
  assert (0 <= cur < 1440).
  { destruct Hc as [? ?]. subst cur. fold dt in H, H0. lia. }
  split; [reflexivity|]. split; [lia|]. lia.
Qed.

(** At 6:01 PM the next 8:00 AM is 839 minutes ahead. *)
Lemma minutesUntil_forward_witness :
  fst (TimeManager.minutesUntil clock_18_00 1000 rtc_18_01 t_8_00_AM) =
    forward_distance 1081 (minuteOfDay t_8_00_AM).
Proof.
  apply (minutesUntil_forward clock_18_00 1000 rtc_18_01 t_8_00_AM).
  - split; simpl; lia.
  - split; simpl; lia.
Defined.

(** ** DoseManager *)

Lemma slotScan_complete (ds : list Dose) (m ex : Z) :
  forall n i,
    (forall k d, (i <= k < i + n)%nat -> Z.of_nat k <> ex -> ds !! k = Some d ->
       DoseManager.slotDiff m (DoseManager.timeToMinutes (time d)) >= MIN_DOSE_SPACING) ->
    DoseManager.slotScan ds m ex i n = true.
Proof.
  induction n as [|n IH]; intros i H; [reflexivity|].
  simpl.
  assert (Hrest : DoseManager.slotScan ds m ex (S i) n = true).
  { apply IH. intros k d Hk. apply H. lia. }
  destruct (Z.eqb_spec (Z.of_nat i) ex) as [|Hne]; [exact Hrest|].
  destruct (ds !! i) as [d|] eqn:Hd; [|exact Hrest].
  specialize (H i d ltac:(lia) Hne Hd).
  destruct (Z.ltb_spec (DoseManager.slotDiff m (DoseManager.timeToMinutes (time d)))
              MIN_DOSE_SPACING); [lia | exact Hrest].
Qed.

(** The slot test on a manager whose stored times are valid: the slot is free
    exactly when every stored dose other than [ex] is at least
    [MIN_DOSE_SPACING] away round the clock. *)
Lemma isTimeSlotAvailable_iff (dm : DoseManager.t) (tm : Time12H) (ex : Z) :
  stored_valid dm -> valid_time tm ->
  (DoseManager.isTimeSlotAvailable dm tm ex = true <->
   forall k d, (k < DoseManager.doseCount dm)%nat -> Z.of_nat k <> ex ->
     DoseManager.doses dm !! k = Some d ->
     circular_distance (minuteOfDay tm) (minuteOfDay (time d)) >= MIN_DOSE_SPACING).
Proof.
  intros Hsv Hv. unfold DoseManager.isTimeSlotAvailable. split.
  - intros Hscan k d Hk Hex Hd.
    rewrite <- slotDiff_valid;
      [| apply minuteOfDay_valid; exact Hv
       | apply minuteOfDay_valid; apply (Hsv k d Hk Hd)].
    apply (slotScan_true _ _ _ _ _ Hscan k d); [lia | exact Hex | exact Hd].
  - intros H. apply slotScan_complete. intros k d Hk Hex Hd.
    fold (minuteOfDay tm). fold (minuteOfDay (time d)).
    rewrite slotDiff_valid;
      [| apply minuteOfDay_valid; exact Hv
       | apply minuteOfDay_valid; apply (Hsv k d); [lia | exact Hd]].
    apply (H k d); [lia | exact Hex | exact Hd].
Qed.

(** X4. On a manager whose stored times are valid, [addDose] accepts a time
    exactly when there is room, the time is valid, and every stored dose is at
    least [MIN_DOSE_SPACING] minutes away round the clock; it then grows the
    count by one, and otherwise returns the manager unchanged. *)
Theorem addDose_accepts_iff (dm : DoseManager.t) (tm : Time12H) :
  stored_valid dm -> well_typed_time tm ->
  (fst (DoseManager.addDose dm tm) = true <->
     (DoseManager.doseCount dm < MAX_DOSES)%nat /\ valid_time tm /\
     forall k d, (k < DoseManager.doseCount dm)%nat ->
       DoseManager.doses dm !! k = Some d ->
       circular_distance (minuteOfDay tm) (minuteOfDay (time d)) >= MIN_DOSE_SPACING) /\
  (fst (DoseManager.addDose dm tm) = true ->
     DoseManager.doseCount (snd (DoseManager.addDose dm tm)) = S (DoseManager.doseCount dm)) /\
  (fst (DoseManager.addDose dm tm) = false -> snd (DoseManager.addDose dm tm) = dm).
Proof.
  intros Hsv Hwt. unfold DoseManager.addDose.
  destruct (Nat.leb_spec MAX_DOSES (DoseManager.doseCount dm)) as [Hfull|Hroom]; cbn [fst snd].
  { split; [|split]; [|discriminate|reflexivity].
    split; [discriminate|]. intros [Hlt _]. lia. }
  destruct (TimeManager.isValidTime tm) eqn:Hval; cbn [negb fst snd].
  2:{ split; [|split]; [|discriminate|reflexivity].
      split; [discriminate|]. intros (_ & Hv & _).
      apply (isValidTime_true tm Hwt) in Hv. congruence. }
  apply (isValidTime_true tm Hwt) in Hval.
  pose proof (isTimeSlotAvailable_iff dm tm (-1) Hsv Hval) as Hslot.
  destruct (DoseManager.isTimeSlotAvailable dm tm (-1)) eqn:Hav; cbn [negb fst snd].
  - split; [|split]; [|reflexivity|discriminate].
    split; [|reflexivity]. intros _. split; [exact Hroom|]. split; [exact Hval|].
    intros k d Hk Hd. apply (proj1 Hslot eq_refl k d Hk); [lia | exact Hd].
  - split; [|split]; [|discriminate|reflexivity].
    split; [discriminate|]. intros (_ & _ & Hfar).
    assert (false = true); [|discriminate].
    apply Hslot. intros k d Hk _ Hd. apply (Hfar k d Hk Hd).
Qed.

Lemma three_doses_valid : stored_valid three_doses.
Proof. exact (proj1 (proj2 (reachable_inv three_doses three_doses_reachable))). Defined.

(** 7:00 AM is an hour before the first dose of the example schedule: it is
    accepted and the schedule has four doses. *)
Lemma addDose_accepts_iff_witness :
  DoseManager.doseCount (snd (DoseManager.addDose three_doses t_7_00_AM)) = 4%nat.
Proof.
  apply (proj1 (proj2 (addDose_accepts_iff three_doses t_7_00_AM three_doses_valid
                         ltac:(unfold well_typed_time, is_uint8; simpl; lia)))).
  reflexivity.
Defined.

(** X5. On a well-formed manager whose stored times are valid, [updateDose]
    accepts exactly when the index is in range, the new time is valid and
    every other stored dose is at least [MIN_DOSE_SPACING] minutes away (the
    dose being moved is not compared with itself).  A rejected call leaves
    the manager unchanged; an accepted one keeps the count, leaves the doses
    sorted by time with id = position, and the moved dose is found with the
    new time and its enabled and taken flags. *)
Theorem updateDose_accepts_iff (dm : DoseManager.t) (index : nat) (tm : Time12H) :
  DoseManager.wf dm -> stored_valid dm -> well_typed_time tm ->
  let r := DoseManager.updateDose dm index tm in
  (fst r = true <->
     (index < DoseManager.doseCount dm)%nat /\ valid_time tm /\
     forall k d, (k < DoseManager.doseCount dm)%nat -> k <> index ->
       DoseManager.doses dm !! k = Some d ->
       circular_distance (minuteOfDay tm) (minuteOfDay (time d)) >= MIN_DOSE_SPACING) /\
  (fst r = false -> snd r = dm) /\
  (fst r = true ->
     DoseManager.doseCount (snd r) = DoseManager.doseCount dm /\
     sorted_upto (DoseManager.doseCount dm) (DoseManager.doses (snd r)) /\
     (forall i d, (i < DoseManager.doseCount dm)%nat ->
        DoseManager.doses (snd r) !! i = Some d -> id d = Z.of_nat i) /\
     exists i d d0, (i < DoseManager.doseCount dm)%nat /\
       DoseManager.doses dm !! index = Some d0 /\
       DoseManager.doses (snd r) !! i = Some d /\
       time d = tm /\ enabled d = enabled d0 /\ taken d = taken d0).
Proof.
  intros [Hlen Hcnt] Hsv Hwt r. subst r. unfold DoseManager.updateDose.
  destruct (Nat.leb_spec (DoseManager.doseCount dm) index) as [Hout|Hin]; cbn [fst snd].
  { split; [|split]; [|reflexivity|discriminate].
    split; [discriminate|]. intros [Hlt _]. lia. }
  destruct (TimeManager.isValidTime tm) eqn:Hval; cbn [negb fst snd].
  2:{ split; [|split]; [|reflexivity|discriminate].
      split; [discriminate|]. intros (_ & Hv & _).
      apply (isValidTime_true tm Hwt) in Hv. congruence. }
  apply (isValidTime_true tm Hwt) in Hval.
  assert (Hidx : to_int8 (Z.of_nat index) = Z.of_nat index).
  { apply to_int8_small. unfold MAX_DOSES in Hcnt. lia. }
  rewrite Hidx.
  pose proof (isTimeSlotAvailable_iff dm tm (Z.of_nat index) Hsv Hval) as Hslot.
  destruct (DoseManager.isTimeSlotAvailable dm tm (Z.of_nat index)) eqn:Hav;
    cbn [negb fst snd].
  2:{ split; [|split]; [|reflexivity|discriminate].
      split; [discriminate|]. intros (_ & _ & Hfar).
      assert (false = true); [|discriminate].
      apply Hslot. intros k d Hk Hne Hd. apply (Hfar k d Hk); [lia | exact Hd]. }
  destruct (lookup_lt_is_Some_2 (DoseManager.doses dm) index ltac:(lia)) as [d0 Hd0].
  rewrite Hd0. cbn [fst snd].
  split; [|split]; [|discriminate|].
  - split; [|reflexivity]. intros _. split; [exact Hin|]. split; [exact Hval|].
    intros k d Hk Hne Hd. apply (proj1 Hslot eq_refl k d Hk); [lia | exact Hd].
  - intros _. unfold DoseManager.sortDoses. cbn [DoseManager.doses DoseManager.doseCount].
    set (a := <[index := set_time tm d0]> (DoseManager.doses dm)).
    assert (Hla : length a = length (DoseManager.doses dm)) by (subst a; apply length_insert).
    destruct (sortArray_spec (DoseManager.doseCount dm) a) as (_ & Hsorted & Hids & Hre).
    { lia. } { unfold MAX_DOSES in Hcnt. lia. }
    split; [reflexivity|]. split; [exact Hsorted|]. split; [exact Hids|].
    destruct Hre as (_ & f & g & Hfg & Hmap).
    destruct (Hfg index Hin) as (_ & Hg & _ & Hfgi).
    destruct (Hmap (g index) Hg) as (d & d' & Hsrc & Hdst & Ht & He & Hk).
    rewrite Hfgi in Hsrc. subst a.
    rewrite list_lookup_insert_eq in Hsrc by lia.
    injection Hsrc as <-.
    exists (g index), d', d0. split; [exact Hg|]. split; [reflexivity|].
    split; [exact Hdst|]. split; [exact Ht|]. split; [exact He | exact Hk].
Qed.

(** Moving the 8:00 AM dose of the example schedule to 8:10 AM is accepted:
    only its own old time is within 15 minutes. *)
Lemma updateDose_accepts_iff_witness :
  DoseManager.doseCount (snd (DoseManager.updateDose three_doses 0 t_8_10_AM)) = 3%nat.
Proof.
  apply (proj2 (proj2 (updateDose_accepts_iff three_doses 0 t_8_10_AM three_doses_wf
                         three_doses_valid
                         ltac:(unfold well_typed_time, is_uint8; simpl; lia)))).
  reflexivity.
Defined.

Lemma removeDose_slots (dm : DoseManager.t) (index : nat) :
  (index < DoseManager.doseCount dm)%nat ->
  (DoseManager.doseCount dm <= length (DoseManager.doses dm))%nat ->
  DoseManager.removeDose dm index =
    (true, snd (DoseManager.removeDose dm index)) /\
  forall i, DoseManager.doses (snd (DoseManager.removeDose dm index)) !! i =
    if (i <? index)%nat then DoseManager.doses dm !! i
    else if (i <? DoseManager.doseCount dm - 1)%nat
         then set_id (to_uint8 (Z.of_nat i)) <$> DoseManager.doses dm !! S i
    else if (i =? DoseManager.doseCount dm - 1)%nat
         then Some (set_id (to_uint8 (Z.of_nat i)) Dose_default)
    else DoseManager.doses dm !! i.
Proof.
  intros Hlt Hlen. unfold DoseManager.removeDose.
  destruct (Nat.leb_spec (DoseManager.doseCount dm) index) as [|_]; [lia|].
  split; [reflexivity|].
  cbn [snd DoseManager.doses DoseManager.doseCount].
  set (n := DoseManager.doseCount dm) in *. set (a := DoseManager.doses dm) in *.
  pose (P := fun (k : nat) (b : list Dose) =>
    length b = length a /\
    forall i, b !! i =
      if (index <=? i)%nat && (i <? k)%nat
      then set_id (to_uint8 (Z.of_nat i)) <$> a !! S i
      else a !! i).
  assert (HP : P (index + (n - 1 - index))%nat
                 (for_up index (n - 1 - index) DoseManager.shiftStep a)).
  { apply for_up_ind.
    - split; [reflexivity|]. intros i.
      destruct (Nat.leb_spec index i); destruct (Nat.ltb_spec i index);
        try lia; reflexivity.
    - intros k b Hk [Hl Hb]. unfold DoseManager.shiftStep.
      rewrite (Hb (S k)).
      destruct (Nat.leb_spec index (S k)); destruct (Nat.ltb_spec (S k) k); try lia.
      simpl andb. cbv iota.
      destruct (lookup_lt_is_Some_2 a (S k) ltac:(lia)) as [x Hx]. rewrite Hx.
      split; [now rewrite length_insert|].
      intros i. destruct (Nat.eq_dec i k) as [->|Hne].
      + rewrite list_lookup_insert_eq by lia.
        destruct (Nat.leb_spec index k); destruct (Nat.ltb_spec k (S k)); try lia.
        simpl. now rewrite Hx.
      + rewrite list_lookup_insert_ne by lia. rewrite (Hb i).
        destruct (Nat.leb_spec index i); destruct (Nat.ltb_spec i k);
          destruct (Nat.ltb_spec i (S k)); try lia; reflexivity. }
  destruct HP as [Hl Hb].
  replace (index + (n - 1 - index))%nat with (n - 1)%nat in Hb by lia.
  intros i. destruct (Nat.eq_dec i (n - 1)%nat) as [->|Hne].
  - rewrite list_lookup_insert_eq by lia.
    destruct (Nat.ltb_spec (n - 1)%nat index); [lia|].
    rewrite Nat.ltb_irrefl, Nat.eqb_refl. reflexivity.
  - rewrite list_lookup_insert_ne by lia. rewrite (Hb i).
    destruct (Nat.leb_spec index i); destruct (Nat.ltb_spec i index); try lia;
      destruct (Nat.ltb_spec i (n - 1)%nat); destruct (Nat.eqb_spec i (n - 1)%nat);
      try lia; reflexivity.
Qed.

(** X6. Removing an in-range dose from a well-formed manager succeeds and
    compacts the array: the count drops by one, the doses before the index
    stay in place, each later dose moves down one slot and takes its new
    position as id, the slot freed at the end holds a default dose, and doses
    that were sorted by time stay sorted. *)
Theorem removeDose_compacts (dm : DoseManager.t) (index : nat) :
  DoseManager.wf dm -> (index < DoseManager.doseCount dm)%nat ->
  let r := DoseManager.removeDose dm index in
  let n := DoseManager.doseCount dm in
  fst r = true /\
  DoseManager.doseCount (snd r) = (n - 1)%nat /\
  (forall i, (i < index)%nat ->
     DoseManager.doses (snd r) !! i = DoseManager.doses dm !! i) /\
  (forall i d, (index <= i < n - 1)%nat -> DoseManager.doses dm !! S i = Some d ->
     DoseManager.doses (snd r) !! i = Some (set_id (Z.of_nat i) d)) /\
  DoseManager.doses (snd r) !! (n - 1)%nat =
    Some (set_id (Z.of_nat (n - 1)) Dose_default) /\
  (sorted_upto n (DoseManager.doses dm) ->
   sorted_upto (n - 1) (DoseManager.doses (snd r))).
Proof.
  intros [Hlen Hcnt] Hlt r n. subst r n.
  destruct (removeDose_slots dm index Hlt ltac:(lia)) as [Heq Hslots].
  assert (Hu : forall i, (i < DoseManager.doseCount dm)%nat ->
                 to_uint8 (Z.of_nat i) = Z.of_nat i).
  { intros i Hi. apply to_uint8_small. unfold MAX_DOSES in Hcnt. lia. }
  split; [now rewrite Heq|].
  split; [unfold DoseManager.removeDose;
          destruct (Nat.leb_spec (DoseManager.doseCount dm) index); [lia | reflexivity]|].
  split; [|split; [|split]].
  - intros i Hi. rewrite Hslots.
    destruct (Nat.ltb_spec i index); [reflexivity | lia].
  - intros i d Hi Hd. rewrite Hslots.
    destruct (Nat.ltb_spec i index); [lia|].
    destruct (Nat.ltb_spec i (DoseManager.doseCount dm - 1)%nat); [|lia].
    rewrite Hd, Hu by lia. reflexivity.
  - rewrite Hslots.
    destruct (Nat.ltb_spec (DoseManager.doseCount dm - 1) index); [lia|].
    rewrite Nat.ltb_irrefl, Nat.eqb_refl, Hu by lia. reflexivity.
  - intros Hsorted i j di dj Hij Hj Hdi Hdj.
    rewrite Hslots in Hdi. rewrite Hslots in Hdj.
    destruct (Nat.ltb_spec i (DoseManager.doseCount dm - 1)%nat); [|lia].
    destruct (Nat.ltb_spec j (DoseManager.doseCount dm - 1)%nat); [|lia].
    destruct (Nat.ltb_spec i index); destruct (Nat.ltb_spec j index); try lia.
    + apply (Hsorted i j di dj); [lia | lia | exact Hdi | exact Hdj].
    + destruct (DoseManager.doses dm !! S j) as [x|] eqn:Hx; [|discriminate].
      simpl in Hdj. injection Hdj as <-.
      apply (Hsorted i (S j) di x); [lia | lia | exact Hdi | exact Hx].
    + destruct (DoseManager.doses dm !! S i) as [x|] eqn:Hx; [|discriminate].
      destruct (DoseManager.doses dm !! S j) as [y|] eqn:Hy; [|discriminate].
      simpl in Hdi, Hdj. injection Hdi as <-. injection Hdj as <-.
      apply (Hsorted (S i) (S j) x y); [lia | lia | exact Hx | exact Hy].
Qed.

(** Removing the first of the three example doses leaves two. *)
Lemma removeDose_compacts_witness :
  DoseManager.doseCount (snd (DoseManager.removeDose three_doses 0)) = 2%nat.
Proof.
  apply (removeDose_compacts three_doses 0 three_doses_wf).
  vm_compute. lia.
Defined.

Lemma modifyAt_lookup (k : nat) (f : Dose -> Dose) (a : list Dose) (i : nat) :
  DoseManager.modifyAt k f a !! i = if (i =? k)%nat then f <$> a !! k else a !! i.
Proof.
  unfold DoseManager.modifyAt.
  destruct (a !! k) as [d|] eqn:Hd.
  - destruct (Nat.eqb_spec i k) as [->|Hne].
    + rewrite list_lookup_insert_eq; [reflexivity|]. now apply lookup_lt_Some in Hd.
    + now rewrite list_lookup_insert_ne by lia.
  - destruct (Nat.eqb_spec i k) as [->|Hne]; [now rewrite Hd | reflexivity].
Qed.

(** Switching off one dose (taken, or disabled) does not disturb the scan of
    [checkDoseTime] for the others. *)
Lemma checkDoseTime_masked (dm : DoseManager.t) (k : nat) (f : Dose -> Dose)
    (cur : Time12H) :
  DoseManager.wf dm -> (k < DoseManager.doseCount dm)%nat ->
  (forall d, enabled (f d) && negb (taken (f d)) = false) ->
  let dm' := DoseManager.mk (DoseManager.modifyAt k f (DoseManager.doses dm))
                            (DoseManager.doseCount dm) in
  DoseManager.checkDoseTime dm' cur <> Z.of_nat k /\
  (DoseManager.checkDoseTime dm cur <> Z.of_nat k ->
   DoseManager.checkDoseTime dm' cur = DoseManager.checkDoseTime dm cur).
Proof.
  intros [Hlen Hcnt] Hk Hf dm'. unfold MAX_DOSES in Hcnt.
  unfold DoseManager.checkDoseTime. subst dm'.
  cbn [DoseManager.doses DoseManager.doseCount].
  set (a := DoseManager.doses dm). set (n := DoseManager.doseCount dm) in *.
  set (a' := DoseManager.modifyAt k f a).
  assert (Hmask : forall d, a' !! k = Some d -> ~ is_due cur d).
  { intros d Hd [He [Ht _]]. subst a'. rewrite modifyAt_lookup, Nat.eqb_refl in Hd.
    destruct (a !! k) as [x|]; [|discriminate]. simpl in Hd. injection Hd as <-.
    specialize (Hf x). rewrite He, Ht in Hf. discriminate. }
  assert (Hother : forall i, i <> k -> a' !! i = a !! i).
  { intros i Hi. subst a'. rewrite modifyAt_lookup.
    destruct (Nat.eqb_spec i k); [contradiction | reflexivity]. }
  destruct (dueScan_spec a' cur n 0 ltac:(lia)) as [[Hr' Hnone'] | (k' & d' & Hr' & Hk' & Hd' & Hdue' & Hfirst')];
    rewrite Hr'.
  - split; [lia|]. intros Hne.
    destruct (dueScan_spec a cur n 0 ltac:(lia)) as [[Hr _] | (j & d & Hr & Hj & Hd & Hdue & _)];
      [now rewrite Hr|].
    rewrite Hr in Hne. exfalso.
    apply (Hnone' j d); [lia | | exact Hdue].
    rewrite Hother; [exact Hd | lia].
  - assert (Hkk : k' <> k).
    { intros ->. exact (Hmask d' Hd' Hdue'). }
    split; [lia|]. intros Hne.
    destruct (dueScan_spec a cur n 0 ltac:(lia)) as [[Hr Hnone] | (j & d & Hr & Hj & Hd & Hdue & Hfirst)];
      rewrite Hr in *.
    + exfalso. apply (Hnone k' d'); [lia | | exact Hdue'].
      rewrite <- Hother; [exact Hd' | exact Hkk].
    + destruct (Nat.lt_trichotomy j k') as [Hlt|[->|Hgt]]; [| reflexivity |].
      * exfalso. apply (Hfirst' j d); [lia | | exact Hdue].
        rewrite Hother; [exact Hd | lia].
      * exfalso. apply (Hfirst k' d'); [lia | | exact Hdue'].
        rewrite <- Hother; [exact Hd' | exact Hkk].
Qed.

(** X7. Once a dose is marked taken, or disabled, [checkDoseTime] never
    reports its index, at any time of day; and if it was not the dose reported
    before, the report is what it was: the other doses stay due as they
    were. *)
Theorem taken_or_disabled_never_due (dm : DoseManager.t) (k : nat) (cur : Time12H) :
  DoseManager.wf dm -> (k < DoseManager.doseCount dm)%nat ->
  (DoseManager.checkDoseTime (DoseManager.markDoseTaken dm k) cur <> Z.of_nat k /\
   (DoseManager.checkDoseTime dm cur <> Z.of_nat k ->
    DoseManager.checkDoseTime (DoseManager.markDoseTaken dm k) cur =
      DoseManager.checkDoseTime dm cur)) /\
  (DoseManager.checkDoseTime (DoseManager.setDoseEnabled dm k false) cur <> Z.of_nat k /\
   (DoseManager.checkDoseTime dm cur <> Z.of_nat k ->
    DoseManager.checkDoseTime (DoseManager.setDoseEnabled dm k false) cur =
      DoseManager.checkDoseTime dm cur)).
Proof.
  intros Hwf Hk.
  unfold DoseManager.markDoseTaken, DoseManager.setDoseEnabled.
  destruct (Nat.ltb_spec k (DoseManager.doseCount dm)); [|lia].
  split.
  - apply (checkDoseTime_masked dm k (set_taken true) cur Hwf Hk).
    intros d. simpl. now rewrite andb_false_r.
  - apply (checkDoseTime_masked dm k (set_enabled false) cur Hwf Hk).
    intros d. reflexivity.
Qed.

(** After the 12:00 PM dose of the example schedule is taken, it is no longer
    reported at 12:00 PM. *)
Lemma taken_or_disabled_never_due_witness :
  DoseManager.checkDoseTime (DoseManager.markDoseTaken three_doses 1) t_12_00_PM <> 1.
Proof.
  apply (taken_or_disabled_never_due three_doses 1 t_12_00_PM three_doses_wf).
  vm_compute. lia.
Defined.

Lemma countDoses_spec (flag : Dose -> bool) (dm : DoseManager.t) :
  DoseManager.wf dm ->
  DoseManager.countDoses flag dm = Z.of_nat (flagged flag dm) /\
  (flagged flag dm <= DoseManager.doseCount dm)%nat.
Proof.
  intros [Hlen Hcnt]. unfold MAX_DOSES in *.
  unfold DoseManager.countDoses, flagged.
  set (ds := DoseManager.doses dm) in *. set (n := DoseManager.doseCount dm) in *.
  pose (P := fun (k : nat) (c : Z) =>
    c = Z.of_nat (length (List.filter flag (take k ds))) /\
    (length (List.filter flag (take k ds)) <= k)%nat).
  assert (HP : P (0 + n)%nat
    (for_up 0 n (fun i count => match ds !! i with
                                | Some d => if flag d then to_uint8 (count + 1) else count
                                | None => count end) 0)).
  { apply for_up_ind.
    - split; [reflexivity | simpl; lia].
    - intros k c Hk [Hc Hle]. unfold P.
      destruct (lookup_lt_is_Some_2 ds k ltac:(lia)) as [d Hd]. rewrite Hd.
      rewrite (take_S_r ds k d Hd), List.filter_app, length_app. simpl.
      destruct (flag d); simpl; split; try lia.
      subst c. unfold to_uint8. lia. }
  exact HP.
Qed.

Lemma resetDailyStatus_slots (dm : DoseManager.t) (i : nat) :
  DoseManager.doses (DoseManager.resetDailyStatus dm) !! i =
    if (i <? DoseManager.doseCount dm)%nat
    then set_taken false <$> DoseManager.doses dm !! i
    else DoseManager.doses dm !! i.
Proof.
  unfold DoseManager.resetDailyStatus. cbn [DoseManager.doses].
  set (a := DoseManager.doses dm). set (n := DoseManager.doseCount dm).
  pose (P := fun (k : nat) (b : list Dose) =>
    forall j, b !! j = if (j <? k)%nat then set_taken false <$> a !! j else a !! j).
  assert (HP : P (0 + n)%nat
    (for_up 0 n (fun i => DoseManager.modifyAt i (set_taken false)) a)).
  { apply for_up_ind.
    - intros j. reflexivity.
    - intros k b _ Hb j. unfold P in Hb. rewrite modifyAt_lookup, (Hb j), (Hb k).
      rewrite Nat.ltb_irrefl.
      destruct (Nat.eqb_spec j k) as [->|Hne].
      + destruct (Nat.ltb_spec k (S k)); [reflexivity | lia].
      + destruct (Nat.ltb_spec j k); destruct (Nat.ltb_spec j (S k)); try lia;
          reflexivity. }
  exact (HP i).
Qed.

Lemma resetDailyStatus_take (dm : DoseManager.t) :
  take (DoseManager.doseCount dm) (DoseManager.doses (DoseManager.resetDailyStatus dm)) =
  map (set_taken false) (take (DoseManager.doseCount dm) (DoseManager.doses dm)).
Proof.
  apply list_eq. intros i.
  rewrite list_lookup_fmap.
  destruct (Nat.lt_ge_cases i (DoseManager.doseCount dm)) as [Hlt|Hge].
  - rewrite !lookup_take_lt by lia. rewrite resetDailyStatus_slots.
    destruct (Nat.ltb_spec i (DoseManager.doseCount dm)); [reflexivity | lia].
  - rewrite !lookup_take_ge by lia. reflexivity.
Qed.

(** X8. [getDosesTakenCount] and [getEnabledDosesCount] of a well-formed
    manager are the numbers of configured doses with the flag set (the
    [uint8_t] counter does not wrap) and so at most [doseCount];
    [resetDailyStatus] clears the taken flag of every configured dose and of
    nothing else, so afterwards no dose is taken, the taken count is 0 and the
    enabled count is what it was. *)
Theorem resetDailyStatus_clears_taken (dm : DoseManager.t) :
  DoseManager.wf dm ->
  let dm' := DoseManager.resetDailyStatus dm in
  DoseManager.getDosesTakenCount dm = Z.of_nat (flagged taken dm) /\
  DoseManager.getEnabledDosesCount dm = Z.of_nat (flagged enabled dm) /\
  DoseManager.getDosesTakenCount dm <= Z.of_nat (DoseManager.doseCount dm) /\
  DoseManager.doseCount dm' = DoseManager.doseCount dm /\
  (forall i, DoseManager.doses dm' !! i =
     if (i <? DoseManager.doseCount dm)%nat
     then set_taken false <$> DoseManager.doses dm !! i
     else DoseManager.doses dm !! i) /\
  (forall k, DoseManager.isDoseTaken dm' k = false) /\
  DoseManager.getDosesTakenCount dm' = 0 /\
  DoseManager.getEnabledDosesCount dm' = DoseManager.getEnabledDosesCount dm.
Proof.
  intros Hwf dm'.
  assert (Hwf' : DoseManager.wf dm').
  { destruct Hwf as [Hlen Hcnt]. split; [|exact Hcnt].
    rewrite <- Hlen. apply Nat.le_antisymm.
    - destruct (Nat.le_gt_cases (length (DoseManager.doses dm'))
                  (length (DoseManager.doses dm))) as [|Hgt]; [assumption|].
      destruct (lookup_lt_is_Some_2 (DoseManager.doses dm')
                  (length (DoseManager.doses dm)) Hgt) as [x Hx].
      subst dm'. rewrite resetDailyStatus_slots in Hx.
      rewrite (lookup_ge_None_2 (DoseManager.doses dm) (length (DoseManager.doses dm)))
        in Hx by lia.
      destruct (_ <? _)%nat; discriminate.
    - destruct (Nat.le_gt_cases (length (DoseManager.doses dm))
                  (length (DoseManager.doses dm'))) as [|Hgt]; [assumption|].
      destruct (lookup_lt_is_Some_2 (DoseManager.doses dm)
                  (length (DoseManager.doses dm')) Hgt) as [x Hx].
      pose proof (resetDailyStatus_slots dm (length (DoseManager.doses dm'))) as Hs.
      fold dm' in Hs.
      rewrite (lookup_ge_None_2 (DoseManager.doses dm') (length (DoseManager.doses dm')))
        in Hs by lia.
      rewrite Hx in Hs. destruct (_ <? _)%nat; discriminate. }
  destruct (countDoses_spec taken dm Hwf) as [Ht Htle].
  destruct (countDoses_spec enabled dm Hwf) as [He _].
  destruct (countDoses_spec taken dm' Hwf') as [Ht' _].
  destruct (countDoses_spec enabled dm' Hwf') as [He' _].
  unfold DoseManager.getDosesTakenCount, DoseManager.getEnabledDosesCount.
  split; [exact Ht|]. split; [exact He|]. split; [lia|].
  split; [reflexivity|]. split; [exact (resetDailyStatus_slots dm)|].
  split; [|split].
  - intros k. unfold DoseManager.isDoseTaken.
    change (DoseManager.doseCount dm') with (DoseManager.doseCount dm).
    subst dm'. rewrite resetDailyStatus_slots.
    destruct (Nat.ltb_spec k (DoseManager.doseCount dm)); [|reflexivity].
    destruct (DoseManager.doses dm !! k); reflexivity.
  - rewrite Ht'. unfold flagged.
    change (DoseManager.doseCount dm') with (DoseManager.doseCount dm).
    subst dm'. rewrite resetDailyStatus_take.
    induction (take (DoseManager.doseCount dm) (DoseManager.doses dm)) as [|x l IH];
      [reflexivity | exact IH].
  - rewrite He', He. unfold flagged.
    change (DoseManager.doseCount dm') with (DoseManager.doseCount dm).
    subst dm'. rewrite resetDailyStatus_take. f_equal.
    induction (take (DoseManager.doseCount dm) (DoseManager.doses dm)) as [|x l IH];
      [reflexivity|].
    simpl. destruct (enabled x); simpl; rewrite IH; reflexivity.
Qed.

(** After the daily reset of the example schedule with its noon dose taken,
    no dose counts as taken. *)
Lemma resetDailyStatus_clears_taken_witness :
  DoseManager.getDosesTakenCount
    (DoseManager.resetDailyStatus (DoseManager.markDoseTaken three_doses 1)) = 0.
Proof.
  apply (resetDailyStatus_clears_taken (DoseManager.markDoseTaken three_doses 1)).
  split; vm_compute; [reflexivity | lia].
Defined.

Lemma eligible_decide (d : Dose) :
  enabled d && negb (taken d) = true <-> eligible d.
Proof.
  unfold eligible. rewrite andb_true_iff, negb_true_iff. reflexivity.
Qed.

(** The scan of [getNextDose] keeps the nearest eligible dose seen so far. *)
Lemma nextScan_spec (ds : list Dose) (c : Z) :
  0 <= c < 1440 ->
  forall n i nd md, (i + n <= 128)%nat ->
    (forall j d, (j < i + n)%nat -> ds !! j = Some d -> valid_time (time d)) ->
    ((nd = -1 /\ md = 1441 /\
      forall j d, (j < i)%nat -> ds !! j = Some d -> ~ eligible d) \/
     (exists k d, nd = Z.of_nat k /\ (k < i)%nat /\ ds !! k = Some d /\ eligible d /\
        md = minutes_ahead c d /\
        forall j d', (j < i)%nat -> ds !! j = Some d' -> eligible d' ->
          md <= minutes_ahead c d')) ->
    is_next_dose ds (i + n) c (DoseManager.nextScan ds c i n nd md).
Proof.
  intros Hc. induction n as [|n IH]; intros i nd md Hb Hval Hinv.
  { rewrite Nat.add_0_r. simpl.
    destruct Hinv as [(-> & _ & Hnone) | (k & d & -> & Hk & Hd & He & -> & Hmin)].
    - left. split; [reflexivity | exact Hnone].
    - right. exists k, d. split; [reflexivity|]. split; [exact Hk|].
      split; [exact Hd|]. split; [exact He | exact Hmin]. }
  replace (i + S n)%nat with (S i + n)%nat in * by lia.
  assert (Hahead : forall d, 0 <= minutes_ahead c d < 1440).
  { intros d. unfold minutes_ahead, forward_distance. lia. }
  assert (Hskip : forall d, ds !! i = Some d -> ~ eligible d ->
            is_next_dose ds (S i + n) c (DoseManager.nextScan ds c (S i) n nd md)).
  { intros d Hd Hne. apply IH; [lia | exact Hval |].
    destruct Hinv as [(-> & -> & Hnone) | (k & e & -> & Hk & He & Hel & -> & Hmin)].
    - left. split; [reflexivity|]. split; [reflexivity|].
      intros j d' Hj Hd'. destruct (Nat.eq_dec j i) as [->|];
        [congruence | apply (Hnone j d'); [lia | exact Hd']].
    - right. exists k, e. split; [reflexivity|]. split; [lia|].
      split; [exact He|]. split; [exact Hel|]. split; [reflexivity|].
      intros j d' Hj Hd' Hel'. destruct (Nat.eq_dec j i) as [->|].
      + exfalso. apply Hne. congruence.
      + apply (Hmin j d'); [lia | exact Hd' | exact Hel']. }
  simpl.
  destruct (ds !! i) as [d|] eqn:Hd.
  2:{ apply IH; [lia | exact Hval |].
      destruct Hinv as [(-> & -> & Hnone) | (k & e & -> & Hk & He & Hel & -> & Hmin)].
      - left. split; [reflexivity|]. split; [reflexivity|].
        intros j d' Hj Hd'. destruct (Nat.eq_dec j i) as [->|];
          [congruence | apply (Hnone j d'); [lia | exact Hd']].
      - right. exists k, e. split; [reflexivity|]. split; [lia|].
        split; [exact He|]. split; [exact Hel|]. split; [reflexivity|].
        intros j d' Hj Hd' Hel'. destruct (Nat.eq_dec j i) as [->|]; [congruence|].
        apply (Hmin j d'); [lia | exact Hd' | exact Hel']. }
  destruct (enabled d && negb (taken d)) eqn:Hel.
  2:{ apply (Hskip d eq_refl). intros H. apply eligible_decide in H. congruence. }
  apply eligible_decide in Hel.
  pose proof (minuteOfDay_valid (time d) (Hval i d ltac:(lia) Hd)) as Hm.
  fold (minuteOfDay (time d)).
  assert (Hi8 : to_int8 (Z.of_nat i) = Z.of_nat i) by (apply to_int8_small; lia).
  rewrite Hi8.
  (* the distance the code computes is the forward distance *)
  assert (Hnew : forall diff, diff = minutes_ahead c d ->
            is_next_dose ds (S i + n) c
              (if diff <? md
               then DoseManager.nextScan ds c (S i) n (Z.of_nat i) diff
               else DoseManager.nextScan ds c (S i) n nd md)).
  { intros diff ->.
    destruct (Z.ltb_spec (minutes_ahead c d) md) as [Hlt|Hge].
    - apply IH; [lia | exact Hval |].
      right. exists i, d. split; [reflexivity|]. split; [lia|].
      split; [exact Hd|]. split; [exact Hel|]. split; [reflexivity|].
      intros j d' Hj Hd' Hel'. destruct (Nat.eq_dec j i) as [->|].
      + assert (d' = d) by congruence. subst d'. lia.
      + destruct Hinv as [(_ & _ & Hnone) | (k & e & _ & _ & _ & _ & -> & Hmin)].
        * exfalso. apply (Hnone j d'); [lia | exact Hd' | exact Hel'].
        * specialize (Hmin j d' ltac:(lia) Hd' Hel'). lia.
    - apply IH; [lia | exact Hval |].
      destruct Hinv as [(-> & -> & Hnone) | (k & e & -> & Hk & He & Hele & -> & Hmin)].
      + specialize (Hahead d). lia.
      + right. exists k, e. split; [reflexivity|]. split; [lia|].
        split; [exact He|]. split; [exact Hele|]. split; [reflexivity|].
        intros j d' Hj Hd' Hel'. destruct (Nat.eq_dec j i) as [->|].
        * assert (d' = d) by congruence. subst d'. lia.
        * apply (Hmin j d'); [lia | exact Hd' | exact Hel']. }
  destruct (Z.gtb_spec (minuteOfDay (time d)) c) as [Hgt|Hle].
  { apply Hnew. unfold minutes_ahead, forward_distance, to_uint16. lia. }
  destruct (Z.ltb_spec (minuteOfDay (time d)) c) as [Hlt|Hge].
  { apply Hnew. unfold minutes_ahead, forward_distance, to_uint16. lia. }
  right. exists i, d. split; [reflexivity|]. split; [lia|].
  split; [exact Hd|]. split; [exact Hel|].
  intros j d' _ _ _.
  assert (minutes_ahead c d = 0) by (unfold minutes_ahead, forward_distance; lia).
  specialize (Hahead d'). lia.
Qed.

(** X9. For a well-formed manager with valid stored times and a valid current
    time, [getNextDose] returns -1 exactly when no configured dose is enabled
    and not yet taken, and otherwise the index of such a dose that comes up
    first going forward from the current minute (a dose at the current minute
    itself counts as 0 minutes ahead). *)
Theorem getNextDose_nearest (dm : DoseManager.t) (cur : Time12H) :
  DoseManager.wf dm -> stored_valid dm -> valid_time cur ->
  is_next_dose (DoseManager.doses dm) (DoseManager.doseCount dm) (minuteOfDay cur)
               (DoseManager.getNextDose dm cur).
Proof.
  intros [Hlen Hcnt] Hsv Hv. unfold MAX_DOSES in Hcnt.
  unfold DoseManager.getNextDose.
  apply (nextScan_spec (DoseManager.doses dm) (minuteOfDay cur)
           (minuteOfDay_valid cur Hv) (DoseManager.doseCount dm) 0 (-1) (24 * 60 + 1)).
  - lia.
  - intros j d Hj Hd. apply (Hsv j d); [lia | exact Hd].
  - left. split; [reflexivity|]. split; [reflexivity|]. intros j d Hj. lia.
Qed.

(** At 8:10 AM the example schedule has a next dose. *)
Lemma getNextDose_nearest_witness :
  is_next_dose (DoseManager.doses three_doses) 3 (minuteOfDay t_8_10_AM)
               (DoseManager.getNextDose three_doses t_8_10_AM).
Proof.
  apply (getNextDose_nearest three_doses t_8_10_AM three_doses_wf three_doses_valid).
  split; simpl; lia.
Defined.

(** X10. With a valid cached clock reading, a well-formed manager and valid
    stored times, [getMinutesUntilNextDose] returns -1 exactly when no
    configured dose is enabled and not yet taken, and otherwise the smallest
    number of minutes (0-1439) from the current minute forward to such a
    dose. *)
Theorem getMinutesUntilNextDose_least (dm : DoseManager.t) (tm : TimeManager.t)
    (now : Z) (rtc : TimeManager.DateTime) :
  let dt := TimeManager.cachedDateTime (TimeManager.updateCache tm now rtc) in
  let c := TimeManager.dt_hour dt * 60 + TimeManager.dt_minute dt in
  let r := DoseManager.getMinutesUntilNextDose dm tm now rtc in
  DoseManager.wf dm -> stored_valid dm -> valid_clock dt ->
  (fst r = -1 /\
   forall j d, (j < DoseManager.doseCount dm)%nat ->
     DoseManager.doses dm !! j = Some d -> ~ eligible d) \/
  (exists k d, (k < DoseManager.doseCount dm)%nat /\
     DoseManager.doses dm !! k = Some d /\ eligible d /\
     fst r = minutes_ahead c d /\ 0 <= fst r < 1440 /\
     forall j d', (j < DoseManager.doseCount dm)%nat ->
       DoseManager.doses dm !! j = Some d' -> eligible d' ->
       fst r <= minutes_ahead c d').
Proof.
  intros dt c r Hwf Hsv Hclock. subst r.
  destruct (getCurrentTime_minute tm now rtc Hclock) as (Hsnd & Hv & Hmin).
  fold dt in Hmin. fold c in Hmin.
  unfold DoseManager.getMinutesUntilNextDose.
  destruct (TimeManager.getCurrentTime tm now rtc) as [cur tm1] eqn:Hget.
  cbn [fst snd] in Hsnd, Hv, Hmin. subst tm1.
  assert (Hnext : is_next_dose (DoseManager.doses dm) (DoseManager.doseCount dm) c
                    (DoseManager.getNextDose dm cur)).
  { destruct Hwf as [Hlen Hcnt]. unfold MAX_DOSES in Hcnt.
    rewrite <- Hmin. unfold DoseManager.getNextDose.
    apply (nextScan_spec (DoseManager.doses dm) (minuteOfDay cur)
             (minuteOfDay_valid cur Hv) (DoseManager.doseCount dm) 0 (-1) (24 * 60 + 1)).
    - lia.
    - intros j d Hj Hd. apply (Hsv j d); [lia | exact Hd].
    - left. split; [reflexivity|]. split; [reflexivity|]. intros j d Hj. lia. }
  destruct Hnext as [[-> Hnone] | (k & d & -> & Hk & Hd & Hel & Hleast)].
  - left. split; [reflexivity | exact Hnone].
  - right. exists k, d.
    destruct (Z.ltb_spec (Z.of_nat k) 0) as [|_]; [lia|].
    pose proof Hd as Hd'. rewrite Nat2Z.id, Hd.
    assert (Hclock' : valid_clock (TimeManager.cachedDateTime
              (TimeManager.updateCache (TimeManager.updateCache tm now rtc) now rtc))).
    { rewrite updateCache_idem. exact Hclock. }
    rewrite (minutesUntil_value (TimeManager.updateCache tm now rtc) now rtc (time d)
               Hclock' (Hsv k d Hk Hd')).
    rewrite updateCache_idem. fold dt. fold c. cbn [fst].
    fold (minutes_ahead c d).
    assert (Hr : 0 <= minutes_ahead c d < 1440)
      by (unfold minutes_ahead, forward_distance; lia).
    assert (Hi : to_int16 (minutes_ahead c d) = minutes_ahead c d)
      by (unfold to_int16; lia).
    rewrite Hi.
    split; [exact Hk|]. split; [reflexivity|]. split; [exact Hel|].
    split; [reflexivity|]. split; [exact Hr | exact Hleast].
Qed.

(** At 6:01 PM the example schedule, with nothing taken, has a dose ahead:
    the answer is not -1. *)
Lemma getMinutesUntilNextDose_least_witness :
  exists k d, (k < 3)%nat /\ DoseManager.doses three_doses !! k = Some d /\
    fst (DoseManager.getMinutesUntilNextDose three_doses clock_18_00 1000 rtc_18_01) =
      minutes_ahead 1081 d.
Proof.
  destruct (getMinutesUntilNextDose_least three_doses clock_18_00 1000 rtc_18_01
              three_doses_wf three_doses_valid ltac:(split; simpl; lia))
    as [[Hr _] | (k & d & Hk & Hd & _ & Hr & _)].
  - vm_compute in Hr. discriminate Hr.
  - exists k, d. split; [exact Hk|]. split; [exact Hd | exact Hr].
Defined.

(** ** AlarmController *)

Lemma getPatternLength_6 (s : AlarmController.t) :
  AlarmController.getPatternLength s = 6%nat.
Proof.
  unfold AlarmController.getPatternLength, AlarmController.getCurrentPattern.
  destruct (AlarmController.currentPattern s); reflexivity.
Qed.

(** X11. The cadence invariant of the alarm engine holds after [begin] and is
    kept by [startAlarm], [stopAlarm], [snooze], [update], [setEnabled] and
    [setVolume]: the pattern step stays below the pattern length, so the
    duration [update] reads from the pattern table is always an entry of the
    table; the buzzer is on exactly on even steps while the alarm sounds and
    off while snoozed. *)
Theorem alarm_cadence_invariant :
  cadence_inv AlarmController.begin /\
  forall s, cadence_inv s ->
    (exists ms, AlarmController.getCurrentPattern s !! AlarmController.patternStep s
                = Some ms) /\
    (forall p now, cadence_inv (AlarmController.startAlarm s p now)) /\
    cadence_inv (AlarmController.stopAlarm s) /\
    (forall secs now, cadence_inv (AlarmController.snooze s secs now)) /\
    (forall now, cadence_inv (AlarmController.update s now)) /\
    (forall en, cadence_inv (AlarmController.setEnabled s en)) /\
    (forall vol, cadence_inv (AlarmController.setVolume s vol)).
Proof.
  split.
  { split; [rewrite getPatternLength_6; cbn; lia|].
    split; [discriminate | reflexivity]. }
  intros s (Hstep & Hon & Hsn). rewrite getPatternLength_6 in Hstep.
  split; [|split; [|split; [|split; [|split; [|split]]]]].
  - apply lookup_lt_is_Some_2.
    change (length (AlarmController.getCurrentPattern s))
      with (AlarmController.getPatternLength s).
    rewrite getPatternLength_6. exact Hstep.
  - intros p now. unfold AlarmController.startAlarm.
    destruct (AlarmController.buzzerEnabled s); cbn [negb].
    + split; [rewrite getPatternLength_6; simpl; lia|].
      split; [reflexivity | discriminate].
    + split; [rewrite getPatternLength_6; exact Hstep|]. split; assumption.
  - split; [rewrite getPatternLength_6; simpl; lia|].
    split; [discriminate | reflexivity].
  - intros secs now. unfold AlarmController.snooze.
    destruct (AlarmController.active s) eqn:Ha; cbn [negb].
    + split; [rewrite getPatternLength_6; exact Hstep|].
      split; [discriminate | reflexivity].
    + split; [rewrite getPatternLength_6; exact Hstep|]. split; [|exact Hsn].
      intros H. rewrite Ha in H. discriminate.
  - intros now. unfold AlarmController.update.
    assert (Hs : cadence_inv s).
    { split; [rewrite getPatternLength_6; exact Hstep|]. split; assumption. }
    destruct (AlarmController.snoozed s) eqn:Hsnz;
      destruct (AlarmController.active s) eqn:Ha; cbn [andb negb]; try exact Hs.
    + case_if; [|exact Hs].
      split; [rewrite getPatternLength_6; simpl; lia|].
      split; [reflexivity | discriminate].
    + case_if; [|exact Hs].
      rewrite getPatternLength_6.
      split; [|split].
      * rewrite getPatternLength_6. cbn [AlarmController.patternStep
          AlarmController.buzzerOutput].
        destruct (Nat.leb_spec 6 (S (AlarmController.patternStep s))); lia.
      * intros _ _. reflexivity.
      * cbn. discriminate.
  - intros en. split; [rewrite getPatternLength_6; exact Hstep|]. split; assumption.
  - intros vol. split; [rewrite getPatternLength_6; exact Hstep|]. split; assumption.
Qed.

(** The snoozed example engine satisfies the invariant, and so does the state
    after its next [update]. *)
Lemma alarm_cadence_invariant_witness :
  cadence_inv (AlarmController.update snoozed_5s 6000).
Proof.
  apply (proj2 alarm_cadence_invariant snoozed_5s).
  split; [vm_compute; lia|]. split; [discriminate | reflexivity].
Defined.

(** X12. While the buzzer is disabled, no sequence of [startAlarm],
    [stopAlarm], [snooze] and [update] calls drives the output: it stays
    disabled with PWM duty 0, and an alarm that was not active cannot be
    started. *)
Theorem disabled_buzzer_stays_silent (l : list AlarmController.op)
    (s : AlarmController.t) :
  AlarmController.buzzerEnabled s = false -> AlarmController.duty s = 0 ->
  AlarmController.buzzerEnabled (AlarmController.run_ops s l) = false /\
  AlarmController.duty (AlarmController.run_ops s l) = 0 /\
  (AlarmController.active s = false ->
   AlarmController.active (AlarmController.run_ops s l) = false).
Proof.
  revert s. induction l as [|o l IH]; intros s Hen Hd.
  { split; [exact Hen|]. split; [exact Hd | tauto]. }
  unfold AlarmController.run_ops in *. cbn [fold_left].
  assert (Hstep : AlarmController.buzzerEnabled (AlarmController.run_op s o) = false /\
                  AlarmController.duty (AlarmController.run_op s o) = 0 /\
                  (AlarmController.active s = false ->
                   AlarmController.active (AlarmController.run_op s o) = false)).
  { destruct o as [p now| |secs now|now]; cbn [AlarmController.run_op].
    - unfold AlarmController.startAlarm. rewrite Hen. cbn [negb]. tauto.
    - unfold AlarmController.stopAlarm, AlarmController.buzzerOutput. cbn.
      rewrite Hen. tauto.
    - unfold AlarmController.snooze.
      destruct (AlarmController.active s) eqn:Ha; cbn [negb]; [|tauto].
      cbn. rewrite Hen. split; [reflexivity|]. split; [reflexivity | discriminate].
    - unfold AlarmController.update.
      destruct (AlarmController.active s) eqn:Ha;
        destruct (AlarmController.snoozed s); cbn [andb negb];
        try (split; [exact Hen|]; split; [exact Hd | tauto]).
      + case_if; [|split; [exact Hen|]; split; [exact Hd | discriminate]].
        cbn. rewrite Hen, ?andb_false_r. split; [reflexivity|].
        split; [reflexivity | discriminate].
      + case_if; [|split; [exact Hen|]; split; [exact Hd | discriminate]].
        cbn. rewrite Hen, ?andb_false_r. split; [reflexivity|].
        split; [reflexivity | discriminate]. }
  destruct Hstep as (Hen1 & Hd1 & Ha1).
  destruct (IH (AlarmController.run_op s o) Hen1 Hd1) as (Hen2 & Hd2 & Ha2).
  split; [exact Hen2|]. split; [exact Hd2|]. intros Ha. apply Ha2, Ha1, Ha.
Qed.

(** A muted engine told to start, then updated, is still silent and
    inactive. *)
Lemma disabled_buzzer_stays_silent_witness :
  AlarmController.active
    (AlarmController.run_ops muted_alarm
       [AlarmController.OpStart AlarmController.PATTERN_URGENT 1000;
        AlarmController.OpUpdate 2000]) = false.
Proof.
  apply (disabled_buzzer_stays_silent
           [AlarmController.OpStart AlarmController.PATTERN_URGENT 1000;
            AlarmController.OpUpdate 2000] muted_alarm);
    reflexivity.
Defined.

(** ** ButtonHandler *)

(** Inside the debounce window nothing but the debounce bookkeeping moves. *)
Lemma channelRun_bounce (index : nat) (t0 : Z) :
  0 <= t0 -> t0 + DEBOUNCE_DELAY < 4294967296 ->
  forall (samples : list (bool * Z)) (btn : ButtonHandler.ButtonState) (prev : Z),
    t0 <= ButtonHandler.lastDebounceTime btn <= prev ->
    ascending_within prev (t0 + DEBOUNCE_DELAY) (map snd samples) ->
    let r := channelRun index btn samples in
    snd r = [] /\
    ButtonHandler.currentState (fst r) = ButtonHandler.currentState btn /\
    ButtonHandler.pendingEvent (fst r) = ButtonHandler.pendingEvent btn /\
    ButtonHandler.wasPressed (fst r) = ButtonHandler.wasPressed btn /\
    ButtonHandler.longPressTriggered (fst r) = ButtonHandler.longPressTriggered btn /\
    ButtonHandler.pressStartTime (fst r) = ButtonHandler.pressStartTime btn.
Proof.
  intros Ht0 Hlim. unfold DEBOUNCE_DELAY in *.
  induction samples as [|[reading now] rest IH]; intros btn prev Hldt Hasc.
  { simpl. repeat split. }
  cbn [map snd ascending_within] in Hasc. destruct Hasc as [Hnow Hrest].
  cbn [channelRun].
  assert (Hstep : ButtonHandler.processState index btn reading now =
    (ButtonHandler.mkButton (ButtonHandler.pin btn) reading
       (ButtonHandler.currentState btn) (ButtonHandler.wasPressed btn)
       (if eqb reading (ButtonHandler.lastReading btn)
        then ButtonHandler.lastDebounceTime btn else now)
       (ButtonHandler.pressStartTime btn) (ButtonHandler.longPressTriggered btn)
       (ButtonHandler.pendingEvent btn), false, [])).
  { unfold ButtonHandler.processState.
    set (debounce := if eqb reading (ButtonHandler.lastReading btn)
                     then ButtonHandler.lastDebounceTime btn else now).
    assert (Hd : t0 <= debounce <= now) by (subst debounce; case_if; lia).
    assert (Hs : sub32 now debounce = now - debounce) by (apply sub32_small; lia).
    rewrite Hs. unfold DEBOUNCE_DELAY.
    destruct (Z.gtb_spec (now - debounce) 50); [lia | reflexivity]. }
  rewrite Hstep.
  specialize (IH (ButtonHandler.mkButton (ButtonHandler.pin btn) reading
       (ButtonHandler.currentState btn) (ButtonHandler.wasPressed btn)
       (if eqb reading (ButtonHandler.lastReading btn)
        then ButtonHandler.lastDebounceTime btn else now)
       (ButtonHandler.pressStartTime btn) (ButtonHandler.longPressTriggered btn)
       (ButtonHandler.pendingEvent btn)) now).
  cbn [ButtonHandler.lastDebounceTime ButtonHandler.currentState
       ButtonHandler.pendingEvent ButtonHandler.wasPressed
       ButtonHandler.longPressTriggered ButtonHandler.pressStartTime] in IH.
  destruct (channelRun index _ rest) as [btn2 log2] eqn:Hrun.
  cbn [fst snd] in *. rewrite app_nil_l.
  apply IH; [case_if; lia | exact Hrest].
Qed.

(** X13. Contact bounce is ignored: when the level of a button changes at
    some sample and all the following samples, whatever they read, come
    within [DEBOUNCE_DELAY] ms of it, the run of [update] calls leaves the
    button's confirmed state, press bookkeeping and pending event as they
    were and prints nothing for it. *)
Theorem bounce_is_ignored (h : ButtonHandler.t) (index : nat)
    (btn : ButtonHandler.ButtonState) (pins0 : nat -> bool) (t0 : Z)
    (rest : list ((nat -> bool) * Z)) :
  ButtonHandler.wf h -> (index < BUTTON_COUNT)%nat ->
  ButtonHandler.buttons h !! index = Some btn ->
  pins0 index <> ButtonHandler.lastReading btn ->
  0 <= t0 -> t0 + DEBOUNCE_DELAY < 4294967296 ->
  ascending_within t0 (t0 + DEBOUNCE_DELAY) (map snd rest) ->
  let r := ButtonHandler.updates h ((pins0, t0) :: rest) in
  exists btn', ButtonHandler.buttons (fst r) !! index = Some btn' /\
    ButtonHandler.currentState btn' = ButtonHandler.currentState btn /\
    ButtonHandler.wasPressed btn' = ButtonHandler.wasPressed btn /\
    ButtonHandler.longPressTriggered btn' = ButtonHandler.longPressTriggered btn /\
    ButtonHandler.pendingEvent btn' = ButtonHandler.pendingEvent btn /\
    List.filter (is_line_of index) (snd r) = [].
Proof.
  intros Hwf Hi Hbtn Hchg Ht0 Hlim Hasc r. subst r.
  destruct (updates_channel (is_line_of index) index) with
    (samples := (pins0, t0) :: rest) (h := h) (btn := btn) as (_ & Hb & Hlog);
    [| exact Hi | exact Hwf | exact Hbtn |].
  { intros l Hl. unfold is_line_of. now apply Nat.eqb_neq. }
  cbn [channelSamples map fst snd] in Hb, Hlog.
  cbn [channelRun] in Hb, Hlog.
  assert (Hfirst : ButtonHandler.processState index btn (pins0 index) t0 =
    (ButtonHandler.mkButton (ButtonHandler.pin btn) (pins0 index)
       (ButtonHandler.currentState btn) (ButtonHandler.wasPressed btn) t0
       (ButtonHandler.pressStartTime btn) (ButtonHandler.longPressTriggered btn)
       (ButtonHandler.pendingEvent btn), false, [])).
  { unfold ButtonHandler.processState.
    assert (He : eqb (pins0 index) (ButtonHandler.lastReading btn) = false).
    { apply eqb_false_iff. exact Hchg. }
    rewrite He. unfold sub32, to_uint32. rewrite Z.sub_diag. reflexivity. }
  rewrite Hfirst in Hb, Hlog.
  pose proof (channelRun_bounce index t0 Ht0 Hlim
    (map (fun s : (nat -> bool) * Z => (fst s index, snd s)) rest)
    (ButtonHandler.mkButton (ButtonHandler.pin btn) (pins0 index)
       (ButtonHandler.currentState btn) (ButtonHandler.wasPressed btn) t0
       (ButtonHandler.pressStartTime btn) (ButtonHandler.longPressTriggered btn)
       (ButtonHandler.pendingEvent btn)) t0) as Hrun.
  cbn [ButtonHandler.lastDebounceTime ButtonHandler.currentState
       ButtonHandler.pendingEvent ButtonHandler.wasPressed
       ButtonHandler.longPressTriggered ButtonHandler.pressStartTime] in Hrun.
  specialize (Hrun ltac:(lia)).
  rewrite map_map in Hrun. cbn [snd] in Hrun. specialize (Hrun Hasc).
  destruct (channelRun index _ (map _ rest)) as [btn2 log2] eqn:Hc.
  cbn [fst snd] in *.
  destruct Hrun as (-> & Hcur & Hpend & Hwp & Hlp & _).
  exists btn2. split; [exact Hb|]. split; [exact Hcur|]. split; [exact Hwp|].
  split; [exact Hlp|]. split; [exact Hpend|]. rewrite Hlog. reflexivity.
Qed.

(** The OK button, pressed, bounces on release: nothing is confirmed yet. *)
Lemma bounce_is_ignored_witness :
  exists btn', ButtonHandler.buttons
                 (fst (ButtonHandler.updates ok_pressed bounce_samples))
               !! ButtonHandler.BUTTON_OK = Some btn' /\
    ButtonHandler.currentState btn' = LOW.
Proof.
  destruct (bounce_is_ignored ok_pressed ButtonHandler.BUTTON_OK ok_button_held
              all_up 200 [(ok_down, 210); (all_up, 230); (ok_down, 250)])
    as (btn' & Hb & Hcur & _).
  - reflexivity.
  - vm_compute. lia.
  - reflexivity.
  - discriminate.
  - lia.
  - vm_compute. reflexivity.
  - vm_compute. intuition discriminate.
  - exists btn'. split; [exact Hb | exact Hcur].
Defined.

(** A steady level inside the debounce window leaves the channel as it is. *)
Lemma channelRun_steady (index : nat) (level : bool) (times : list Z) :
  forall btn,
    ButtonHandler.lastReading btn = level ->
    0 <= ButtonHandler.lastDebounceTime btn ->
    ButtonHandler.lastDebounceTime btn + DEBOUNCE_DELAY < 4294967296 ->
    (forall now, In now times ->
       ButtonHandler.lastDebounceTime btn <= now
         <= ButtonHandler.lastDebounceTime btn + DEBOUNCE_DELAY) ->
    channelRun index btn (map (fun now => (level, now)) times) = (btn, []).
Proof.
  induction times as [|now rest IH]; intros btn Hlast H0 Hlim Hwin; [reflexivity|].
  cbn [map channelRun].
  assert (Hstep : ButtonHandler.processState index btn level now = (btn, false, [])).
  { unfold ButtonHandler.processState. rewrite Hlast, eqb_reflx.
    specialize (Hwin now (or_introl eq_refl)). unfold DEBOUNCE_DELAY in *.
    rewrite sub32_small by lia.
    destruct (Z.gtb_spec (now - ButtonHandler.lastDebounceTime btn) 50); [lia|].
    destruct btn; simpl in *. subst. reflexivity. }
  rewrite Hstep, IH; [reflexivity | exact Hlast | exact H0 | exact Hlim |].
  intros t Ht. apply Hwin. right. exact Ht.
Qed.

(** X14. A short press: when a confirmed, held button whose long press has
    not fired is released at [tr] and stays released, the samples up to
    [DEBOUNCE_DELAY] ms after [tr] change nothing, and the first sample after
    that generates exactly one short press and no long press; the next
    [consumeEvent] returns [BTN_SHORT_PRESS]. *)
Theorem short_press_on_release (h : ButtonHandler.t) (index : nat)
    (btn : ButtonHandler.ButtonState) (d p tr tc : Z)
    (window : list ((nat -> bool) * Z)) (pinsR pinsC : nat -> bool) :
  ButtonHandler.wf h -> (index < BUTTON_COUNT)%nat ->
  ButtonHandler.buttons h !! index = Some btn ->
  held btn d p -> ButtonHandler.longPressTriggered btn = false ->
  pinsR index = HIGH -> pinsC index = HIGH ->
  (forall s, In s window -> fst s index = HIGH /\ tr <= snd s <= tr + DEBOUNCE_DELAY) ->
  0 <= tr -> tr + DEBOUNCE_DELAY < tc < 4294967296 ->
  let r := ButtonHandler.updates h ((pinsR, tr) :: window ++ [(pinsC, tc)]) in
  count_lines (ButtonHandler.is_short_line index) (snd r) = 1%nat /\
  count_lines (ButtonHandler.is_long_line index) (snd r) = 0%nat /\
  fst (ButtonHandler.consumeEvent (fst r) index) = BTN_SHORT_PRESS /\
  exists btn', ButtonHandler.buttons (fst r) !! index = Some btn' /\
    ButtonHandler.currentState btn' = HIGH /\ ButtonHandler.wasPressed btn' = false.
Proof.
  intros Hwf Hi Hbtn (Hcur & Hlast & Hwp & Hd & Hp) Hlp HpR HpC Hwin Htr Htc r.
  unfold DEBOUNCE_DELAY in *.
  set (samples := (pinsR, tr) :: window ++ [(pinsC, tc)]) in *.
  (* the channel of the button *)
  assert (Hchan : channelSamples index samples =
            (HIGH, tr) :: map (fun now => (HIGH, now)) (map snd window) ++ [(HIGH, tc)]).
  { subst samples. unfold channelSamples. cbn [map fst snd]. rewrite HpR.
    f_equal. rewrite map_app. cbn [map fst snd]. rewrite HpC. f_equal.
    rewrite map_map. apply map_ext_in. intros s Hs.
    destruct (Hwin s Hs) as [-> _]. reflexivity. }
  set (btn1 := ButtonHandler.mkButton (ButtonHandler.pin btn) HIGH LOW true tr
                 (ButtonHandler.pressStartTime btn) false (ButtonHandler.pendingEvent btn)).
  set (btn2 := ButtonHandler.mkButton (ButtonHandler.pin btn) HIGH HIGH false tr
                 (ButtonHandler.pressStartTime btn) false BTN_SHORT_PRESS).
  assert (Hfirst : ButtonHandler.processState index btn HIGH tr = (btn1, false, [])).
  { unfold ButtonHandler.processState. rewrite Hlast. cbn [eqb HIGH LOW].
    unfold sub32, to_uint32. rewrite Z.sub_diag. cbn.
    subst btn1. rewrite Hcur, Hwp, Hlp. reflexivity. }
  assert (Hmid : channelRun index btn1 (map (fun now => (HIGH, now)) (map snd window))
                 = (btn1, [])).
  { apply channelRun_steady; subst btn1; cbn [ButtonHandler.lastReading
      ButtonHandler.lastDebounceTime]; unfold DEBOUNCE_DELAY; try lia; [reflexivity|].
    intros now Hin. apply in_map_iff in Hin. destruct Hin as (s & <- & Hs).
    apply (Hwin s Hs). }
  assert (Hlast' : ButtonHandler.processState index btn1 HIGH tc
                   = (btn2, false, [ButtonHandler.LineShortPress index])).
  { unfold ButtonHandler.processState. subst btn1 btn2.
    cbn [ButtonHandler.lastReading ButtonHandler.lastDebounceTime
         ButtonHandler.currentState ButtonHandler.wasPressed
         ButtonHandler.longPressTriggered ButtonHandler.pressStartTime
         ButtonHandler.pendingEvent ButtonHandler.pin eqb HIGH LOW].
    rewrite sub32_small by lia. unfold DEBOUNCE_DELAY.
    destruct (Z.gtb_spec (tc - tr) 50); [|lia]. reflexivity. }
  assert (Hrun : channelRun index btn (channelSamples index samples)
                 = (btn2, [ButtonHandler.LineShortPress index])).
  { rewrite Hchan. cbn [channelRun]. rewrite Hfirst, channelRun_app, Hmid.
    cbn [fst snd channelRun]. rewrite Hlast'. reflexivity. }
  destruct (updates_channel (ButtonHandler.is_short_line index) index
              (short_line_channel index) Hi samples h btn Hwf Hbtn) as (Hwf' & Hb & Hs).
  destruct (updates_channel (ButtonHandler.is_long_line index) index
              (long_line_channel index) Hi samples h btn Hwf Hbtn) as (_ & _ & Hl).
  rewrite Hrun in Hb, Hs, Hl. cbn [fst snd] in Hb, Hs, Hl.
  destruct (consumeEvent_channel (fst r) index btn2 Hwf' Hi Hb) as (Hcons & _).
  unfold count_lines. subst r. rewrite Hs, Hl. cbn [List.filter
    ButtonHandler.is_short_line ButtonHandler.is_long_line].
  rewrite Nat.eqb_refl.
  split; [reflexivity|]. split; [reflexivity|]. split; [exact Hcons|].
  exists btn2. split; [exact Hb|]. split; reflexivity.
Qed.

(** The OK button of the example, pressed at 70 ms, is released at 200 ms:
    the sample at 251 ms delivers the short press. *)
Lemma short_press_on_release_witness :
  fst (ButtonHandler.consumeEvent
         (fst (ButtonHandler.updates ok_pressed short_release_samples))
         ButtonHandler.BUTTON_OK) = BTN_SHORT_PRESS.
Proof.
  apply (short_press_on_release ok_pressed ButtonHandler.BUTTON_OK ok_button_held
           10 70 200 251 [(all_up, 220)] all_up all_up).
  - reflexivity.
  - vm_compute. lia.
  - reflexivity.
  - repeat split.
  - reflexivity.
  - reflexivity.
  - reflexivity.
  - intros s [<-|[]]. vm_compute. intuition discriminate.
  - lia.
  - vm_compute. intuition discriminate.
Defined.

Lemma clearEvents_slots (h : ButtonHandler.t) (i : nat) :
  ButtonHandler.buttons (ButtonHandler.clearEvents h) !! i =
    if (i <? BUTTON_COUNT)%nat
    then ButtonHandler.clearPending <$> ButtonHandler.buttons h !! i
    else ButtonHandler.buttons h !! i.
Proof.
  unfold ButtonHandler.clearEvents. cbn [ButtonHandler.buttons].
  set (a := ButtonHandler.buttons h).
  pose (P := fun (k : nat) (b : list ButtonHandler.ButtonState) =>
    forall j, b !! j = if (j <? k)%nat then ButtonHandler.clearPending <$> a !! j
                       else a !! j).
  assert (HP : P (0 + BUTTON_COUNT)%nat
    (for_up 0 BUTTON_COUNT
       (fun i bs => match bs !! i with
                    | Some btn => <[i := ButtonHandler.clearPending btn]> bs
                    | None => bs
                    end) a)).
  { apply for_up_ind.
    - intros j. reflexivity.
    - intros k b _ Hb j. unfold P in Hb.
      pose proof (Hb k) as Hk. rewrite Nat.ltb_irrefl in Hk.
      destruct (b !! k) as [x|] eqn:Hx.
      + destruct (Nat.eq_dec j k) as [->|Hne].
        * rewrite list_lookup_insert_eq by (now apply lookup_lt_Some in Hx).
          destruct (Nat.ltb_spec k (S k)); [|lia]. now rewrite <- Hk.
        * rewrite list_lookup_insert_ne by lia. rewrite (Hb j).
          destruct (Nat.ltb_spec j k); destruct (Nat.ltb_spec j (S k)); try lia;
            reflexivity.
      + rewrite (Hb j).
        destruct (Nat.ltb_spec j k); destruct (Nat.ltb_spec j (S k)); try lia;
          try reflexivity.
        assert (j = k) by lia. subst j. now rewrite <- Hk. }
  exact (HP i).
Qed.

Lemma clearEvents_consume (h : ButtonHandler.t) (index : nat) :
  fst (ButtonHandler.consumeEvent (ButtonHandler.clearEvents h) index) = BTN_NONE.
Proof.
  unfold ButtonHandler.consumeEvent.
  destruct (Nat.leb_spec BUTTON_COUNT index) as [|Hlt]; [reflexivity|].
  rewrite clearEvents_slots.
  destruct (Nat.ltb_spec index BUTTON_COUNT); [|lia].
  destruct (ButtonHandler.buttons h !! index); reflexivity.
Qed.

Lemma clearEvents_wf (h : ButtonHandler.t) :
  ButtonHandler.wf h -> ButtonHandler.wf (ButtonHandler.clearEvents h).
Proof.
  unfold ButtonHandler.wf. intros Hlen. rewrite <- Hlen.
  apply Nat.le_antisymm.
  - destruct (Nat.le_gt_cases (length (ButtonHandler.buttons (ButtonHandler.clearEvents h)))
                (length (ButtonHandler.buttons h))) as [|Hgt]; [assumption|].
    destruct (lookup_lt_is_Some_2 _ _ Hgt) as [x Hx].
    rewrite clearEvents_slots in Hx.
    rewrite (lookup_ge_None_2 (ButtonHandler.buttons h) (length (ButtonHandler.buttons h)))
      in Hx by lia.
    destruct (_ <? _)%nat; discriminate.
  - destruct (Nat.le_gt_cases (length (ButtonHandler.buttons h))
                (length (ButtonHandler.buttons (ButtonHandler.clearEvents h))))
      as [|Hgt]; [assumption|].
    destruct (lookup_lt_is_Some_2 _ _ Hgt) as [x Hx].
    pose proof (clearEvents_slots h
                  (length (ButtonHandler.buttons (ButtonHandler.clearEvents h)))) as Hs.
    rewrite (lookup_ge_None_2 (ButtonHandler.buttons (ButtonHandler.clearEvents h))) in Hs
      by lia.
    rewrite Hx in Hs. destruct (_ <? _)%nat; discriminate.
Qed.

(** A held button, its long press not fired, let go at [tr]: the first sample
    more than [DEBOUNCE_DELAY] ms later stores the short press. *)
Lemma channelRun_release (index : nat) (btn : ButtonHandler.ButtonState)
    (d p tr tc : Z) (times : list Z) :
  held btn d p -> ButtonHandler.longPressTriggered btn = false ->
  (forall now, In now times -> tr <= now <= tr + DEBOUNCE_DELAY) ->
  0 <= tr -> tr + DEBOUNCE_DELAY < tc < 4294967296 ->
  channelRun index btn
    ((HIGH, tr) :: map (fun now => (HIGH, now)) times ++ [(HIGH, tc)])
  = (ButtonHandler.mkButton (ButtonHandler.pin btn) HIGH HIGH false tr
       (ButtonHandler.pressStartTime btn) false BTN_SHORT_PRESS,
     [ButtonHandler.LineShortPress index]).
Proof.
  intros (Hcur & Hlast & Hwp & Hd & Hp) Hlp Hwin Htr Htc.
  unfold DEBOUNCE_DELAY in *.
  set (btn1 := ButtonHandler.mkButton (ButtonHandler.pin btn) HIGH LOW true tr
                 (ButtonHandler.pressStartTime btn) false (ButtonHandler.pendingEvent btn)).
  assert (Hfirst : ButtonHandler.processState index btn HIGH tr = (btn1, false, [])).
  { unfold ButtonHandler.processState. rewrite Hlast. cbn [eqb HIGH LOW].
    unfold sub32, to_uint32. rewrite Z.sub_diag. cbn.
    subst btn1. rewrite Hcur, Hwp, Hlp. reflexivity. }
  assert (Hmid : channelRun index btn1 (map (fun now => (HIGH, now)) times) = (btn1, [])).
  { apply channelRun_steady; subst btn1; cbn [ButtonHandler.lastReading
      ButtonHandler.lastDebounceTime]; unfold DEBOUNCE_DELAY; try lia; [reflexivity|].
    exact Hwin. }
  cbn [channelRun]. rewrite Hfirst, channelRun_app, Hmid.
  cbn [fst snd channelRun].
  unfold ButtonHandler.processState. subst btn1.
  cbn [ButtonHandler.lastReading ButtonHandler.lastDebounceTime
       ButtonHandler.currentState ButtonHandler.wasPressed
       ButtonHandler.longPressTriggered ButtonHandler.pressStartTime
       ButtonHandler.pendingEvent ButtonHandler.pin eqb HIGH LOW].
  rewrite sub32_small by lia. unfold DEBOUNCE_DELAY.
  destruct (Z.gtb_spec (tc - tr) 50); [|lia]. reflexivity.
Qed.

(** X15. The press that wakes the display is delivered all the same.  In an
    iteration of [loop] where, after the inputs are read, a button is down
    and the display is off, the display is turned on, the events pending at
    that moment are discarded and nothing else runs (the iteration ends as
    [wakeScreen] leaves it); but [clearEvents] keeps the press bookkeeping of
    the button, so when the button that woke the display (confirmed down, long
    press not fired) is let go and stays up for more than [DEBOUNCE_DELAY]
    ms, [update] generates a short press for it, which the next
    [consumeEvent] returns. *)
Theorem wake_press_acts_on_release
    (handler : MenuState -> Main.Input -> Main.World -> Main.World)
    (w : Main.World) (inp : Main.Input) (index : nat)
    (btn : ButtonHandler.ButtonState) (d p tr tc : Z)
    (window : list ((nat -> bool) * Z)) (pinsR pinsC : nat -> bool) :
  let w0 := Main.inputPhase w inp in
  Main.wakeShortcut w0 = true ->
  ButtonHandler.wf (Main.buttonHandler w0) -> (index < BUTTON_COUNT)%nat ->
  ButtonHandler.buttons (Main.buttonHandler w0) !! index = Some btn ->
  held btn d p -> ButtonHandler.longPressTriggered btn = false ->
  pinsR index = HIGH -> pinsC index = HIGH ->
  (forall s, In s window -> fst s index = HIGH /\ tr <= snd s <= tr + DEBOUNCE_DELAY) ->
  0 <= tr -> tr + DEBOUNCE_DELAY < tc < 4294967296 ->
  let w' := Main.loop handler w inp in
  let r := ButtonHandler.updates (Main.buttonHandler w')
             ((pinsR, tr) :: window ++ [(pinsC, tc)]) in
  w' = Main.wakeScreen w0 inp /\
  UIManager.isOn (Main.uiManager w') = true /\
  (forall i, fst (ButtonHandler.consumeEvent (Main.buttonHandler w') i) = BTN_NONE) /\
  (exists btn', ButtonHandler.buttons (Main.buttonHandler w') !! index = Some btn' /\
     ButtonHandler.currentState btn' = LOW /\ ButtonHandler.wasPressed btn' = true) /\
  fst (ButtonHandler.consumeEvent (fst r) index) = BTN_SHORT_PRESS /\
  count_lines (ButtonHandler.is_short_line index) (snd r) = 1%nat.
Proof.
  intros w0 Hwake Hwf Hi Hbtn Hheld Hlp HpR HpC Hwin Htr Htc w' r.
  assert (Hw' : w' = Main.wakeScreen w0 inp).
  { subst w'. unfold Main.loop. fold w0. rewrite Hwake. reflexivity. }
  assert (Hbh : Main.buttonHandler w' = ButtonHandler.clearEvents (Main.buttonHandler w0)).
  { rewrite Hw'. reflexivity. }
  assert (Hb' : ButtonHandler.buttons (Main.buttonHandler w') !! index
                = Some (ButtonHandler.clearPending btn)).
  { rewrite Hbh, clearEvents_slots.
    destruct (Nat.ltb_spec index BUTTON_COUNT); [|lia]. now rewrite Hbtn. }
  assert (Hwf' : ButtonHandler.wf (Main.buttonHandler w')).
  { rewrite Hbh. apply clearEvents_wf. exact Hwf. }
  split; [exact Hw'|]. split; [rewrite Hw'; reflexivity|].
  split; [intros i; rewrite Hbh; apply clearEvents_consume|].
  split.
  { exists (ButtonHandler.clearPending btn). split; [exact Hb'|].
    destruct Hheld as (Hcur & _ & Hwp & _). split; [exact Hcur | exact Hwp]. }
  set (samples := (pinsR, tr) :: window ++ [(pinsC, tc)]) in *.
  assert (Hchan : channelSamples index samples =
            (HIGH, tr) :: map (fun now => (HIGH, now)) (map snd window) ++ [(HIGH, tc)]).
  { subst samples. unfold channelSamples. cbn [map fst snd]. rewrite HpR.
    f_equal. rewrite map_app. cbn [map fst snd]. rewrite HpC. f_equal.
    rewrite map_map. apply map_ext_in. intros s Hs.
    destruct (Hwin s Hs) as [-> _]. reflexivity. }
  assert (Hrun : channelRun index (ButtonHandler.clearPending btn)
                   (channelSamples index samples)
                 = (ButtonHandler.mkButton (ButtonHandler.pin btn) HIGH HIGH false tr
                      (ButtonHandler.pressStartTime btn) false BTN_SHORT_PRESS,
                    [ButtonHandler.LineShortPress index])).
  { rewrite Hchan.
    apply (channelRun_release index (ButtonHandler.clearPending btn) d p tr tc
             (map snd window)).
    - destruct Hheld as (H1 & H2 & H3 & H4 & H5). repeat split; assumption.
    - exact Hlp.
    - intros now Hin. apply in_map_iff in Hin. destruct Hin as (s & <- & Hs).
      apply (Hwin s Hs).
    - exact Htr.
    - exact Htc. }
  destruct (updates_channel (ButtonHandler.is_short_line index) index
              (short_line_channel index) Hi samples (Main.buttonHandler w') _ Hwf' Hb')
    as (Hwfr & Hbr & Hs).
  fold r in Hwfr, Hbr, Hs. rewrite Hrun in Hbr, Hs. cbn [fst snd] in Hbr, Hs.
  destruct (consumeEvent_channel (fst r) index _ Hwfr Hi Hbr) as (Hcons & _).
  split; [exact Hcons|].
  unfold count_lines. rewrite Hs.
  cbn [List.filter ButtonHandler.is_short_line]. rewrite Nat.eqb_refl. reflexivity.
Qed.

(** The OK button goes down while the display is off and wakes it; let go
    200 ms later, it delivers a short press. *)
Lemma wake_press_acts_on_release_witness :
  fst (ButtonHandler.consumeEvent
         (fst (ButtonHandler.updates
                 (Main.buttonHandler (Main.loop idle_handler world_asleep input_ok_down))
                 wake_release_samples))
         ButtonHandler.BUTTON_OK) = BTN_SHORT_PRESS.
Proof.
  apply (wake_press_acts_on_release idle_handler world_asleep input_ok_down
           ButtonHandler.BUTTON_OK ok_button_held 10 70 1200 1260
           [(all_up, 1220)] all_up all_up).
  - reflexivity.
  - reflexivity.
  - vm_compute. lia.
  - reflexivity.
  - repeat split.
  - reflexivity.
  - reflexivity.
  - reflexivity.
  - intros s [<-|[]]. vm_compute. intuition discriminate.
  - lia.
  - vm_compute. intuition discriminate.
Defined.

(** ** LidSensor *)

(** X16. Every [update] of the lid sensor raises the opened flag exactly when
    it switches the lid from shut to open, and the closed flag exactly when it
    switches it from open to shut; the opening counter grows by one on an
    opening and is otherwise unchanged; a flag raised is read once:
    [justOpened] returns true and the next [justOpened] returns false. *)
Theorem lid_edges_follow_state (s : LidSensor.t) (reading : bool) (now : Z) :
  let s' := LidSensor.update s reading now in
  (LidSensor.justOpenedFlag s' = true <->
     LidSensor.lidOpen s = false /\ LidSensor.lidOpen s' = true) /\
  (LidSensor.justClosedFlag s' = true <->
     LidSensor.lidOpen s = true /\ LidSensor.lidOpen s' = false) /\
  LidSensor.openingsToday s' =
    (if LidSensor.justOpenedFlag s' then to_uint16 (LidSensor.openingsToday s + 1)
     else LidSensor.openingsToday s) /\
  (LidSensor.lidOpen s' <> LidSensor.lidOpen s ->
     LidSensor.lidOpen s' = eqb reading HIGH) /\
  fst (LidSensor.justOpened s') = LidSensor.justOpenedFlag s' /\
  fst (LidSensor.justOpened (snd (LidSensor.justOpened s'))) = false.
Proof.
  intros s'. subst s'. unfold LidSensor.update.
  set (debounce := if negb (eqb reading (LidSensor.currentReading s)) then now
                   else LidSensor.lastDebounceTime s).
  set (change := if negb (eqb reading (LidSensor.currentReading s)) then now
                 else LidSensor.stateChangeTime s).
  destruct ((sub32 now debounce >? DEBOUNCE_DELAY)
            && (sub32 now change >=? LID_DEBOUNCE_DURATION)) eqn:Hguard;
    cbn [andb].
  - destruct (eqb reading HIGH) eqn:Hr; destruct (LidSensor.lidOpen s) eqn:Ho;
      cbn; rewrite ?Hr; intuition congruence.
  - cbn. destruct (LidSensor.lidOpen s); intuition congruence.
Qed.

(** Inside the lid debounce period the lid state does not move. *)
Lemma lidRun_vibration (t0 : Z) :
  0 <= t0 -> t0 + LID_DEBOUNCE_DURATION <= 4294967296 ->
  forall (samples : list (bool * Z)) (s : LidSensor.t) (prev : Z),
    t0 <= LidSensor.stateChangeTime s <= prev ->
    ascending_within prev (t0 + LID_DEBOUNCE_DURATION - 1) (map snd samples) ->
    LidSensor.lidOpen (lidRun s samples) = LidSensor.lidOpen s /\
    LidSensor.openingsToday (lidRun s samples) = LidSensor.openingsToday s /\
    LidSensor.lastOpenTime (lidRun s samples) = LidSensor.lastOpenTime s /\
    (samples <> [] ->
     LidSensor.justOpenedFlag (lidRun s samples) = false /\
     LidSensor.justClosedFlag (lidRun s samples) = false).
Proof.
  intros Ht0 Hlim. unfold LID_DEBOUNCE_DURATION in *.
  induction samples as [|[reading now] rest IH]; intros s prev Hchg Hasc.
  { simpl. split; [reflexivity|]. split; [reflexivity|]. split; [reflexivity|].
    intros Hne. contradiction. }
  cbn [map snd ascending_within] in Hasc. destruct Hasc as [Hnow Hrest].
  unfold lidRun. cbn [fold_left fst snd].
  fold (lidRun (LidSensor.update s reading now) rest).
  assert (Hstep : LidSensor.update s reading now =
    LidSensor.mk (LidSensor.lidOpen s) (LidSensor.lastState s) reading false false
      (LidSensor.sensorWorking s)
      (if negb (eqb reading (LidSensor.currentReading s)) then now
       else LidSensor.lastDebounceTime s)
      (if negb (eqb reading (LidSensor.currentReading s)) then now
       else LidSensor.stateChangeTime s)
      (LidSensor.lastOpenTime s) (LidSensor.openingsToday s)).
  { unfold LidSensor.update.
    set (change := if negb (eqb reading (LidSensor.currentReading s)) then now
                   else LidSensor.stateChangeTime s).
    assert (Hc : t0 <= change <= now) by (subst change; case_if; lia).
    rewrite (sub32_small now change) by lia. unfold LID_DEBOUNCE_DURATION.
    destruct (Z.geb_spec (now - change) 500); [lia|].
    rewrite andb_false_r. reflexivity. }
  rewrite Hstep.
  destruct (IH (LidSensor.mk (LidSensor.lidOpen s) (LidSensor.lastState s) reading
      false false (LidSensor.sensorWorking s)
      (if negb (eqb reading (LidSensor.currentReading s)) then now
       else LidSensor.lastDebounceTime s)
      (if negb (eqb reading (LidSensor.currentReading s)) then now
       else LidSensor.stateChangeTime s)
      (LidSensor.lastOpenTime s) (LidSensor.openingsToday s)) now)
    as (Ho & Hn & Hl & Hf).
  { cbn [LidSensor.stateChangeTime]. case_if; lia. }
  { exact Hrest. }
  cbn [LidSensor.lidOpen LidSensor.openingsToday LidSensor.lastOpenTime] in Ho, Hn, Hl.
  split; [exact Ho|]. split; [exact Hn|]. split; [exact Hl|].
  intros _. destruct rest as [|x rest']; [split; reflexivity|].
  apply Hf. discriminate.
Qed.

(** X17. Vibration is rejected: when the reed level changes at some sample
    and the following samples, whatever they read, come less than
    [LID_DEBOUNCE_DURATION] ms after it, the lid state, the opening counter
    and the time of the last opening stay as they were and no edge flag is
    raised. *)
Theorem lid_vibration_rejected (s : LidSensor.t) (reading0 : bool) (t0 : Z)
    (rest : list (bool * Z)) :
  reading0 <> LidSensor.currentReading s ->
  0 <= t0 -> t0 + LID_DEBOUNCE_DURATION <= 4294967296 ->
  ascending_within t0 (t0 + LID_DEBOUNCE_DURATION - 1) (map snd rest) ->
  let s' := lidRun s ((reading0, t0) :: rest) in
  LidSensor.lidOpen s' = LidSensor.lidOpen s /\
  LidSensor.openingsToday s' = LidSensor.openingsToday s /\
  LidSensor.lastOpenTime s' = LidSensor.lastOpenTime s /\
  LidSensor.justOpenedFlag s' = false /\ LidSensor.justClosedFlag s' = false.
Proof.
  intros Hchg Ht0 Hlim Hasc s'. subst s'.
  unfold lidRun. cbn [fold_left fst snd].
  fold (lidRun (LidSensor.update s reading0 t0) rest).
  assert (Hstep : LidSensor.update s reading0 t0 =
    LidSensor.mk (LidSensor.lidOpen s) (LidSensor.lastState s) reading0 false false
      (LidSensor.sensorWorking s) t0 t0
      (LidSensor.lastOpenTime s) (LidSensor.openingsToday s)).
  { unfold LidSensor.update.
    assert (He : eqb reading0 (LidSensor.currentReading s) = false)
      by (apply eqb_false_iff; exact Hchg).
    rewrite He. cbn [negb]. unfold sub32, to_uint32. rewrite Z.sub_diag.
    reflexivity. }
  rewrite Hstep.
  destruct (lidRun_vibration t0 Ht0 Hlim rest
    (LidSensor.mk (LidSensor.lidOpen s) (LidSensor.lastState s) reading0 false false
      (LidSensor.sensorWorking s) t0 t0
      (LidSensor.lastOpenTime s) (LidSensor.openingsToday s)) t0)
    as (Ho & Hn & Hl & Hf).
  { cbn [LidSensor.stateChangeTime]. lia. }
  { exact Hasc. }
  cbn [LidSensor.lidOpen LidSensor.openingsToday LidSensor.lastOpenTime] in Ho, Hn, Hl.
  split; [exact Ho|]. split; [exact Hn|]. split; [exact Hl|].
  destruct rest as [|x rest']; [split; reflexivity|].
  apply Hf. discriminate.
Qed.

(** The magnet leaves the switch at 1000 ms and the level chatters for 400 ms:
    the lid is still reported shut. *)
Lemma lid_vibration_rejected_witness :
  LidSensor.lidOpen
    (lidRun lid_shut [(HIGH, 1000); (LOW, 1100); (HIGH, 1200); (HIGH, 1400)]) = false.
Proof.
  apply (lid_vibration_rejected lid_shut HIGH 1000
           [(LOW, 1100); (HIGH, 1200); (HIGH, 1400)]).
  - discriminate.
  - lia.
  - vm_compute. discriminate.
  - vm_compute. intuition discriminate.
Defined.

(** X18. An opening is detected once: with the lid reported shut and the reed
    level HIGH since [t0], the first [update] at least
    [LID_DEBOUNCE_DURATION] ms after [t0] reports the lid open, raises the
    opened flag, stamps the opening time and counts the opening; the next
    [update] with the level still HIGH lowers the flag again and counts
    nothing. *)
Theorem lid_opening_detected_once (s : LidSensor.t) (t0 now now' : Z) :
  LidSensor.lidOpen s = false ->
  LidSensor.currentReading s = HIGH ->
  LidSensor.lastDebounceTime s = t0 -> LidSensor.stateChangeTime s = t0 ->
  0 <= t0 -> t0 + LID_DEBOUNCE_DURATION <= now < 4294967296 ->
  let s1 := LidSensor.update s HIGH now in
  let s2 := LidSensor.update s1 HIGH now' in
  LidSensor.lidOpen s1 = true /\ LidSensor.justOpenedFlag s1 = true /\
  LidSensor.justClosedFlag s1 = false /\
  LidSensor.lastOpenTime s1 = now /\
  LidSensor.openingsToday s1 = to_uint16 (LidSensor.openingsToday s + 1) /\
  LidSensor.lidOpen s2 = true /\ LidSensor.justOpenedFlag s2 = false /\
  LidSensor.openingsToday s2 = LidSensor.openingsToday s1.
Proof.
  intros Ho Hr Hd Hc Ht0 Hnow s1 s2.
  unfold LID_DEBOUNCE_DURATION in *.
  assert (H1 : s1 = LidSensor.mk true (LidSensor.lastState s) HIGH true false
                 (LidSensor.sensorWorking s) t0 t0 now
                 (to_uint16 (LidSensor.openingsToday s + 1))).
  { subst s1. unfold LidSensor.update. rewrite Hr, Hd, Hc, Ho. cbn [eqb HIGH negb].
    rewrite sub32_small by lia. unfold DEBOUNCE_DELAY, LID_DEBOUNCE_DURATION.
    destruct (Z.gtb_spec (now - t0) 50); [|lia].
    destruct (Z.geb_spec (now - t0) 500); [|lia]. reflexivity. }
  assert (H2 : s2 = LidSensor.mk true (LidSensor.lastState s) HIGH false false
                 (LidSensor.sensorWorking s) t0 t0 now
                 (to_uint16 (LidSensor.openingsToday s + 1))).
  { subst s2. rewrite H1. unfold LidSensor.update.
    cbn [LidSensor.currentReading LidSensor.lidOpen LidSensor.lastDebounceTime
         LidSensor.stateChangeTime LidSensor.lastState LidSensor.sensorWorking
         LidSensor.lastOpenTime LidSensor.openingsToday eqb HIGH negb].
    rewrite andb_false_r. reflexivity. }
  rewrite H2, H1. cbn. repeat split.
Qed.

(** The magnet leaves the switch at 1000 ms; at 1500 ms the opening is
    reported. *)
Lemma lid_opening_detected_once_witness :
  LidSensor.justOpenedFlag
    (LidSensor.update (LidSensor.update lid_shut HIGH 1000) HIGH 1500) = true.
Proof.
  apply (lid_opening_detected_once (LidSensor.update lid_shut HIGH 1000) 1000 1500 1600).
  - reflexivity.
  - reflexivity.
  - reflexivity.
  - reflexivity.
  - lia.
  - vm_compute. intuition discriminate.
Defined.

(** ** Storage *)

(** X19. [loadDoses] fails safe on any store content: it returns at most
    [MAX_DOSES]; when it returns 0 (store not open, count 0 or too large,
    wrong block size, CRC mismatch) the caller's array is untouched; otherwise
    only the first [count] entries are written, each with taken = false and
    id = its index, and the length of the array is unchanged. *)
Theorem loadDoses_fail_safe (stack : list Z) (st : Storage.t) (doses : list Dose) :
  let r := Storage.loadDoses stack st doses in
  (fst r <= MAX_DOSES)%nat /\
  length (snd r) = length doses /\
  (fst r = 0%nat -> snd r = doses) /\
  (forall i, (fst r <= i)%nat -> snd r !! i = doses !! i) /\
  (forall i d, (i < fst r)%nat -> snd r !! i = Some d ->
     taken d = false /\ id d = Z.of_nat i).
Proof.
  intros r. subst r. unfold Storage.loadDoses.
  assert (Hfail : forall ds : list Dose,
    (0 <= MAX_DOSES)%nat /\ length ds = length ds /\ (0%nat = 0%nat -> ds = ds) /\
    (forall i, (0 <= i)%nat -> ds !! i = ds !! i) /\
    (forall i d, (i < 0)%nat -> ds !! i = Some d ->
       taken d = false /\ id d = Z.of_nat i)).
  { intros ds. split; [lia|]. split; [reflexivity|]. split; [reflexivity|].
    split; [reflexivity|]. intros i d Hi. lia. }
  destruct (Storage.initialized st); cbn [negb]; [|apply Hfail].
  set (count := Z.to_nat (Storage.getUChar Storage.KEY_DOSE_COUNT 0 (Storage.prefs st))).
  destruct (Nat.eqb_spec count 0); cbn [orb]; [apply Hfail|].
  destruct (Nat.ltb_spec MAX_DOSES count); [apply Hfail|].
  destruct (Storage.getBytes Storage.KEY_DOSES stack (count * 4) (Storage.prefs st))
    as [bytesRead buffer].
  destruct (bytesRead =? count * 4)%nat; cbn [negb]; [|apply Hfail].
  destruct (_ =? _); cbn [negb]; [|apply Hfail].
  cbn [fst snd].
  pose (P := fun (k : nat) (b : list Dose) =>
    length b = length doses /\
    (forall i, (k <= i)%nat -> b !! i = doses !! i) /\
    (forall i d, (i < k)%nat -> b !! i = Some d ->
       taken d = false /\ id d = to_uint8 (Z.of_nat i))).
  assert (HP : P (0 + count)%nat (for_up 0 count (Storage.unpackDose buffer) doses)).
  { apply for_up_ind.
    - split; [reflexivity|]. split; [reflexivity|]. intros i d Hi. lia.
    - intros k b _ (Hl & Hrest & Hdone). unfold P, Storage.unpackDose.
      split; [now rewrite length_insert|]. split.
      + intros i Hi. rewrite list_lookup_insert_ne by lia. apply Hrest. lia.
      + intros i d Hi Hd. destruct (Nat.eq_dec i k) as [->|Hne].
        * apply list_lookup_insert_Some in Hd.
          destruct Hd as [(_ & <- & _) | (Habs & _)]; [|contradiction].
          split; reflexivity.
        * rewrite list_lookup_insert_ne in Hd by lia. apply (Hdone i d); [lia | exact Hd]. }
  destruct HP as (Hl & Hrest & Hdone).
  split; [exact H|]. split; [exact Hl|]. split; [lia|]. split; [exact Hrest|].
  intros i d Hi Hd. destruct (Hdone i d Hi Hd) as [Ht Hid].
  split; [exact Ht|]. rewrite Hid. apply to_uint8_small. unfold MAX_DOSES in *. lia.
Qed.

Lemma lxor_uint8 (a b : Z) : is_uint8 a -> is_uint8 b -> is_uint8 (Z.lxor a b).
Proof.
  unfold is_uint8. intros Ha Hb.
  assert (Hnn : 0 <= Z.lxor a b) by (apply Z.lxor_nonneg; lia).
  split; [exact Hnn|].
  destruct (Z.eq_dec (Z.lxor a b) 0) as [->|Hne]; [lia|].
  apply (Z.log2_lt_pow2 (Z.lxor a b) 8); [lia|].
  pose proof (Z.log2_lxor a b ltac:(lia) ltac:(lia)) as Hlog.
  assert (Hla : Z.log2 a < 8).
  { destruct (Z.eq_dec a 0) as [->|]; [simpl; lia|].
    apply Z.log2_lt_pow2; lia. }
  assert (Hlb : Z.log2 b < 8).
  { destruct (Z.eq_dec b 0) as [->|]; [simpl; lia|].
    apply Z.log2_lt_pow2; lia. }
  lia.
Qed.

Lemma crcRound_injective (x y : Z) :
  is_uint8 x -> is_uint8 y -> crcRound x = crcRound y -> x = y.
Proof.
  unfold is_uint8. intros Hx Hy Heq.
  assert (Hall : crcRound_injective_on_bytes = true) by (vm_compute; reflexivity).
  unfold crcRound_injective_on_bytes in Hall.
  rewrite forallb_forall in Hall.
  specialize (Hall (Z.to_nat x)). rewrite in_seq in Hall.
  specialize (Hall ltac:(lia)). rewrite forallb_forall in Hall.
  specialize (Hall (Z.to_nat y)). rewrite in_seq in Hall.
  specialize (Hall ltac:(lia)).
  rewrite !Z2Nat.id in Hall by lia.
  apply orb_true_iff in Hall. destruct Hall as [Hn|Hn].
  - apply Nat.eqb_eq in Hn. lia.
  - apply negb_true_iff, Z.eqb_neq in Hn. contradiction.
Qed.

Lemma crcByte_round (crc byte : Z) :
  is_uint8 crc -> is_uint8 byte ->
  Storage.crcByte crc byte = crcRound (Z.lxor crc byte).
Proof.
  intros Hc Hb. unfold Storage.crcByte, crcRound.
  pose proof (lxor_uint8 crc byte Hc Hb) as Hx. unfold is_uint8 in Hx.
  unfold to_uint8. rewrite Z.mod_small by lia. reflexivity.
Qed.

Lemma crcByte_range (crc byte : Z) : is_uint8 (Storage.crcByte crc byte).
Proof.
  unfold Storage.crcByte. cbn [for_up]. apply crcShift_range.
Qed.

Lemma crcFold_range (data : list Z) (c : Z) :
  is_uint8 c -> is_uint8 (fold_left Storage.crcByte data c).
Proof.
  revert c. induction data as [|b data IH]; intros c Hc; [exact Hc|].
  cbn [fold_left]. apply IH, crcByte_range.
Qed.

(** Two different running values stay different over the same data. *)
Lemma crcFold_injective (data : list Z) :
  Forall is_uint8 data ->
  forall c1 c2, is_uint8 c1 -> is_uint8 c2 -> c1 <> c2 ->
    fold_left Storage.crcByte data c1 <> fold_left Storage.crcByte data c2.
Proof.
  induction 1 as [|b data Hb _ IH]; intros c1 c2 H1 H2 Hne; [exact Hne|].
  cbn [fold_left]. apply IH; try apply crcByte_range.
  rewrite !crcByte_round by assumption. intros Heq.
  apply crcRound_injective in Heq; try (apply lxor_uint8; assumption).
  apply Hne.
  assert (Hx : Z.lxor (Z.lxor c1 b) b = Z.lxor (Z.lxor c2 b) b) by (now rewrite Heq).
  rewrite !Z.lxor_assoc, !Z.lxor_nilpotent, !Z.lxor_0_r in Hx. exact Hx.
Qed.

(** Changing one byte of a block changes its CRC. *)
Lemma calculateCRC_insert (bytes : list Z) (pos : nat) (x b : Z) :
  Forall is_uint8 bytes -> is_uint8 b ->
  bytes !! pos = Some x -> x <> b ->
  Storage.calculateCRC (<[pos := b]> bytes) <> Storage.calculateCRC bytes.
Proof.
  intros Hall Hb Hx Hne.
  assert (Hpos : (pos < length bytes)%nat) by (now apply lookup_lt_Some in Hx).
  rewrite (insert_take_drop bytes pos b Hpos).
  rewrite <- (take_drop_middle bytes pos x Hx) at 3.
  unfold Storage.calculateCRC. rewrite !fold_left_app. cbn [fold_left].
  set (c := fold_left Storage.crcByte (take pos bytes) 0).
  assert (Hc : is_uint8 c) by (apply crcFold_range; unfold is_uint8; lia).
  assert (Hxr : is_uint8 x).
  { exact (Forall_lookup_1 _ _ _ _ Hall Hx). }
  apply crcFold_injective; try apply crcByte_range.
  - apply Forall_drop. exact Hall.
  - rewrite !crcByte_round by assumption. intros Heq.
    apply crcRound_injective in Heq; try (apply lxor_uint8; assumption).
    apply Hne.
    assert (Hy : Z.lxor c (Z.lxor c b) = Z.lxor c (Z.lxor c x)) by (now rewrite Heq).
    rewrite <- !Z.lxor_assoc, !Z.lxor_nilpotent, !Z.lxor_0_l in Hy. now symmetry.
Qed.

(** X20. The CRC guards the stored doses: for a store holding a consistent
    block (count 1 to [MAX_DOSES], four bytes per dose, the CRC of the block),
    [loadDoses] returns the count, and after any single byte of the block has
    changed on flash it returns 0 and leaves the caller's array untouched. *)
Theorem loadDoses_detects_corruption (stack : list Z) (st : Storage.t)
    (doses : list Dose) (n : nat) (bytes : list Z) (pos : nat) (x b : Z) :
  holds_block st n bytes ->
  bytes !! pos = Some x -> is_uint8 b -> x <> b ->
  fst (Storage.loadDoses stack st doses) = n /\
  Storage.loadDoses stack (corrupt st bytes pos b) doses = (0%nat, doses).
Proof.
  intros (Hinit & Hcount & Hblock & Hcrc & Hn & Hlen & Hall) Hx Hb Hne.
  assert (Hget : forall blob p, length blob = (n * 4)%nat ->
            p !! Storage.KEY_DOSES = Some (Storage.PBytes blob) ->
            Storage.getBytes Storage.KEY_DOSES stack (n * 4) p
            = ((n * 4)%nat, blob ++ drop (n * 4) stack)).
  { intros blob p Hl Hp. unfold Storage.getBytes. rewrite Hp, Hl.
    destruct (Nat.eqb_spec (n * 4) 0); [lia|]. cbn [orb].
    rewrite Nat.ltb_irrefl. reflexivity. }
  assert (Htake : forall blob, length blob = (n * 4)%nat ->
            take (n * 4) (blob ++ drop (n * 4) stack) = blob).
  { intros blob Hl. rewrite take_app_le by lia. apply take_ge. lia. }
  split.
  - unfold Storage.loadDoses. rewrite Hinit. cbn [negb].
    assert (Hc : Storage.getUChar Storage.KEY_DOSE_COUNT 0 (Storage.prefs st)
                 = Z.of_nat n) by (unfold Storage.getUChar; now rewrite Hcount).
    rewrite !Hc, !Nat2Z.id.
    destruct (Nat.eqb_spec n 0); [lia|]. cbn [orb].
    destruct (Nat.ltb_spec MAX_DOSES n); [lia|].
    rewrite (Hget bytes (Storage.prefs st) Hlen Hblock).
    rewrite Nat.eqb_refl. cbn [negb].
    rewrite (Htake bytes Hlen). unfold Storage.getUChar. rewrite Hcrc.
    rewrite Z.eqb_refl. reflexivity.
  - unfold Storage.loadDoses, corrupt. cbn [Storage.initialized Storage.prefs].
    rewrite Hinit. cbn [negb].
    assert (Hc : Storage.getUChar Storage.KEY_DOSE_COUNT 0
                   (<[Storage.KEY_DOSES := Storage.PBytes (<[pos := b]> bytes)]>
                      (Storage.prefs st)) = Z.of_nat n).
    { unfold Storage.getUChar. rewrite lookup_insert_ne by discriminate.
      now rewrite Hcount. }
    rewrite !Hc, !Nat2Z.id.
    destruct (Nat.eqb_spec n 0); [lia|]. cbn [orb].
    destruct (Nat.ltb_spec MAX_DOSES n); [lia|].
    rewrite (Hget (<[pos := b]> bytes));
      [| rewrite length_insert; exact Hlen | apply lookup_insert_eq].
    rewrite Nat.eqb_refl. cbn [negb].
    rewrite Htake by (rewrite length_insert; exact Hlen).
    unfold Storage.getUChar. rewrite lookup_insert_ne by discriminate. rewrite Hcrc.
    destruct (Z.eqb_spec (Storage.calculateCRC bytes)
                (Storage.calculateCRC (<[pos := b]> bytes))) as [Heq|_];
      [|reflexivity].
    exfalso. apply (calculateCRC_insert bytes pos x b Hall Hb Hx Hne). now symmetry.
Qed.

(** The three example doses are saved; then the hour of the first one flips
    from 8 to 9 on flash: nothing is loaded. *)
Lemma loadDoses_detects_corruption_witness :
  Storage.loadDoses blank_buffer (corrupt saved_store saved_bytes 0 9) DoseManager.fresh_slots
  = (0%nat, DoseManager.fresh_slots).
Proof.
  apply (loadDoses_detects_corruption blank_buffer saved_store DoseManager.fresh_slots 3
           saved_bytes 0 8 9).
  - split; [reflexivity|]. split; [reflexivity|]. split; [reflexivity|].
    split; [reflexivity|]. split; [vm_compute; lia|]. split; [reflexivity|].
    repeat constructor; vm_compute; intuition discriminate.
  - reflexivity.
  - vm_compute; intuition discriminate.
  - discriminate.
Defined.

Lemma logKey_not_setting (i : Z) (key : string) :
  key = Storage.KEY_ALARM_EN \/ key = Storage.KEY_MUTE_MODE \/
  key = Storage.KEY_LAST_DAY \/ key = Storage.KEY_DOSE_COUNT \/
  key = Storage.KEY_DOSES \/ key = Storage.KEY_CRC \/ key = Storage.KEY_VERSION ->
  Storage.logKey i <> key.
Proof.
  unfold Storage.logKey. intros [->|[->|[->|[->|[->|[->| ->]]]]]] H;
    cbn in H; discriminate H.
Qed.

(** X21. Settings and the last day survive: with the store open,
    [loadSettings] returns what [saveSettings] stored and [loadLastDay] the
    day [saveLastDay] stored (as a byte); saving doses, saving the day or
    logging a lid opening does not change the settings, and saving settings
    or logging does not change the last day; with the store not open,
    nothing is saved and the defaults (alarm enabled, not muted, day 0) are
    returned. *)
Theorem settings_survive (st : Storage.t) :
  (Storage.initialized st = true ->
   (forall a m, Storage.loadSettings (Storage.saveSettings st a m) = (a, m)) /\
   (forall day, Storage.loadLastDay (Storage.saveLastDay st day) = to_uint8 day) /\
   (forall stack doses count,
      Storage.loadSettings (Storage.saveDoses stack st doses count)
      = Storage.loadSettings st) /\
   (forall day, Storage.loadSettings (Storage.saveLastDay st day)
                = Storage.loadSettings st) /\
   (forall ts idx ot, Storage.loadSettings (Storage.logLidOpening st ts idx ot)
                      = Storage.loadSettings st) /\
   (forall a m, Storage.loadLastDay (Storage.saveSettings st a m)
                = Storage.loadLastDay st) /\
   (forall ts idx ot, Storage.loadLastDay (Storage.logLidOpening st ts idx ot)
                      = Storage.loadLastDay st)) /\
  (Storage.initialized st = false ->
   (forall a m, Storage.saveSettings st a m = st) /\
   Storage.loadSettings st = (true, false) /\ Storage.loadLastDay st = 0).
Proof.
  split.
  - intros Hinit.
    unfold Storage.loadSettings, Storage.loadLastDay, Storage.saveSettings,
      Storage.saveLastDay, Storage.saveDoses, Storage.logLidOpening.
    rewrite Hinit. cbn [negb Storage.initialized Storage.prefs].
    unfold Storage.getBool, Storage.getUChar, Storage.putBool, Storage.putUChar,
      Storage.putUShort.
    split; [|split; [|split; [|split; [|split; [|split]]]]].
    + intros a m. rewrite lookup_insert_eq.
      rewrite lookup_insert_ne by discriminate. rewrite lookup_insert_eq. reflexivity.
    + intros day. rewrite lookup_insert_eq. reflexivity.
    + intros stack doses count. unfold Storage.putBytes.
      destruct (take (count * 4) _);
        rewrite ?lookup_insert_ne by discriminate; reflexivity.
    + intros day. rewrite !lookup_insert_ne by discriminate. reflexivity.
    + intros ts idx ot. rewrite !(lookup_insert_ne _ Storage.KEY_LOG_COUNT) by discriminate.
      rewrite !lookup_insert_ne by (apply logKey_not_setting; tauto). reflexivity.
    + intros a m. rewrite !lookup_insert_ne by discriminate. reflexivity.
    + intros ts idx ot. rewrite (lookup_insert_ne _ Storage.KEY_LOG_COUNT) by discriminate.
      rewrite lookup_insert_ne by (apply logKey_not_setting; tauto). reflexivity.
  - intros Hinit.
    unfold Storage.loadSettings, Storage.loadLastDay, Storage.saveSettings.
    rewrite Hinit. cbn [negb]. split; [reflexivity|]. split; reflexivity.
Qed.

(** Muting the buzzer in the empty open store and reading the settings back. *)
Lemma settings_survive_witness :
  Storage.loadSettings (Storage.saveSettings empty_store true true) = (true, true).
Proof.
  apply (proj1 (settings_survive empty_store)). reflexivity.
Defined.

Lemma logKeys_distinct_true : logKeys_distinct = true.
Proof. vm_compute. reflexivity. Qed.

Lemma logKey_slot (i : Z) :
  0 <= i < 100 ->
  Storage.logKey i <> Storage.KEY_LOG_COUNT /\
  forall j, 0 <= j < 100 -> i <> j -> Storage.logKey i <> Storage.logKey j.
Proof.
  intros Hi. pose proof logKeys_distinct_true as Hall.
  unfold logKeys_distinct in Hall. rewrite forallb_forall in Hall.
  specialize (Hall (Z.to_nat i)). rewrite in_seq in Hall.
  specialize (Hall ltac:(lia)). rewrite Z2Nat.id in Hall by lia.
  apply andb_true_iff in Hall. destruct Hall as [Hcnt Hpairs].
  split.
  - apply negb_true_iff in Hcnt. now apply String.eqb_neq in Hcnt.
  - intros j Hj Hne. rewrite forallb_forall in Hpairs.
    specialize (Hpairs (Z.to_nat j)). rewrite in_seq in Hpairs.
    specialize (Hpairs ltac:(lia)). rewrite Z2Nat.id in Hpairs by lia.
    apply orb_true_iff in Hpairs. destruct Hpairs as [Heq|Hk].
    + apply Nat.eqb_eq in Heq. lia.
    + apply negb_true_iff in Hk. now apply String.eqb_neq in Hk.
Qed.

(** X22. The lid-opening log is a ring of [MAX_LOG_ENTRIES] slots: with the
    store open, [logLidOpening] writes the entry (dose index 255 when none)
    into the slot numbered by the count modulo [MAX_LOG_ENTRIES], leaves the
    other slots alone, and increases [getLogCount] by one (as a 16-bit
    counter); the stored doses are not touched. *)
Theorem logLidOpening_ring (st : Storage.t) (timestamp doseIndex : Z) (wasOnTime : bool) :
  Storage.initialized st = true ->
  let st' := Storage.logLidOpening st timestamp doseIndex wasOnTime in
  Storage.getLogCount st' = to_uint16 (Storage.getLogCount st + 1) /\
  Storage.prefs st' !! Storage.logKey (next_log_slot st) =
    Some (Storage.PLog timestamp
            (if doseIndex >=? 0 then to_uint8 doseIndex else 255) wasOnTime) /\
  (forall j, 0 <= j < Storage.MAX_LOG_ENTRIES -> j <> next_log_slot st ->
     Storage.prefs st' !! Storage.logKey j = Storage.prefs st !! Storage.logKey j) /\
  (forall stack doses, Storage.loadDoses stack st' doses = Storage.loadDoses stack st doses).
Proof.
  intros Hinit st'. subst st'.
  unfold next_log_slot, Storage.getLogCount, Storage.logLidOpening.
  rewrite Hinit. cbn [negb Storage.initialized Storage.prefs].
  set (c := Storage.getUShort Storage.KEY_LOG_COUNT 0 (Storage.prefs st)).
  unfold Storage.MAX_LOG_ENTRIES.
  assert (Hslot : 0 <= c mod 100 < 100) by lia.
  assert (Hu : to_uint8 (c mod 100) = c mod 100) by (unfold to_uint8; lia).
  rewrite Hu.
  destruct (logKey_slot (c mod 100) Hslot) as [Hcnt Hothers].
  unfold Storage.putUShort.
  split; [|split; [|split]].
  - unfold Storage.getUShort at 1. rewrite lookup_insert_eq. reflexivity.
  - rewrite lookup_insert_ne by (intros H; apply Hcnt; now symmetry).
    rewrite lookup_insert_eq. reflexivity.
  - intros j Hj Hne.
    rewrite lookup_insert_ne
      by (intros H; apply (proj1 (logKey_slot j Hj)); now symmetry).
    rewrite lookup_insert_ne; [reflexivity|].
    apply Hothers; [exact Hj | congruence].
  - intros stack doses. unfold Storage.loadDoses.
    cbn [Storage.initialized Storage.prefs]. rewrite Hinit.
    unfold Storage.getUChar, Storage.getBytes.
    rewrite !(lookup_insert_ne _ Storage.KEY_LOG_COUNT) by discriminate.
    rewrite !lookup_insert_ne by (apply logKey_not_setting; tauto).
    reflexivity.
Qed.

(** The first opening logged in the empty open store goes to slot 0 and is
    counted. *)
Lemma logLidOpening_ring_witness :
  Storage.getLogCount (Storage.logLidOpening empty_store 1000 2 true) = 1.
Proof.
  apply (logLidOpening_ring empty_store 1000 2 true). reflexivity.
Defined.

(** ** The main loop and its handlers *)

Lemma resetDailyStatus_none_taken (dm : DoseManager.t) (k : nat) :
  DoseManager.isDoseTaken (DoseManager.resetDailyStatus dm) k = false.
Proof.
  unfold DoseManager.isDoseTaken.
  change (DoseManager.doseCount (DoseManager.resetDailyStatus dm))
    with (DoseManager.doseCount dm).
  rewrite resetDailyStatus_slots.
  destruct (Nat.ltb_spec k (DoseManager.doseCount dm)); [|reflexivity].
  destruct (DoseManager.doses dm !! k); reflexivity.
Qed.

(** X23. The midnight check records the day it reads and resets once per day
    change: when the day read differs from the recorded one and the recorded
    one is not 0, every dose becomes not taken, the opening counter goes to 0
    and the day is saved; when the recorded day is 0 (a device that has never
    recorded a day) or equals the day read, doses, lid counter and storage
    are left alone; and a second check that reads the same day changes none
    of them. *)
Theorem midnight_reset_once (w : Main.World) (inp inp2 : Main.Input) :
  let day := fst (TimeManager.getDate (Main.timeManager w) (Main.millis inp) (Main.rtc inp)) in
  let w1 := Main.checkMidnightReset w inp in
  let w2 := Main.checkMidnightReset w1 inp2 in
  Main.currentDay (Main.systemState w1) = day /\
  (Main.currentDay (Main.systemState w) = 0 \/ day = Main.currentDay (Main.systemState w) ->
     Main.doseManager w1 = Main.doseManager w /\
     Main.lidSensor w1 = Main.lidSensor w /\ Main.storage w1 = Main.storage w) /\
  (Main.currentDay (Main.systemState w) <> 0 ->
   day <> Main.currentDay (Main.systemState w) ->
     (forall k, DoseManager.isDoseTaken (Main.doseManager w1) k = false) /\
     LidSensor.openingsToday (Main.lidSensor w1) = 0 /\
     Main.storage w1 = Storage.saveLastDay (Main.storage w) day) /\
  (fst (TimeManager.getDate (Main.timeManager w1) (Main.millis inp2) (Main.rtc inp2)) = day ->
     Main.doseManager w2 = Main.doseManager w1 /\
     Main.lidSensor w2 = Main.lidSensor w1 /\ Main.storage w2 = Main.storage w1).
Proof.
  intros day w1 w2.
  assert (Hstep : forall (v : Main.World) (i : Main.Input),
    let d := fst (TimeManager.getDate (Main.timeManager v) (Main.millis i) (Main.rtc i)) in
    Main.currentDay (Main.systemState (Main.checkMidnightReset v i)) = d /\
    (Main.currentDay (Main.systemState v) = 0 \/ d = Main.currentDay (Main.systemState v) ->
       Main.doseManager (Main.checkMidnightReset v i) = Main.doseManager v /\
       Main.lidSensor (Main.checkMidnightReset v i) = Main.lidSensor v /\
       Main.storage (Main.checkMidnightReset v i) = Main.storage v) /\
    (Main.currentDay (Main.systemState v) <> 0 ->
     d <> Main.currentDay (Main.systemState v) ->
       Main.doseManager (Main.checkMidnightReset v i)
         = DoseManager.resetDailyStatus (Main.doseManager v) /\
       Main.lidSensor (Main.checkMidnightReset v i)
         = LidSensor.resetDailyCount (Main.lidSensor v) /\
       Main.storage (Main.checkMidnightReset v i)
         = Storage.saveLastDay (Main.storage v) d)).
  { intros v i d. subst d. unfold Main.checkMidnightReset.
    destruct (TimeManager.getDate (Main.timeManager v) (Main.millis i) (Main.rtc i))
      as [d tm]. cbn [fst].
    destruct (Z.eqb_spec d (Main.currentDay (Main.systemState v)));
      destruct (Z.eqb_spec (Main.currentDay (Main.systemState v)) 0);
      cbn [negb andb Main.systemState Main.currentDay Main.with_currentDay
           Main.doseManager Main.lidSensor Main.storage];
      (split; [reflexivity|]); split; intros; try tauto; try lia;
      repeat split; reflexivity. }
  destruct (Hstep w inp) as (Hday & Hsame & Hreset).
  fold day in Hday, Hsame, Hreset. fold w1 in Hday, Hsame, Hreset.
  split; [exact Hday|]. split; [exact Hsame|]. split.
  - intros Hnz Hne. destruct (Hreset Hnz Hne) as (Hd & Hl & Hs).
    split; [|split].
    + intros k. rewrite Hd. apply resetDailyStatus_none_taken.
    + rewrite Hl. reflexivity.
    + exact Hs.
  - intros Hsame2. destruct (Hstep w1 inp2) as (_ & Hkeep & _).
    apply Hkeep. right. rewrite Hsame2, Hday. reflexivity.
Qed.

(** Midnight passes on the example device: the dose taken yesterday is not
    taken any more. *)
Lemma midnight_reset_once_witness :
  DoseManager.isDoseTaken
    (Main.doseManager (Main.checkMidnightReset world_before_midnight input_at_midnight)) 0
  = false.
Proof.
  apply (proj1 (proj2 (proj2 (midnight_reset_once world_before_midnight
                                input_at_midnight input_next_second)))).
  - vm_compute. discriminate.
  - vm_compute. discriminate.
Defined.

Lemma consumeEvent_other (h : ButtonHandler.t) (index j : nat) :
  j <> index ->
  ButtonHandler.buttons (snd (ButtonHandler.consumeEvent h index)) !! j
  = ButtonHandler.buttons h !! j.
Proof.
  intros Hne. unfold ButtonHandler.consumeEvent.
  destruct (BUTTON_COUNT <=? index)%nat; [reflexivity|].
  destruct (ButtonHandler.buttons h !! index); [|reflexivity].
  cbn [snd ButtonHandler.buttons]. now rewrite list_lookup_insert_ne by lia.
Qed.

(** [handleAlertState] with the button plumbing resolved: what it does is
    decided by the events pending on BACK and OK. *)
Lemma handleAlertState_events (w : Main.World) (inp : Main.Input)
    (bOK bBACK : ButtonHandler.ButtonState) :
  ButtonHandler.wf (Main.buttonHandler w) ->
  ButtonHandler.buttons (Main.buttonHandler w) !! ButtonHandler.BUTTON_OK = Some bOK ->
  ButtonHandler.buttons (Main.buttonHandler w) !! ButtonHandler.BUTTON_BACK = Some bBACK ->
  let s := Main.systemState w in
  let s1 :=
    if Main.snoozeActive s then
      if AlarmController.getSnoozeRemaining (Main.alarmController w) (Main.millis inp) =? 0
      then Main.with_snoozeActive s false else s
    else s in
  let snz := Main.is_short (ButtonHandler.pendingEvent bBACK)
             && negb (Main.snoozeActive s1) in
  let s2 := if snz then Main.with_snoozeActive s1 true else s1 in
  let ac2 := if snz
             then AlarmController.playConfirm
                    (AlarmController.snooze (Main.alarmController w) SNOOZE_DURATION
                       (Main.millis inp))
             else Main.alarmController w in
  let dismiss := Main.is_long (ButtonHandler.pendingEvent bOK) in
  let w' := Main.handleAlertState w inp in
  Main.systemState w' = (if dismiss then Main.with_alert_dismissed s2 else s2) /\
  Main.alarmController w' = (if dismiss then AlarmController.stopAlarm ac2 else ac2) /\
  Main.doseManager w' = Main.doseManager w /\
  Main.timeManager w' = Main.timeManager w /\
  Main.uiManager w' = Main.uiManager w /\
  Main.storage w' = Main.storage w /\
  Main.lidSensor w' = Main.lidSensor w.
Proof.
  intros Hwf Hok Hback s s1 snz s2 ac2 dismiss w'.
  subst w'. unfold Main.handleAlertState.
  fold s. fold s1.
  unfold ButtonHandler.getBackEvent, ButtonHandler.getOkEvent, ButtonHandler.getNextEvent.
  destruct (consumeEvent_channel (Main.buttonHandler w) ButtonHandler.BUTTON_BACK bBACK
              Hwf ltac:(vm_compute; lia) Hback) as (Heb & Hwf1 & _).
  pose proof (consumeEvent_other (Main.buttonHandler w) ButtonHandler.BUTTON_BACK
                ButtonHandler.BUTTON_OK ltac:(discriminate)) as Hok1.
  rewrite Hok in Hok1.
  destruct (ButtonHandler.consumeEvent (Main.buttonHandler w) ButtonHandler.BUTTON_BACK)
    as [eb bh1]. cbn [fst snd] in Heb, Hwf1, Hok1. subst eb.
  fold snz.
  destruct (consumeEvent_channel bh1 ButtonHandler.BUTTON_OK bOK
              Hwf1 ltac:(vm_compute; lia) Hok1) as (Heo & _ & _).
  destruct (ButtonHandler.consumeEvent bh1 ButtonHandler.BUTTON_OK) as [eo bh2].
  cbn [fst] in Heo. subst eo. fold dismiss.
  destruct snz; fold s2; fold ac2;
    destruct (ButtonHandler.consumeEvent bh2 ButtonHandler.BUTTON_NEXT) as [en bh3];
    destruct dismiss; cbn; repeat split.
Qed.

(** X24. Dismissing an alert by a long press of OK stops the alarm and
    returns to the home screen but does not mark the dose taken, so with
    alarms enabled and not muted a dose-time check that still finds a dose
    due (the same minute has not passed) raises the alert again and lights
    the display.  The alarm engine is then started again: with its buzzer
    enabled it is active, not snoozed, on the standard pattern, with the
    output on at the set volume; with its buzzer disabled (the engine's own
    flag, which [setEnabled] sets apart from the system flags) the alert is
    raised but the engine stays inactive and silent. *)
Theorem dismissed_alert_rings_again (w : Main.World) (inp inp2 : Main.Input)
    (bOK bBACK : ButtonHandler.ButtonState) (k : nat) :
  ButtonHandler.wf (Main.buttonHandler w) ->
  ButtonHandler.buttons (Main.buttonHandler w) !! ButtonHandler.BUTTON_OK = Some bOK ->
  ButtonHandler.buttons (Main.buttonHandler w) !! ButtonHandler.BUTTON_BACK = Some bBACK ->
  ButtonHandler.pendingEvent bOK = BTN_LONG_PRESS ->
  Main.alarmEnabled (Main.systemState w) = true ->
  Main.muteMode (Main.systemState w) = false ->
  DoseManager.checkDoseTime (Main.doseManager w)
    (fst (TimeManager.getCurrentTime (Main.timeManager w) (Main.millis inp2) (Main.rtc inp2)))
    = Z.of_nat k ->
  let w1 := Main.handleAlertState w inp in
  let w2 := Main.checkDoseTime w1 inp2 in
  (Main.alarmActive (Main.systemState w1) = false /\
   Main.snoozeActive (Main.systemState w1) = false /\
   Main.currentMenu (Main.systemState w1) = MENU_HOME /\
   AlarmController.active (Main.alarmController w1) = false /\
   AlarmController.duty (Main.alarmController w1) = 0 /\
   Main.doseManager w1 = Main.doseManager w) /\
  (Main.alarmActive (Main.systemState w2) = true /\
   Main.activeDoseIndex (Main.systemState w2) = Z.of_nat k /\
   Main.currentMenu (Main.systemState w2) = MENU_ALERT /\
   UIManager.isOn (Main.uiManager w2) = true /\
   Main.alarmController w2 =
     AlarmController.startAlarm (Main.alarmController w1)
       AlarmController.PATTERN_STANDARD (Main.millis inp2)) /\
  (AlarmController.buzzerEnabled (Main.alarmController w) = true ->
     AlarmController.active (Main.alarmController w2) = true /\
     AlarmController.snoozed (Main.alarmController w2) = false /\
     AlarmController.currentPattern (Main.alarmController w2)
       = AlarmController.PATTERN_STANDARD /\
     AlarmController.patternStep (Main.alarmController w2) = O /\
     AlarmController.buzzerOn (Main.alarmController w2) = true /\
     AlarmController.duty (Main.alarmController w2)
       = AlarmController.volume (Main.alarmController w)) /\
  (AlarmController.buzzerEnabled (Main.alarmController w) = false ->
     AlarmController.active (Main.alarmController w2) = false /\
     AlarmController.buzzerOn (Main.alarmController w2) = false /\
     AlarmController.duty (Main.alarmController w2) = 0).
Proof.
  intros Hwf Hok Hback Hlong Hen Hmute Hdue w1 w2.
  destruct (handleAlertState_events w inp bOK bBACK Hwf Hok Hback)
    as (Hs & Hac & Hdm & Htm & _).
  fold w1 in Hs, Hac, Hdm, Htm. rewrite Hlong in Hs, Hac.
  cbn [Main.is_long] in Hs, Hac.
  assert (Hflags : Main.alarmEnabled (Main.systemState w1) = true /\
                   Main.muteMode (Main.systemState w1) = false).
  { rewrite Hs. cbn [Main.with_alert_dismissed Main.alarmEnabled Main.muteMode].
    repeat match goal with |- context [if ?c then _ else _] => destruct c end;
      cbn [Main.with_snoozeActive Main.alarmEnabled Main.muteMode]; tauto. }
  destruct Hflags as [Hen1 Hmute1].
  (* the engine after the dismissal: stopped, its settings as before *)
  assert (Hengine :
    AlarmController.active (Main.alarmController w1) = false /\
    AlarmController.buzzerOn (Main.alarmController w1) = false /\
    AlarmController.duty (Main.alarmController w1) = 0 /\
    AlarmController.buzzerEnabled (Main.alarmController w1)
      = AlarmController.buzzerEnabled (Main.alarmController w) /\
    AlarmController.volume (Main.alarmController w1)
      = AlarmController.volume (Main.alarmController w)).
  { rewrite Hac.
    unfold AlarmController.playConfirm, AlarmController.playJingle,
      AlarmController.snooze.
    destruct (Main.alarmController w) as [a sn be bo vol cp se lt ps du].
    match goal with |- context [if ?c then _ else _] => destruct c end;
      destruct a, be; cbn; repeat split; reflexivity. }
  destruct Hengine as (Hinact & Hoff & Hduty & Hbuz & Hvol).
  assert (Hw2 :
    Main.alarmActive (Main.systemState w2) = true /\
    Main.activeDoseIndex (Main.systemState w2) = Z.of_nat k /\
    Main.currentMenu (Main.systemState w2) = MENU_ALERT /\
    UIManager.isOn (Main.uiManager w2) = true /\
    Main.alarmController w2 =
      AlarmController.startAlarm (Main.alarmController w1)
        AlarmController.PATTERN_STANDARD (Main.millis inp2)).
  { subst w2. unfold Main.checkDoseTime.
    rewrite Hen1, Hmute1. cbn [negb orb].
    assert (Ha : Main.alarmActive (Main.systemState w1) = false) by (rewrite Hs; reflexivity).
    assert (Hz : Main.snoozeActive (Main.systemState w1) = false) by (rewrite Hs; reflexivity).
    rewrite Ha, Hz. cbn [orb]. rewrite Htm, Hdm.
    destruct (TimeManager.getCurrentTime (Main.timeManager w) (Main.millis inp2)
                (Main.rtc inp2)) as [cur tm]. cbn [fst] in Hdue. rewrite Hdue.
    destruct (Z.geb_spec (Z.of_nat k) 0); [|lia].
    cbn. repeat split. }
  split; [|split; [exact Hw2|]].
  - split; [rewrite Hs; reflexivity|]. split; [rewrite Hs; reflexivity|].
    split; [rewrite Hs; reflexivity|]. split; [exact Hinact|].
    split; [exact Hduty | exact Hdm].
  - destruct Hw2 as (_ & _ & _ & _ & Hstart). rewrite Hstart.
    unfold AlarmController.startAlarm. split.
    + intros Hb. rewrite Hbuz, Hb. cbn. rewrite ?Hbuz, ?Hb, ?Hvol. repeat split.
    + intros Hb. rewrite Hbuz, Hb. cbn [negb].
      split; [exact Hinact|]. split; [exact Hoff | exact Hduty].
Qed.

(** The 6:00 PM alert of the example is dismissed at 6:00:30 PM; the check
    three seconds later raises it again for dose 2 and the alarm sounds. *)
Lemma dismissed_alert_rings_again_witness :
  Main.activeDoseIndex
    (Main.systemState
       (Main.checkDoseTime
          (Main.handleAlertState (world_alert_sounding ok_long_pending) input_lid_open)
          input_same_minute)) = 2 /\
  AlarmController.active
    (Main.alarmController
       (Main.checkDoseTime
          (Main.handleAlertState (world_alert_sounding ok_long_pending) input_lid_open)
          input_same_minute)) = true.
Proof.
  destruct (dismissed_alert_rings_again (world_alert_sounding ok_long_pending)
              input_lid_open input_same_minute
              (ButtonHandler.mkButton ButtonHandler.BTN_OK LOW LOW true 10 70 true
                 BTN_LONG_PRESS)
              (ButtonHandler.mkButton ButtonHandler.BTN_BACK HIGH HIGH false 0 0 false
                 BTN_NONE)
              2 eq_refl eq_refl eq_refl eq_refl eq_refl eq_refl eq_refl)
    as (_ & (_ & Hidx & _) & Hon & _).
  split; [exact Hidx|]. exact (proj1 (Hon eq_refl)).
Defined.

(** X25. A short press of BACK during a sounding alert snoozes it for
    [SNOOZE_DURATION] seconds: the snooze flag of the system and of the alarm
    engine are set, the output is silent, [getSnoozeRemaining] reads
    [SNOOZE_DURATION] at that moment and 0 from the deadline on, the doses are
    untouched, and while the snooze lasts the dose-time check raises no
    further alert. *)
Theorem back_press_snoozes (w : Main.World) (inp : Main.Input)
    (bOK bBACK : ButtonHandler.ButtonState) :
  ButtonHandler.wf (Main.buttonHandler w) ->
  ButtonHandler.buttons (Main.buttonHandler w) !! ButtonHandler.BUTTON_OK = Some bOK ->
  ButtonHandler.buttons (Main.buttonHandler w) !! ButtonHandler.BUTTON_BACK = Some bBACK ->
  ButtonHandler.pendingEvent bBACK = BTN_SHORT_PRESS ->
  ButtonHandler.pendingEvent bOK <> BTN_LONG_PRESS ->
  Main.snoozeActive (Main.systemState w) = false ->
  AlarmController.active (Main.alarmController w) = true ->
  0 <= Main.millis inp -> Main.millis inp + SNOOZE_DURATION * 1000 < 4294967296 ->
  let w1 := Main.handleAlertState w inp in
  Main.snoozeActive (Main.systemState w1) = true /\
  Main.alarmActive (Main.systemState w1) = Main.alarmActive (Main.systemState w) /\
  Main.currentMenu (Main.systemState w1) = Main.currentMenu (Main.systemState w) /\
  AlarmController.snoozed (Main.alarmController w1) = true /\
  AlarmController.duty (Main.alarmController w1) = 0 /\
  AlarmController.getSnoozeRemaining (Main.alarmController w1) (Main.millis inp)
    = SNOOZE_DURATION /\
  (forall t, Main.millis inp + SNOOZE_DURATION * 1000 <= t ->
     AlarmController.getSnoozeRemaining (Main.alarmController w1) t = 0) /\
  Main.doseManager w1 = Main.doseManager w /\
  (forall inp2, Main.checkDoseTime w1 inp2 = w1).
Proof.
  intros Hwf Hok Hback Hshort Hnl Hsnz Hact Hnow Hlim w1.
  unfold SNOOZE_DURATION in *.
  destruct (handleAlertState_events w inp bOK bBACK Hwf Hok Hback)
    as (Hs & Hac & Hdm & _).
  fold w1 in Hs, Hac, Hdm. rewrite Hshort, Hsnz in Hs, Hac.
  cbn [Main.is_short negb andb] in Hs, Hac. rewrite Hsnz in Hs, Hac.
  cbn [negb andb] in Hs, Hac.
  assert (Hd : Main.is_long (ButtonHandler.pendingEvent bOK) = false).
  { destruct (ButtonHandler.pendingEvent bOK); try reflexivity. contradiction. }
  rewrite Hd in Hs, Hac.
  assert (Hend : AlarmController.snoozeEndTime (Main.alarmController w1)
                 = Main.millis inp + 300000).
  { rewrite Hac. unfold AlarmController.playConfirm, AlarmController.playJingle,
      AlarmController.snooze, SNOOZE_DURATION. rewrite Hact. cbn [negb].
    destruct (AlarmController.buzzerEnabled (Main.alarmController w)); cbn;
      unfold to_uint32; lia. }
  assert (Hflag : AlarmController.snoozed (Main.alarmController w1) = true /\
                  AlarmController.duty (Main.alarmController w1) = 0).
  { rewrite Hac. unfold AlarmController.playConfirm, AlarmController.playJingle,
      AlarmController.snooze. rewrite Hact. cbn [negb].
    destruct (AlarmController.buzzerEnabled (Main.alarmController w)); cbn;
      split; reflexivity. }
  destruct Hflag as [Hsn Hduty].
  split; [rewrite Hs; reflexivity|]. split; [rewrite Hs; reflexivity|].
  split; [rewrite Hs; reflexivity|]. split; [exact Hsn|]. split; [exact Hduty|].
  split; [|split; [|split]].
  - unfold AlarmController.getSnoozeRemaining. rewrite Hsn, Hend. cbn [negb orb].
    destruct (Z.geb_spec (Main.millis inp) (Main.millis inp + 300000)); [lia|].
    unfold sub32, to_uint32, to_uint16. lia.
  - intros t Ht. unfold AlarmController.getSnoozeRemaining. rewrite Hsn, Hend.
    cbn [negb orb]. destruct (Z.geb_spec t (Main.millis inp + 300000)); [reflexivity | lia].
  - exact Hdm.
  - intros inp2. unfold Main.checkDoseTime.
    assert (Hz : Main.snoozeActive (Main.systemState w1) = true)
      by (rewrite Hs; reflexivity).
    rewrite Hz, orb_true_r. case_if; reflexivity.
Qed.

(** BACK is pressed while the 6:00 PM alert of the example sounds: the snooze
    screen starts from 300 seconds. *)
Lemma back_press_snoozes_witness :
  AlarmController.getSnoozeRemaining
    (Main.alarmController
       (Main.handleAlertState (world_alert_sounding back_short_pending) input_lid_open))
    5000 = 300.
Proof.
  apply (back_press_snoozes (world_alert_sounding back_short_pending) input_lid_open
           (ButtonHandler.mkButton ButtonHandler.BTN_OK HIGH HIGH false 0 0 false BTN_NONE)
           (ButtonHandler.mkButton ButtonHandler.BTN_BACK HIGH HIGH false 200 70 false
              BTN_SHORT_PRESS));
    try reflexivity.
  - discriminate.
  - vm_compute. discriminate.
Defined.

(** X26. A short press of OK on the alarm-settings screen flips the alarm
    switch and keeps the three copies of it in step: the system flag, the
    buzzer-enabled flag of the alarm engine, and (store open) the saved
    settings, which [loadSettings] then returns together with the unchanged
    mute flag; the doses are untouched, and once the switch is off the
    dose-time check raises no alert. *)
Theorem alarm_toggle_persists (w : Main.World) (inp : Main.Input)
    (bOK : ButtonHandler.ButtonState) :
  ButtonHandler.wf (Main.buttonHandler w) ->
  ButtonHandler.buttons (Main.buttonHandler w) !! ButtonHandler.BUTTON_OK = Some bOK ->
  ButtonHandler.pendingEvent bOK = BTN_SHORT_PRESS ->
  Storage.initialized (Main.storage w) = true ->
  let w1 := Main.handleAlarmToggle w inp in
  let en := negb (Main.alarmEnabled (Main.systemState w)) in
  Main.alarmEnabled (Main.systemState w1) = en /\
  Main.muteMode (Main.systemState w1) = Main.muteMode (Main.systemState w) /\
  AlarmController.buzzerEnabled (Main.alarmController w1) = en /\
  Storage.loadSettings (Main.storage w1) = (en, Main.muteMode (Main.systemState w)) /\
  Main.doseManager w1 = Main.doseManager w /\
  (en = false -> forall inp2, Main.checkDoseTime w1 inp2 = w1).
Proof.
  intros Hwf Hok Hshort Hinit w1 en.
  assert (Hfields :
    Main.alarmEnabled (Main.systemState w1) = en /\
    Main.muteMode (Main.systemState w1) = Main.muteMode (Main.systemState w) /\
    AlarmController.buzzerEnabled (Main.alarmController w1) = en /\
    Main.storage w1 = Storage.saveSettings (Main.storage w) en
                        (Main.muteMode (Main.systemState w)) /\
    Main.doseManager w1 = Main.doseManager w).
  { subst w1. unfold Main.handleAlarmToggle.
    unfold ButtonHandler.getBackEvent, ButtonHandler.getOkEvent,
      ButtonHandler.getNextEvent.
    destruct (consumeEvent_channel (Main.buttonHandler w) ButtonHandler.BUTTON_OK bOK
                Hwf ltac:(vm_compute; lia) Hok) as (Heo & _ & _).
    destruct (ButtonHandler.consumeEvent (Main.buttonHandler w) ButtonHandler.BUTTON_OK)
      as [eo bh1]. cbn [fst] in Heo. subst eo. rewrite Hshort.
    cbn [Main.is_short Main.buttonHandler].
    destruct (ButtonHandler.consumeEvent bh1 ButtonHandler.BUTTON_BACK) as [eb bh2].
    cbn [Main.systemState Main.timeManager Main.doseManager Main.uiManager
         Main.alarmController Main.lidSensor Main.storage Main.lastTimeCheck
         Main.buttonHandler].
    assert (Hplay : forall a, AlarmController.buzzerEnabled (AlarmController.playConfirm a)
                              = AlarmController.buzzerEnabled a).
    { intros a. unfold AlarmController.playConfirm, AlarmController.playJingle.
      destruct (AlarmController.buzzerEnabled a) eqn:E; cbn [negb]; [reflexivity | exact E]. }
    destruct (Main.is_short eb); [|destruct (Main.is_long eb)];
      cbn [Main.goToHome Main.systemState Main.timeManager Main.doseManager
           Main.uiManager Main.alarmController Main.lidSensor Main.storage
           Main.lastTimeCheck Main.buttonHandler];
      destruct (ButtonHandler.consumeEvent _ ButtonHandler.BUTTON_NEXT) as [en3 bh3];
      cbn [Main.systemState Main.doseManager Main.alarmController Main.storage
           Main.with_menu Main.with_alarmEnabled Main.alarmEnabled Main.muteMode];
      rewrite Hplay; repeat split. }
  destruct Hfields as (Hen & Hmute & Hbuz & Hst & Hdm).
  split; [exact Hen|]. split; [exact Hmute|]. split; [exact Hbuz|].
  split; [|split; [exact Hdm|]].
  - rewrite Hst. unfold Storage.loadSettings, Storage.saveSettings. rewrite Hinit.
    cbn [negb Storage.initialized Storage.prefs].
    unfold Storage.getBool, Storage.putBool.
    rewrite lookup_insert_eq. rewrite lookup_insert_ne by discriminate.
    rewrite lookup_insert_eq. reflexivity.
  - intros Hoff inp2. unfold Main.checkDoseTime. rewrite Hen, Hoff. reflexivity.
Qed.

(** On the example device the alarm switch is on; OK on the alarm-settings
    screen turns it off and the setting is saved. *)
Lemma alarm_toggle_persists_witness :
  Storage.loadSettings
    (Main.storage (Main.handleAlarmToggle world_alarm_settings input_lid_open))
  = (false, false).
Proof.
  apply (alarm_toggle_persists world_alarm_settings input_lid_open
           (ButtonHandler.mkButton ButtonHandler.BTN_OK HIGH HIGH false 200 70 false
              BTN_SHORT_PRESS)); reflexivity.
Defined.

(** X27. Opening the store: [begin] reports whether the namespace opened.
    On a namespace without a version entry (first run) it writes the
    defaults, after which the settings load as alarm enabled and not muted,
    the last day as 0, the log count as 0, the version as [STORAGE_VERSION]
    and no doses; on a namespace that has a version it leaves every other
    entry as it is; if the namespace does not open, the store stays closed:
    loads give the defaults and saves do nothing. *)
Theorem begin_first_run_defaults (opened : bool) (p : gmap string Storage.PrefValue) :
  let r := Storage.begin opened p in
  fst r = opened /\ Storage.initialized (snd r) = opened /\
  (opened = true -> Storage.getUChar Storage.KEY_VERSION 0 p = 0 ->
     Storage.loadSettings (snd r) = (true, false) /\
     Storage.loadLastDay (snd r) = 0 /\
     Storage.getLogCount (snd r) = 0 /\
     Storage.getVersion (snd r) = Storage.STORAGE_VERSION /\
     forall stack doses, Storage.loadDoses stack (snd r) doses = (0%nat, doses)) /\
  (opened = true -> Storage.getUChar Storage.KEY_VERSION 0 p <> 0 ->
     forall key, key <> Storage.KEY_VERSION -> Storage.prefs (snd r) !! key = p !! key) /\
  (opened = false ->
     Storage.prefs (snd r) = p /\
     Storage.loadSettings (snd r) = (true, false) /\
     Storage.loadLastDay (snd r) = 0 /\
     (forall stack doses, Storage.loadDoses stack (snd r) doses = (0%nat, doses)) /\
     (forall a m, Storage.saveSettings (snd r) a m = snd r) /\
     (forall stack doses n, Storage.saveDoses stack (snd r) doses n = snd r)).
Proof.
  intros r. subst r. unfold Storage.begin.
  destruct opened; cbn [negb].
  - destruct (Z.eqb_spec (Storage.getUChar Storage.KEY_VERSION 0 p) 0) as [Hz|Hnz].
    + cbn [fst snd Storage.initialized].
      split; [reflexivity|]. split; [reflexivity|].
      split; [|split; [intros _ H; contradiction | discriminate]].
      intros _ _.
      unfold Storage.loadSettings, Storage.loadLastDay, Storage.getLogCount,
        Storage.getVersion, Storage.loadDoses.
      cbn [negb Storage.initialized Storage.prefs].
      unfold Storage.putDefaults, Storage.getBool, Storage.getUChar, Storage.getUShort,
        Storage.putBool, Storage.putUChar, Storage.putUShort.
      repeat (rewrite ?lookup_insert_eq;
              first [rewrite lookup_insert_eq
                    | rewrite lookup_insert_ne by discriminate]).
      repeat split.
    + split; [case_if; reflexivity|]. split; [case_if; reflexivity|].
      split; [intros _ H; contradiction|]. split; [|discriminate].
      intros _ _ key Hkey. case_if; cbn [snd Storage.prefs]; [|reflexivity].
      unfold Storage.migrateData, Storage.putUChar.
      rewrite lookup_insert_ne by congruence. reflexivity.
  - cbn [fst snd Storage.initialized Storage.prefs].
    split; [reflexivity|]. split; [reflexivity|].
    split; [discriminate|]. split; [discriminate|]. intros _.
    repeat split.
Qed.

(** The first start on empty flash: no doses are loaded. *)
Lemma begin_first_run_defaults_witness :
  Storage.loadDoses blank_buffer (snd (Storage.begin true ∅)) DoseManager.fresh_slots
  = (0%nat, DoseManager.fresh_slots).
Proof.
  apply (proj1 (proj2 (proj2 (begin_first_run_defaults true ∅)))); reflexivity.
Defined.

(** ** UIManager *)

(** X28. The display times out after [SCREEN_TIMEOUT] ms without activity and
    not before: [checkTimeout] turns a lit display off exactly when that much
    time has passed since the last activity, [updateActivity] lights the
    display and restarts the period; in the main loop a time-out sends the
    menu to the home screen, and during an alert the display never times
    out. *)
Theorem screen_timeout (u : UIManager.t) (now : Z) :
  0 <= UIManager.lastActivity u <= now -> now < 4294967296 ->
  (fst (UIManager.checkTimeout u now) = true <->
     UIManager.displayOn u = true /\ now - UIManager.lastActivity u >= SCREEN_TIMEOUT) /\
  (fst (UIManager.checkTimeout u now) = true ->
     UIManager.isOn (snd (UIManager.checkTimeout u now)) = false) /\
  (fst (UIManager.checkTimeout u now) = false -> snd (UIManager.checkTimeout u now) = u) /\
  UIManager.isOn (UIManager.updateActivity u now) = true /\
  (forall t, now <= t < now + SCREEN_TIMEOUT -> t < 4294967296 ->
     UIManager.checkTimeout (UIManager.updateActivity u now) t
     = (false, UIManager.updateActivity u now)) /\
  (forall w inp, Main.uiManager w = u -> Main.millis inp = now ->
     (Main.alarmActive (Main.systemState w) = true -> Main.timeoutPhase w inp = w) /\
     (Main.alarmActive (Main.systemState w) = false ->
      fst (UIManager.checkTimeout u now) = true ->
      Main.currentMenu (Main.systemState (Main.timeoutPhase w inp)) = MENU_HOME /\
      UIManager.isOn (Main.uiManager (Main.timeoutPhase w inp)) = false)).
Proof.
  intros Hlast Hnow. unfold SCREEN_TIMEOUT.
  assert (Hsub : sub32 now (UIManager.lastActivity u) = now - UIManager.lastActivity u)
    by (apply sub32_small; lia).
  unfold UIManager.checkTimeout, SCREEN_TIMEOUT. rewrite Hsub.
  split; [|split; [|split; [|split; [|split]]]].
  - destruct (UIManager.displayOn u);
      destruct (Z.geb_spec (now - UIManager.lastActivity u) 180000); cbn;
      intuition (try discriminate; try lia).
  - destruct (UIManager.displayOn u && _); [reflexivity | discriminate].
  - destruct (UIManager.displayOn u && _); [discriminate | reflexivity].
  - unfold UIManager.updateActivity. cbn. destruct (UIManager.displayOn u); reflexivity.
  - intros t Ht Ht32.
    assert (Hua : UIManager.updateActivity u now = UIManager.mk true now).
    { unfold UIManager.updateActivity. cbn. destruct (UIManager.displayOn u); reflexivity. }
    rewrite Hua. cbn [UIManager.displayOn UIManager.lastActivity andb].
    rewrite sub32_small by lia.
    destruct (Z.geb_spec (t - now) 180000); [lia | reflexivity].
  - intros w inp Hu Hm. unfold Main.timeoutPhase. split.
    + intros ->. reflexivity.
    + intros -> Hfire. cbn [negb]. rewrite Hu, Hm.
      unfold UIManager.checkTimeout, SCREEN_TIMEOUT. rewrite Hsub.
      destruct (UIManager.displayOn u && _); [|discriminate].
      cbn. split; reflexivity.
Qed.

(** Three minutes after the last activity the example device, idle on a menu,
    is sent back to the home screen. *)
Lemma screen_timeout_witness :
  Main.currentMenu (Main.systemState (Main.timeoutPhase world_idle_on_menu
                                        input_after_3_min)) = MENU_HOME.
Proof.
  apply (proj2 (proj2 (proj2 (proj2 (proj2
           (screen_timeout (UIManager.mk true 1000) 181000
              ltac:(simpl; lia) ltac:(lia)))))) world_idle_on_menu input_after_3_min);
    reflexivity.
Defined.

(** ** Restoring the schedule at start-up *)

(** The bubble sort leaves an array alone that is sorted and numbered. *)
Lemma sortArray_sorted_id (n : nat) (a : list Dose) :
  (n <= 256)%nat ->
  sorted_upto n a ->
  (forall i d, (i < n)%nat -> a !! i = Some d -> id d = Z.of_nat i) ->
  DoseManager.sortArray n a = a.
Proof.
  intros Hn Hsorted Hids. unfold DoseManager.sortArray.
  assert (Hstep : forall j, (S j < n)%nat -> DoseManager.bubbleStep j a = a).
  { intros j Hj. unfold DoseManager.bubbleStep.
    destruct (a !! j) as [d1|] eqn:H1; [|reflexivity].
    destruct (a !! S j) as [d2|] eqn:H2; [|reflexivity].
    pose proof (Hsorted j (S j) d1 d2 ltac:(lia) Hj H1 H2) as Hle.
    unfold minuteOfDay in Hle.
    destruct (Z.gtb_spec (DoseManager.timeToMinutes (time d1))
                (DoseManager.timeToMinutes (time d2))); [lia | reflexivity]. }
  assert (Hpass : forall i, DoseManager.bubblePass n i a = a).
  { intros i. unfold DoseManager.bubblePass.
    apply (for_up_ind (fun _ b => b = a) DoseManager.bubbleStep (n - i - 1) 0 a eq_refl).
    intros k b Hk ->. apply Hstep. lia. }
  assert (Hsort : for_up 0 (n - 1) (DoseManager.bubblePass n) a = a).
  { apply (for_up_ind (fun _ b => b = a) (DoseManager.bubblePass n) (n - 1) 0 a eq_refl).
    intros k b _ ->. apply Hpass. }
  rewrite Hsort.
  apply (for_up_ind (fun _ b => b = a) DoseManager.assignId n 0 a eq_refl).
  intros k b Hk ->. unfold DoseManager.assignId.
  destruct (a !! k) as [d|] eqn:Hd; [|reflexivity].
  rewrite (to_uint8_small k ltac:(lia)), <- (Hids k d ltac:(lia) Hd).
  destruct d. cbn. apply list_insert_id. exact Hd.
Qed.

(** X29. Start-up restores a saved schedule faithfully: for loaded doses with
    valid times in ascending order and at least [MIN_DOSE_SPACING] minutes
    apart, the restore loop of [initializeSystem] (one [addDose] per loaded
    dose, then [setDoseEnabled(i, false)] for a disabled one) ends with the
    same number of doses, each at its position with its time and enabled
    flag, not taken, id = position. *)
Theorem restore_saved_schedule (loaded : list Dose) (count : nat) :
  saved_schedule loaded count ->
  let dm := Main.restoreDoses loaded count in
  DoseManager.wf dm /\ DoseManager.doseCount dm = count /\
  forall i d, (i < count)%nat -> loaded !! i = Some d ->
    DoseManager.doses dm !! i = Some (mkDose (time d) (enabled d) false (Z.of_nat i)).
Proof.
  intros (Hmax & Hlen & Hvalid & Hsorted & Hspaced) dm. subst dm.
  unfold Main.restoreDoses. unfold MAX_DOSES in Hmax.
  pose (P := fun (k : nat) (dm : DoseManager.t) =>
    DoseManager.wf dm /\ DoseManager.doseCount dm = k /\
    forall i d, (i < k)%nat -> loaded !! i = Some d ->
      DoseManager.doses dm !! i = Some (mkDose (time d) (enabled d) false (Z.of_nat i))).
  assert (HP : P (0 + count)%nat
                 (for_up 0 count (Main.restoreStep loaded) DoseManager.begin)).
  { apply for_up_ind.
    - split; [apply begin_wf|]. split; [reflexivity|]. intros i d Hi. lia.
    - intros k dm Hk (Hwf & Hcnt & Hdone). unfold P.
      destruct (lookup_lt_is_Some_2 loaded k ltac:(lia)) as [dk Hdk].
      unfold Main.restoreStep. rewrite Hdk.
      pose proof (Hvalid k dk ltac:(lia) Hdk) as Hvk.
      assert (Hwt : well_typed_time (time dk)).
      { destruct Hvk. unfold well_typed_time, is_uint8. lia. }
      assert (Hsv : stored_valid dm).
      { intros i d Hi Hd. rewrite Hcnt in Hi.
        destruct (lookup_lt_is_Some_2 loaded i ltac:(lia)) as [di Hdi].
        rewrite (Hdone i di Hi Hdi) in Hd. injection Hd as <-. cbn [time].
        apply (Hvalid i di); [lia | exact Hdi]. }
      (* the dose is accepted *)
      assert (Hadd : DoseManager.addDose dm (time dk) =
                (true, DoseManager.mk
                         (<[k := mkDose (time dk) true false (Z.of_nat k)]>
                            (DoseManager.doses dm)) (S k))).
      { unfold DoseManager.addDose. rewrite Hcnt.
        destruct (Nat.leb_spec MAX_DOSES k) as [Hge|_]; [unfold MAX_DOSES in Hge; lia|].
        rewrite (proj2 (isValidTime_true (time dk) Hwt) Hvk). cbn [negb].
        assert (Hfree : DoseManager.isTimeSlotAvailable dm (time dk) (-1) = true).
        { apply (isTimeSlotAvailable_iff dm (time dk) (-1) Hsv Hvk).
          intros i d Hi _ Hd. rewrite Hcnt in Hi.
          destruct (lookup_lt_is_Some_2 loaded i ltac:(lia)) as [di Hdi].
          rewrite (Hdone i di Hi Hdi) in Hd. injection Hd as <-. cbn [time].
          apply (Hspaced k i dk di); [lia | lia | lia | exact Hdk | exact Hdi]. }
        rewrite Hfree. cbn [negb]. f_equal.
        unfold DoseManager.sortDoses. cbn [DoseManager.doses DoseManager.doseCount].
        rewrite (to_uint8_small k ltac:(lia)). f_equal.
        destruct Hwf as [Hl _]. unfold MAX_DOSES in Hl.
        apply sortArray_sorted_id; [lia | |].
        - intros i j di dj Hij Hj Hi' Hj'.
          assert (Hli : exists li, loaded !! i = Some li /\ time di = time li).
          { destruct (lookup_lt_is_Some_2 loaded i ltac:(lia)) as [li Hli].
            exists li. split; [exact Hli|].
            rewrite list_lookup_insert_ne in Hi' by lia.
            rewrite (Hdone i li ltac:(lia) Hli) in Hi'. injection Hi' as <-. reflexivity. }
          destruct Hli as (li & Hli & ->).
          destruct (Nat.eq_dec j k) as [->|Hjk].
          + rewrite list_lookup_insert_eq in Hj' by lia. injection Hj' as <-. cbn [time].
            apply (Hsorted i k li dk); [lia | lia | exact Hli | exact Hdk].
          + rewrite list_lookup_insert_ne in Hj' by lia.
            destruct (lookup_lt_is_Some_2 loaded j ltac:(lia)) as [lj Hlj].
            rewrite (Hdone j lj ltac:(lia) Hlj) in Hj'. injection Hj' as <-. cbn [time].
            apply (Hsorted i j li lj); [lia | lia | exact Hli | exact Hlj].
        - intros i d Hi Hd. destruct (Nat.eq_dec i k) as [->|Hik].
          + rewrite list_lookup_insert_eq in Hd by lia. injection Hd as <-. reflexivity.
          + rewrite list_lookup_insert_ne in Hd by lia.
            destruct (lookup_lt_is_Some_2 loaded i ltac:(lia)) as [li Hli].
            rewrite (Hdone i li ltac:(lia) Hli) in Hd. injection Hd as <-. reflexivity. }
      rewrite Hadd. cbn [snd].
      destruct Hwf as [Hl Hc].
      assert (Hwf1 : DoseManager.wf
                (DoseManager.mk (<[k := mkDose (time dk) true false (Z.of_nat k)]>
                                   (DoseManager.doses dm)) (S k))).
      { split; cbn [DoseManager.doses DoseManager.doseCount];
          [rewrite length_insert; exact Hl | unfold MAX_DOSES; lia]. }
      unfold MAX_DOSES in Hl.
      destruct (enabled dk) eqn:Hen; cbn [negb].
      + split; [exact Hwf1|]. split; [reflexivity|].
        intros i d Hi Hd. cbn [DoseManager.doses].
        destruct (Nat.eq_dec i k) as [->|Hik].
        * rewrite list_lookup_insert_eq by lia.
          assert (d = dk) by congruence. subst d. rewrite Hen. reflexivity.
        * rewrite list_lookup_insert_ne by lia. apply Hdone; [lia | exact Hd].
      + unfold DoseManager.setDoseEnabled. cbn [DoseManager.doses DoseManager.doseCount].
        destruct (Nat.ltb_spec k (S k)); [|lia].
        split; [|split; [reflexivity|]].
        * split; cbn [DoseManager.doses DoseManager.doseCount];
            [|unfold MAX_DOSES; lia].
          destruct (modifyAt_time k (set_enabled false)
                      (<[k := mkDose (time dk) true false (Z.of_nat k)]>
                         (DoseManager.doses dm)) ltac:(reflexivity)) as [Hlm _].
          rewrite Hlm, length_insert. unfold MAX_DOSES. exact Hl.
        * intros i d Hi Hd. cbn [DoseManager.doses]. rewrite modifyAt_lookup.
          destruct (Nat.eqb_spec i k) as [->|Hik].
          -- rewrite list_lookup_insert_eq by lia.
             assert (d = dk) by congruence. subst d. rewrite Hen. reflexivity.
          -- rewrite list_lookup_insert_ne by lia. apply Hdone; [lia | exact Hd]. }
  exact HP.
Qed.

(** Two loaded doses, 8:00 AM enabled and 6:00 PM disabled, are restored in
    place. *)
Lemma restore_saved_schedule_witness :
  DoseManager.doses (Main.restoreDoses loaded_two 2) !! 1%nat
  = Some (mkDose t_6_00_PM false false 1).
Proof.
  assert (H : saved_schedule loaded_two 2).
  { split; [vm_compute; lia|]. split; [simpl; lia|]. split; [|split].
    - intros [|[|i]] d Hi Hd; try lia; injection Hd as <-; split; simpl; lia.
    - intros [|[|i]] [|[|j]] di dj Hij Hj Hdi Hdj; try lia.
      injection Hdi as <-. injection Hdj as <-. vm_compute. discriminate.
    - intros [|[|i]] [|[|j]] di dj Hne Hi Hj Hdi Hdj; try lia;
        injection Hdi as <-; injection Hdj as <-; vm_compute; discriminate. }
  exact (proj2 (proj2 (restore_saved_schedule loaded_two 2 H)) 1%nat
           (mkDose t_6_00_PM false false 1) ltac:(lia) eq_refl).
Defined.

(** ** The unconditional properties at concrete inputs *)

(** The second of two samples with the reed level HIGH, half a second apart,
    counts the opening. *)
Lemma lid_edges_follow_state_witness :
  LidSensor.justOpenedFlag (LidSensor.update (LidSensor.update lid_shut HIGH 1000) HIGH 1500)
    = true <->
  LidSensor.lidOpen (LidSensor.update lid_shut HIGH 1000) = false /\
  LidSensor.lidOpen (LidSensor.update (LidSensor.update lid_shut HIGH 1000) HIGH 1500) = true.
Proof.
  exact (proj1 (lid_edges_follow_state (LidSensor.update lid_shut HIGH 1000) HIGH 1500)).
Defined.

(** Loading from the store that holds the three example doses stays within
    the array. *)
Lemma loadDoses_fail_safe_witness :
  (fst (Storage.loadDoses blank_buffer saved_store DoseManager.fresh_slots) <= MAX_DOSES)%nat.
Proof.
  exact (proj1 (loadDoses_fail_safe blank_buffer saved_store DoseManager.fresh_slots)).
Defined.
